(** * HarkerBBALL: box-score efficiency metrics and shot-zone statistics

    A shallow embedding of [analyze_game.py] (class [GameAnalyzer]),
    [process_shots.py] ([assign_zone], [calculate_zone_stats],
    [create_zone_matrix]), [visualize_shots.py], the computed parts of
    [generate_gamma_prompt.py] and [main.py], followed by the properties of
    the specification that concern them and by further properties of the
    code.

    Modelling conventions.
    - A number read from a table is an exact rational ([Q]); a cell of a
      numeric column that the code tests with [pd.notna] / [pd.isna] is an
      [option Q], [None] standing for the missing value (NaN).  Text is a
      [string] of bytes, the UTF-8 encoding of the Python text (on which
      comparing, splitting at [":"] and searching for ["3PT"] give what
      they give on the text itself); a text cell that may be missing is
      [option string].
    - The builtins that read a number in a text, [int(s)] and [float(s)],
      belong to the interpreter: they are parameters of the embedding
      ([Interpreter], [float_of_str]), and the properties hold for every
      interpreter.
    - Every [/] of the source is the partial [py_div]: a zero divisor gives
      [None] (Python raises [ZeroDivisionError], numpy yields inf or NaN).
      The code runs in the [option] monad, so that "0 rather than an error"
      reads: the result is [Some] record and the field is 0.
    - The possession formula is also given on binary64 numbers
      ([Binary64]), to check the worked example as Python evaluates it.
    - [round(x, n)] is rounding of the exact value to [n] decimals, ties to
      even; [int(x)] truncates towards zero.
    - Arithmetic is exact: the rounding of binary64 operations and their
      overflow to infinity are not modelled.  A comparison between computed
      values agrees with the code's unless the exact values are equal or
      within rounding error of each other; what is exact in the code
      (guards on the data, integer counts, the conversion of an integer to
      a float and its [OverflowError]) is modelled as such.
    - [list.sort(key=..., reverse=True)] is the stable descending sort,
      embedded as a stable insertion sort. *)

From Stdlib Require Import ZArith QArith Qround Bool String Ascii List.
From Stdlib Require Import Lia Lqa Permutation Sorted DecimalString Floats.
Import ListNotations.

Set Implicit Arguments.

(** ** Python values and builtins *)

Module Py.

Local Open Scope Q_scope.

(** The exception monad: [None] is a raised exception. *)
Definition ret {A} (a : A) : option A := Some a.

Definition bind {A B} (m : option A) (k : A -> option B) : option B :=
  match m with
  | Some a => k a
  | None => None
  end.

(** [try: body except: handler] with a bare [except]. *)
Definition try_except {A} (body : option A) (handler : A) : A :=
  match body with
  | Some a => a
  | None => handler
  end.

(** [a < b] and [a > b] on numbers. *)
Definition ltb (a b : Q) : bool := negb (Qle_bool b a).
Definition gtb (a b : Q) : bool := ltb b a.

(** [a / b]. *)
Definition py_div (a b : Q) : option Q :=
  if Qeq_bool b 0 then None else Some (a / b).

(** The value of [a / d if d > 0 else 0]. *)
Definition guarded (a d : Q) : Q := if gtb d 0 then a / d else 0.

(** The value of [a / d * k if d > 0 else 0]. *)
Definition guarded_scaled (a d k : Q) : Q := if gtb d 0 then a / d * k else 0.

(** The builtins [min(a, b)] and [max(a, b)]: the first argument is kept
    unless the second is strictly smaller (resp. larger). *)
Definition min (a b : Q) : Q := if ltb b a then b else a.
Definition max (a b : Q) : Q := if gtb b a then b else a.

(** [int(x)] on a number: truncation towards zero. *)
Definition int (x : Q) : Z := Z.quot (Qnum x) (Z.pos (Qden x)).

(** Nearest integer, ties to even. *)
Definition round_half_even (t : Q) : Z :=
  let f := Qfloor t in
  match Qcompare (t - inject_Z f) (1 # 2) with
  | Lt => f
  | Gt => (f + 1)%Z
  | Eq => if Z.even f then f else (f + 1)%Z
  end.

(** [round(x, ndigits)]. *)
Definition round (x : Q) (ndigits : nat) : Q :=
  let scale := inject_Z (10 ^ Z.of_nat ndigits) in
  inject_Z (round_half_even (x * scale)) / scale.

(** [range(n)]: empty when [n <= 0]. *)
Definition range (n : Z) : list Z := map Z.of_nat (seq 0 (Z.to_nat n)).

(** [str(n)] for an integer. *)
Definition str_of_int (n : Z) : string := NilZero.string_of_int (Z.to_int n).

(** *** Strings *)

Local Open Scope string_scope.

(** [pat in s]. *)
Fixpoint contains (pat s : string) : bool :=
  String.prefix pat s ||
  match s with
  | EmptyString => false
  | String _ s' => contains pat s'
  end.

(** [s.split(sep)] for a one-character separator. *)
Fixpoint split (sep : ascii) (s : string) : list string :=
  match s with
  | EmptyString => [EmptyString]
  | String c s' =>
      if Ascii.eqb c sep then EmptyString :: split sep s'
      else match split sep s' with
           | p :: ps => String c p :: ps
           | [] => [String c EmptyString]
           end
  end.

(** The ASCII white space that [int(...)] strips: code points 9-13 and
    32. *)
Definition is_space (c : ascii) : bool :=
  let n := nat_of_ascii c in
  ((9 <=? n)%nat && (n <=? 13)%nat) || (n =? 32)%nat.

Fixpoint lstrip (s : string) : string :=
  match s with
  | EmptyString => EmptyString
  | String c s' => if is_space c then lstrip s' else s
  end.

Fixpoint rstrip (s : string) : string :=
  match s with
  | EmptyString => EmptyString
  | String c s' =>
      match rstrip s' with
      | EmptyString => if is_space c then EmptyString else String c EmptyString
      | r => String c r
      end
  end.

Definition strip (s : string) : string := rstrip (lstrip s).

Definition digit_val (c : ascii) : option Z :=
  let n := nat_of_ascii c in
  if ((48 <=? n)%nat && (n <=? 57)%nat) then Some (Z.of_nat (n - 48)) else None.

Definition is_digit (c : ascii) : bool :=
  match digit_val c with
  | Some _ => true
  | None => false
  end.

Fixpoint all_chars (f : ascii -> bool) (s : string) : bool :=
  match s with
  | EmptyString => true
  | String c s' => f c && all_chars f s'
  end.

(** Decimal digits, single underscores allowed between two digits.
    [prev] tells whether the previous character was a digit. *)
Fixpoint parse_digits (s : string) (acc : Z) (prev : bool) : option Z :=
  match s with
  | EmptyString => if prev then Some acc else None
  | String c s' =>
      match digit_val c with
      | Some d => parse_digits s' (10 * acc + d) true
      | None =>
          if Ascii.eqb c "_" && prev then parse_digits s' acc false else None
      end
  end.

(** [int(s)] restricted to ASCII text, base 10: an optional sign and
    decimal digits between ASCII white space; [None] is [ValueError].  It
    serves as the interpreter of the sample tables. *)
Definition int_of_ascii (s : string) : option Z :=
  match strip s with
  | String "+" r => parse_digits r 0 false
  | String "-" r => option_map Z.opp (parse_digits r 0 false)
  | t => parse_digits t 0 false
  end.

(** *** What belongs to the interpreter *)

(** [int(s)] on text.  Which digits and spaces of Unicode it accepts, and
    up to which length, is decided by the interpreter and its tables, not
    by the program: the embedding takes the function as given, and what is
    proved holds for every such function.  [None] is [ValueError]. *)
Class Interpreter : Type := { int_of_str : string -> option Z }.

(** An integer met by a float in an operation ([seconds / 60.0],
    [minutes + x]) is converted to a float; the conversion raises
    [OverflowError] ([None]) when the integer rounds beyond the largest
    binary64 number, that is from [2^1024 - 2^970] on. *)
Definition float_limit : Z := 2 ^ 1024 - 2 ^ 970.

Definition float_of_int (n : Z) : option Q :=
  if (Z.abs n <? float_limit)%Z then Some (inject_Z n) else None.

(** *** Stable descending sort *)

Section Sort.
Variables (A : Type) (key : A -> Q).

(** [x] originally precedes every element of [l]: it is placed before the
    first element whose key is not strictly greater. *)
Fixpoint insert_desc (x : A) (l : list A) : list A :=
  match l with
  | [] => [x]
  | y :: l' => if ltb (key x) (key y) then y :: insert_desc x l'
               else x :: y :: l'
  end.

(** [l.sort(key=key, reverse=True)]. *)
Definition sort_reverse (l : list A) : list A :=
  fold_right insert_desc [] l.

End Sort.

(** A [for] loop whose body appends to a list: [body] gives what one
    iteration appends, or raises. *)
Fixpoint for_append {A B} (body : A -> option (list B)) (l : list A)
  : option (list B) :=
  match l with
  | [] => Some []
  | a :: l' =>
      match body a with
      | Some bs =>
          match for_append body l' with
          | Some rest => Some (bs ++ rest)%list
          | None => None
          end
      | None => None
      end
  end.

End Py.

Declare Scope py_scope.
Delimit Scope py_scope with py.
Notation "x <- m ;; k" := (Py.bind m (fun x => k))
  (at level 61, m at next level, right associativity) : py_scope.
Notation "a // b" := (Py.py_div a b) (at level 40, left associativity) : py_scope.
Notation "a >? b" := (Py.gtb a b) (at level 70, no associativity) : py_scope.

(** ** analyze_game.py *)

Module AnalyzeGame.

Local Open Scope Q_scope.
Local Open Scope py_scope.
Import Py.

(** A cell of a column that may hold numbers, text or nothing. *)
Inductive cell : Type :=
| Num (q : Q)
| Str (s : string)
| NaN.

Definition cell_of_num (v : option Q) : cell :=
  match v with
  | Some q => Num q
  | None => NaN
  end.

(** One row of the team box score (the columns the analyzer reads). *)
Record TeamStats : Type := {
  Team : string;
  Points : Q;
  FG_Attempts : Q;
  Offensive_Rebounds : Q;
  Defensive_Rebounds : Q;
  Rebounds : Q;
  Turnovers : Q;
  FT_Att : Q;
  Effective_Field_Goal_pct : option Q;
  True_Shooting_pct : option Q;
  _2FG_Made : Q;
  _2FG_Attempts : Q;
  _3FG_Made : Q;
  _3FG_Attempts : Q;
  _3FG_Att : Q;
  _2FG_pct : Q;
  _3FG_pct : Q;
  AST_TO_Ratio : Q;
  Turnover_pct : Q;
  Points_Per_Possession : Q;
  Offensive_Rebounding_pct : Q;
  Defensive_Rebounding_pct : Q
}.

(** One row of the player table. *)
Record Player : Type := {
  P_Team : string;
  Athlete : string;
  Number : cell;                       (* '#' *)
  Basic_MP : option string;
  Basic_TO : option Q;
  Basic_TRB : option Q;
  Basic_ORB : option Q;
  Basic_DRB : option Q;
  Basic_FGA : option Q;
  Basic_FGM : option Q;
  Basic_FG_pct : cell;
  Shooting_eFG_pct : cell;
  Shooting_TS_pct : cell;
  Advanced_AST_TO : option Q;
  Advanced_USG_pct : option Q;
  Advanced_ORB_pct : option Q;
  Advanced_DRB_pct : option Q
}.

(** The state of a [GameAnalyzer] after [__init__]. *)
Record GameAnalyzer : Type := {
  our_team_stats : TeamStats;
  opponent_stats : TeamStats;
  our_players : list Player;
  our_possessions : Q;
  opponent_possessions : Q
}.

Definition _calculate_possessions (team_stats : TeamStats) : Q :=
  let fga := FG_Attempts team_stats in
  let orb := Offensive_Rebounds team_stats in
  let to := Turnovers team_stats in
  let fta := FT_Att team_stats in
  let possessions := fga - orb + to + (0.44 * fta) in
  possessions.

(** The same formula on IEEE 754 binary64 numbers. *)
Module Binary64.
Local Set Warnings "-inexact-float".
Definition _calculate_possessions (fga orb to fta : float) : float :=
  (fga - orb + to + (0.44 * fta))%float.

Definition example : float := 68.6%float.
End Binary64.

(** [df[df['Team'] == name].iloc[0]]: [None] is [IndexError]. *)
Definition team_row (team_df : list TeamStats) (name : string)
  : option TeamStats :=
  List.find (fun r => String.eqb (Team r) name) team_df.

Definition __init__ (team_df : list TeamStats) (player_df : list Player)
    (our_team opponent_team : string) : option GameAnalyzer :=
  our <- team_row team_df our_team ;;
  opp <- team_row team_df opponent_team ;;
  let players := filter (fun p => String.eqb (P_Team p) "home") player_df in
  ret {| our_team_stats := our;
         opponent_stats := opp;
         our_players := players;
         our_possessions := _calculate_possessions our;
         opponent_possessions := _calculate_possessions opp |}.

Section Minutes.
Context {I : Interpreter}.

Definition _parse_minutes (time_str : option string) : Q :=
  match time_str with
  | None => 0
  | Some s =>
      if String.eqb s "—" then 0
      else
        try_except
          (let parts := split ":" s in
           if Nat.eqb (length parts) 2 then
             minutes <- int_of_str (nth 0 parts EmptyString) ;;
             seconds <- int_of_str (nth 1 parts EmptyString) ;;
             seconds_f <- float_of_int seconds ;;
             frac <- seconds_f // 60 ;;
             minutes_f <- float_of_int minutes ;;
             ret (minutes_f + frac)
           else ret 0)
          0
  end.

End Minutes.

(** [x if pd.notna(x) else 0]. *)
Definition or_zero (x : option Q) : Q :=
  match x with
  | Some q => q
  | None => 0
  end.

(** *** calculate_efficiency_metrics *)

Record OurEfficiency : Type := {
  points : Q;
  possessions : Q;
  ppp : Q;
  pps : Q;
  efg : Q;
  ts : Q;
  _2pt_fgm : Q;
  _2pt_fga : Q;
  _2pt_pct : Q;
  _2pt_pps : Q;
  _3pt_fgm : Q;
  _3pt_fga : Q;
  _3pt_pct : Q;
  _3pt_pps : Q
}.

Record OppEfficiency : Type := {
  opp_points : Q;
  opp_possessions : Q;
  opp_ppp : Q;
  opp_pps : Q;
  opp_efg : Q;
  opp_ts : Q
}.

Record EfficiencyMetrics : Type := {
  our_team : OurEfficiency;
  opponent : OppEfficiency
}.

Definition calculate_efficiency_metrics (self : GameAnalyzer)
  : option EfficiencyMetrics :=
  let our := our_team_stats self in
  let opp := opponent_stats self in
  our_ppp <- (if our_possessions self >? 0
              then Points our // our_possessions self else ret 0) ;;
  opp_ppp <- (if opponent_possessions self >? 0
              then Points opp // opponent_possessions self else ret 0) ;;
  our_pps <- (if FG_Attempts our >? 0
              then Points our // FG_Attempts our else ret 0) ;;
  opp_pps <- (if FG_Attempts opp >? 0
              then Points opp // FG_Attempts opp else ret 0) ;;
  our_efg <- match Effective_Field_Goal_pct our with
             | Some v => v // 100 | None => ret 0 end ;;
  opp_efg <- match Effective_Field_Goal_pct opp with
             | Some v => v // 100 | None => ret 0 end ;;
  our_ts <- match True_Shooting_pct our with
            | Some v => v // 100 | None => ret 0 end ;;
  opp_ts <- match True_Shooting_pct opp with
            | Some v => v // 100 | None => ret 0 end ;;
  let our_2pt_fgm := _2FG_Made our in
  let our_2pt_fga := _2FG_Attempts our in
  let our_3pt_fgm := _3FG_Made our in
  let our_3pt_fga := _3FG_Attempts our in
  our_2pt_pct <- (if our_2pt_fga >? 0
                  then r <- our_2pt_fgm // our_2pt_fga ;; ret (r * 100)
                  else ret 0) ;;
  our_3pt_pct <- (if our_3pt_fga >? 0
                  then r <- our_3pt_fgm // our_3pt_fga ;; ret (r * 100)
                  else ret 0) ;;
  r2 <- our_2pt_pct // 100 ;;
  let our_2pt_pps := r2 * 2 in
  r3 <- our_3pt_pct // 100 ;;
  let our_3pt_pps := r3 * 3 in
  ret {| our_team :=
           {| points := Points our;
              possessions := round (our_possessions self) 2;
              ppp := round our_ppp 3;
              pps := round our_pps 3;
              efg := round (our_efg * 100) 2;
              ts := round (our_ts * 100) 2;
              _2pt_fgm := our_2pt_fgm;
              _2pt_fga := our_2pt_fga;
              _2pt_pct := round our_2pt_pct 2;
              _2pt_pps := round our_2pt_pps 3;
              _3pt_fgm := our_3pt_fgm;
              _3pt_fga := our_3pt_fga;
              _3pt_pct := round our_3pt_pct 2;
              _3pt_pps := round our_3pt_pps 3 |};
         opponent :=
           {| opp_points := Points opp;
              opp_possessions := round (opponent_possessions self) 2;
              opp_ppp := round opp_ppp 3;
              opp_pps := round opp_pps 3;
              opp_efg := round (opp_efg * 100) 2;
              opp_ts := round (opp_ts * 100) 2 |} |}.

(** *** analyze_turnovers *)

Module TO.
Record entry : Type := {
  player : string;
  number : cell;
  turnovers : Q;
  to_per_36 : Q;
  ast_to_ratio : Q;
  usage : Q;
  minutes : Q
}.

(** The recommendation texts, by the branch that emits them. *)
Inductive recommendation : Type :=
| Critical_rate                       (* "CRITICAL: Turnover rate is very high ..." *)
| Warning_rate                        (* "WARNING: Turnover rate is elevated ..." *)
| Low_ast_to_ratio                    (* "Low assist-to-turnover ratio. ..." *)
| High_player_rate (player : string) (number : cell).

Record report : Type := {
  our_turnovers : Z;
  opponent_turnovers : Z;
  our_to_rate : Q;
  opp_to_rate : Q;
  our_ast_to_ratio : Q;
  our_turnover_pct : Q;
  potential_points_lost : Q;
  top_turnover_players : list entry;
  recommendations : list recommendation
}.
End TO.

Section Turnovers.
Context {I : Interpreter}.

(** The body of the player loop of [analyze_turnovers]. *)
Definition turnover_body (player : Player) : option (list TO.entry) :=
  match Basic_TO player with
  | Some to =>
      if to >? 0 then
        let minutes := _parse_minutes (Basic_MP player) in
        to_per_36 <- (if minutes >? 0
                      then r <- to // minutes ;; ret (r * 36) else ret 0) ;;
        let ast_to := or_zero (Advanced_AST_TO player) in
        let usage := or_zero (Advanced_USG_pct player) in
        ret [ {| TO.player := Athlete player;
                 TO.number := Number player;
                 TO.turnovers := to;
                 TO.to_per_36 := round to_per_36 2;
                 TO.ast_to_ratio := round ast_to 2;
                 TO.usage := round usage 2;
                 TO.minutes := minutes |} ]
      else ret []
  | None => ret []
  end.

(** The list [player_turnovers] once sorted (source lines 119-137). *)
Definition player_turnovers (self : GameAnalyzer) : option (list TO.entry) :=
  l <- for_append turnover_body (our_players self) ;;
  ret (sort_reverse TO.turnovers l).

Definition analyze_turnovers (self : GameAnalyzer) : option TO.report :=
  let our_to := Turnovers (our_team_stats self) in
  let opp_to := Turnovers (opponent_stats self) in
  let our_ast_to_ratio := AST_TO_Ratio (our_team_stats self) in
  let our_turnover_pct := Turnover_pct (our_team_stats self) in
  our_to_rate <- (if our_possessions self >? 0
                  then r <- our_to // our_possessions self ;; ret (r * 100)
                  else ret 0) ;;
  opp_to_rate <- (if opponent_possessions self >? 0
                  then r <- opp_to // opponent_possessions self ;; ret (r * 100)
                  else ret 0) ;;
  player_turnovers <- player_turnovers self ;;
  let our_ppp := Points_Per_Possession (our_team_stats self) in
  let potential_points_lost := our_to * our_ppp in
  let recommendations :=
    ((if our_to_rate >? 20 then [TO.Critical_rate]
      else if our_to_rate >? 15 then [TO.Warning_rate] else [])
     ++ (if ltb our_ast_to_ratio 1 then [TO.Low_ast_to_ratio] else [])
     ++ (match player_turnovers with
         | top_to_player :: _ =>
             if TO.to_per_36 top_to_player >? 5
             then [TO.High_player_rate (TO.player top_to_player)
                                       (TO.number top_to_player)]
             else []
         | [] => []
         end))%list in
  ret {| TO.our_turnovers := int our_to;
         TO.opponent_turnovers := int opp_to;
         TO.our_to_rate := round our_to_rate 2;
         TO.opp_to_rate := round opp_to_rate 2;
         TO.our_ast_to_ratio := round our_ast_to_ratio 2;
         TO.our_turnover_pct := round our_turnover_pct 2;
         TO.potential_points_lost := round potential_points_lost 2;
         TO.top_turnover_players := firstn 5 player_turnovers;
         TO.recommendations := recommendations |}.

End Turnovers.

(** *** analyze_rebounding *)

Module REB.
Record entry : Type := {
  player : string;
  number : cell;
  total_reb : Q;
  orb : option Q;
  drb : option Q;
  reb_per_36 : Q;
  orb_pct : Q;
  drb_pct : Q;
  minutes : Q
}.

Inductive recommendation : Type :=
| Low_offensive_rebounding            (* "Offensive rebounding below average ..." *)
| Opponent_strong (opp_orb_pct : Q)   (* "ALERT: Opponent offensive rebounding ..." *)
| Losing_battle                       (* "Losing the rebounding battle ..." *)
| Giving_up_offensive_rebounds.       (* "Giving up too many offensive rebounds ..." *)

Record team : Type := {
  total_rebounds : Z;
  offensive_rebounds : Z;
  defensive_rebounds : Z;
  team_orb_pct : Q;                   (* 'orb_pct' *)
  team_drb_pct : Q                    (* 'drb_pct' *)
}.

Record report : Type := {
  our_team : team;
  opponent : team;
  rebound_margin : Z;
  orb_margin : Z;
  second_chance_opps : Z * Z;         (* 'our_team', 'opponent' *)
  top_rebounders : list entry;
  recommendations : list recommendation
}.
End REB.

Section Rebounding.
Context {I : Interpreter}.

Definition rebound_body (player : Player) : option (list REB.entry) :=
  match Basic_TRB player with
  | Some trb =>
      if trb >? 0 then
        let minutes := _parse_minutes (Basic_MP player) in
        reb_per_36 <- (if minutes >? 0
                       then r <- trb // minutes ;; ret (r * 36) else ret 0) ;;
        let orb_pct := or_zero (Advanced_ORB_pct player) in
        let drb_pct := or_zero (Advanced_DRB_pct player) in
        ret [ {| REB.player := Athlete player;
                 REB.number := Number player;
                 REB.total_reb := trb;
                 REB.orb := Basic_ORB player;
                 REB.drb := Basic_DRB player;
                 REB.reb_per_36 := round reb_per_36 2;
                 REB.orb_pct := round orb_pct 2;
                 REB.drb_pct := round drb_pct 2;
                 REB.minutes := minutes |} ]
      else ret []
  | None => ret []
  end.

Definition player_rebounds (self : GameAnalyzer) : option (list REB.entry) :=
  l <- for_append rebound_body (our_players self) ;;
  ret (sort_reverse REB.total_reb l).

Definition analyze_rebounding (self : GameAnalyzer) : option REB.report :=
  let our := our_team_stats self in
  let opp := opponent_stats self in
  let our_orb_pct := Offensive_Rebounding_pct our in
  let our_drb_pct := Defensive_Rebounding_pct our in
  let opp_orb_pct := Offensive_Rebounding_pct opp in
  let opp_drb_pct := Defensive_Rebounding_pct opp in
  let our_reb := Rebounds our in
  let opp_reb := Rebounds opp in
  let our_orb := Offensive_Rebounds our in
  let our_drb := Defensive_Rebounds our in
  let opp_orb := Offensive_Rebounds opp in
  let opp_drb := Defensive_Rebounds opp in
  let our_second_chance_opps := our_orb in
  let opp_second_chance_opps := opp_orb in
  let rebound_margin := our_reb - opp_reb in
  let orb_margin := our_orb - opp_orb in
  player_rebounds <- player_rebounds self ;;
  let recommendations :=
    ((if ltb our_orb_pct 25 then [REB.Low_offensive_rebounding] else [])
     ++ (if opp_orb_pct >? 35 then [REB.Opponent_strong opp_orb_pct] else [])
     ++ (if ltb rebound_margin (-5) then [REB.Losing_battle] else [])
     ++ (if ltb orb_margin (-3) then [REB.Giving_up_offensive_rebounds]
         else []))%list in
  ret {| REB.our_team :=
           {| REB.total_rebounds := int our_reb;
              REB.offensive_rebounds := int our_orb;
              REB.defensive_rebounds := int our_drb;
              REB.team_orb_pct := round our_orb_pct 2;
              REB.team_drb_pct := round our_drb_pct 2 |};
         REB.opponent :=
           {| REB.total_rebounds := int opp_reb;
              REB.offensive_rebounds := int opp_orb;
              REB.defensive_rebounds := int opp_drb;
              REB.team_orb_pct := round opp_orb_pct 2;
              REB.team_drb_pct := round opp_drb_pct 2 |};
         REB.rebound_margin := int rebound_margin;
         REB.orb_margin := int orb_margin;
         REB.second_chance_opps :=
           (int our_second_chance_opps, int opp_second_chance_opps);
         REB.top_rebounders := firstn 5 player_rebounds;
         REB.recommendations := recommendations |}.

End Rebounding.

(** *** optimize_shot_selection *)

Module SHOT.
Record entry : Type := {
  player : string;
  number : cell;
  fga : Z;
  fgm : Z;
  fg_pct : Q;
  efg : Q;
  ts : Q;
  usage : Q
}.

(** ['optimal_mix']: the recommendation and the two expected values quoted
    in its reason. *)
Inductive optimal_mix : Type :=
| Increase_3pt (three two : Q)        (* "Increase 3-point attempts" *)
| Focus_2pt (two three : Q).          (* "Focus on high-percentage 2-point shots" *)

Inductive recommendation : Type :=
| Inefficient_3pt                     (* "3-point shooting is inefficient ..." *)
| Low_2pt.                            (* "2-point shooting below 40%. ..." *)

Record report : Type := {
  _2pt_expected_value : Q;
  _3pt_expected_value : Q;
  current_2pt_rate : Q;
  current_3pt_rate : Q;
  mix : optimal_mix;                  (* 'optimal_mix' *)
  top_shooters : list entry;
  recommendations : list recommendation
}.
End SHOT.

Section ShotSelection.

(** [float(s)] on text, a Python builtin: [None] is [ValueError]. *)
Variable float_of_str : string -> option Q.

Definition safe_float (val : cell) (default : Q) : Q :=
  match val with
  | NaN => default
  | Num q => q
  | Str s =>
      if String.eqb s "—" || String.eqb s "" then default
      else try_except (float_of_str s) default
  end.

Definition shot_body (player : Player) : option (list SHOT.entry) :=
  match Basic_FGA player with
  | Some att =>
      if att >? 0 then
        let fg_pct := safe_float (Basic_FG_pct player) 0 in
        let efg := safe_float (Shooting_eFG_pct player) 0 in
        let ts := safe_float (Shooting_TS_pct player) 0 in
        let usage := safe_float (cell_of_num (Advanced_USG_pct player)) 0 in
        ret [ {| SHOT.player := Athlete player;
                 SHOT.number := Number player;
                 SHOT.fga := match Basic_FGA player with
                             | Some v => int v | None => 0%Z end;
                 SHOT.fgm := match Basic_FGM player with
                             | Some v => int v | None => 0%Z end;
                 SHOT.fg_pct := if fg_pct >? 0 then round (fg_pct * 100) 2
                                else 0;
                 SHOT.efg := round efg 2;
                 SHOT.ts := round ts 2;
                 SHOT.usage := round usage 2 |} ]
      else ret []
  | None => ret []
  end.

Definition player_shots (self : GameAnalyzer) : option (list SHOT.entry) :=
  l <- for_append shot_body (our_players self) ;;
  ret (sort_reverse (fun x => inject_Z (SHOT.fga x)) l).

Definition optimize_shot_selection (self : GameAnalyzer)
  : option SHOT.report :=
  let our := our_team_stats self in
  our_2pt_pct <- _2FG_pct our // 100 ;;
  our_3pt_pct <- _3FG_pct our // 100 ;;
  let our_2pt_expected := our_2pt_pct * 2 in
  let our_3pt_expected := our_3pt_pct * 3 in
  let total_fga := FG_Attempts our in
  our_2pt_rate <- (if total_fga >? 0
                   then _2FG_Attempts our // total_fga else ret 0) ;;
  our_3pt_rate <- (if total_fga >? 0
                   then _3FG_Att our // total_fga else ret 0) ;;
  let optimal_mix :=
    if our_3pt_expected >? our_2pt_expected
    then SHOT.Increase_3pt our_3pt_expected our_2pt_expected
    else SHOT.Focus_2pt our_2pt_expected our_3pt_expected in
  player_shots <- player_shots self ;;
  let recommendations :=
    ((if ltb our_3pt_pct 0.30 && (our_3pt_rate >? 0.50)
      then [SHOT.Inefficient_3pt] else [])
     ++ (if ltb our_2pt_pct 0.40 then [SHOT.Low_2pt] else []))%list in
  ret {| SHOT._2pt_expected_value := round our_2pt_expected 3;
         SHOT._3pt_expected_value := round our_3pt_expected 3;
         SHOT.current_2pt_rate := round (our_2pt_rate * 100) 2;
         SHOT.current_3pt_rate := round (our_3pt_rate * 100) 2;
         SHOT.mix := optimal_mix;
         SHOT.top_shooters := firstn 5 player_shots;
         SHOT.recommendations := recommendations |}.

End ShotSelection.

End AnalyzeGame.

(** ** process_shots.py *)

Module ProcessShots.

Local Open Scope Q_scope.
Local Open Scope py_scope.
Import Py.

Definition assign_zone (x y court_width court_length : Q)
    (grid_rows grid_cols : Z) : option (Z * Z) :=
  xw <- x // court_width ;;
  let x_norm := max 0 (min 1 xw) in
  yl <- y // court_length ;;
  let y_norm := max 0 (min 1 yl) in
  let col := int (x_norm * inject_Z grid_cols) in
  let row := int (y_norm * inject_Z grid_rows) in
  let col := Z.min col (grid_cols - 1) in
  let row := Z.min row (grid_rows - 1) in
  ret (row, col).

(** One row of the shot table (the required columns). *)
Record Shot : Type := {
  X : Q;
  Y : Q;
  ShotType : option string;
  Result : option string
}.

(** A row of the working copy, with the columns the function adds. *)
Record ShotRow : Type := {
  shot : Shot;
  Zone : Z * Z;
  Points : Z
}.

(** [df['ShotType'].str.contains('3PT', na=False)], cell by cell; whether
    the column has the accessor at all is [str_accessor] below. *)
Definition is_3PT (s : Shot) : bool :=
  match ShotType s with
  | Some t => contains "3PT" t
  | None => false
  end.

(** [df['Result'] == 'Made']. *)
Definition is_Made (s : Shot) : bool :=
  match Result s with
  | Some r => String.eqb r "Made"
  | None => false
  end.

(** The column ['Points']: set to 0, then overwritten by the three masked
    assignments in order. *)
Definition shot_points (s : Shot) : Z :=
  let p := 0%Z in
  let p := if is_3PT s && is_Made s then 3%Z else p in
  let p := if negb (is_3PT s) && is_Made s then 2%Z else p in
  let p := if negb (is_Made s) then 0%Z else p in
  p.

Definition add_columns (court_width court_length : Q) (grid_rows grid_cols : Z)
    (s : Shot) : option (list ShotRow) :=
  z <- assign_zone (X s) (Y s) court_width court_length grid_rows grid_cols ;;
  ret [ {| shot := s; Zone := z; Points := shot_points s |} ].

Definition zone_eqb (a b : Z * Z) : bool :=
  Z.eqb (fst a) (fst b) && Z.eqb (snd a) (snd b).

Record ZoneStats : Type := {
  Row : Z;
  Col : Z;
  ZoneLabel : string;                 (* 'Zone' *)
  TotalShots : Z;
  MadeShots : Z;
  MissedShots : Z;
  TotalPoints : Z;
  PointsPerShot : Q;
  PointsPerPossession : Q;
  FieldGoalPercentage : Q
}.

Definition zone_label (row_idx col_idx : Z) : string :=
  ("(" ++ str_of_int row_idx ++ "," ++ str_of_int col_idx ++ ")")%string.

Definition sum (l : list Z) : Z := fold_left Z.add l 0%Z.

(** [df['ShotType'].str]: the accessor exists on a column of text, which
    is what a column with at least one text cell is, and also what a column
    of a table read without any row is; a column that holds missing values
    only is numeric, and asking for [.str] raises [AttributeError]. *)
Definition str_accessor (column : list (option string)) : option unit :=
  match column with
  | [] => ret tt
  | _ :: _ =>
      if existsb (fun c => match c with Some _ => true | None => false end)
                 column
      then ret tt else None
  end.

(** [df[df['Zone'] == (row_idx, col_idx)]].  On a table without rows
    [df.apply] has produced no column of tuples, and comparing the column
    with the pair raises [ValueError]. *)
Definition zone_rows (df : list ShotRow) (row_idx col_idx : Z)
  : option (list ShotRow) :=
  match df with
  | [] => None
  | _ :: _ => ret (filter (fun r => zone_eqb (Zone r) (row_idx, col_idx)) df)
  end.

(** The body of the two nested loops of [calculate_zone_stats]. *)
Definition zone_body (df : list ShotRow) (row_idx col_idx : Z)
  : option ZoneStats :=
  zone_shots <- zone_rows df row_idx col_idx ;;
  if (0 <? length zone_shots)%nat then
    let total_shots := Z.of_nat (length zone_shots) in
    let made_shots :=
      Z.of_nat (length (filter (fun r => is_Made (shot r)) zone_shots)) in
    let total_points := sum (map Points zone_shots) in
    pps <- (if inject_Z total_shots >? 0
            then inject_Z total_points // inject_Z total_shots else ret 0) ;;
    ppp <- (if inject_Z total_shots >? 0
            then inject_Z total_points // inject_Z total_shots else ret 0) ;;
    fgp <- (if inject_Z total_shots >? 0
            then r <- inject_Z made_shots // inject_Z total_shots ;;
                 ret (round (r * 100) 1)
            else ret 0) ;;
    ret {| Row := row_idx;
           Col := col_idx;
           ZoneLabel := zone_label row_idx col_idx;
           TotalShots := total_shots;
           MadeShots := made_shots;
           MissedShots := total_shots - made_shots;
           TotalPoints := total_points;
           PointsPerShot := round pps 2;
           PointsPerPossession := round ppp 2;
           FieldGoalPercentage := fgp |}
  else
    ret {| Row := row_idx;
           Col := col_idx;
           ZoneLabel := zone_label row_idx col_idx;
           TotalShots := 0;
           MadeShots := 0;
           MissedShots := 0;
           TotalPoints := 0;
           PointsPerShot := 0;
           PointsPerPossession := 0;
           FieldGoalPercentage := 0 |}.

Definition calculate_zone_stats (df : list Shot)
    (court_width court_length : Q) (grid_rows grid_cols : Z)
  : option (list ZoneStats) :=
  rows <- for_append (add_columns court_width court_length grid_rows
                        grid_cols) df ;;
  _ <- str_accessor (map ShotType df) ;;
  let df := rows in
  for_append
    (fun row_idx =>
       for_append
         (fun col_idx => z <- zone_body df row_idx col_idx ;; ret [z])
         (range grid_cols))
    (range grid_rows).

(** The defaults of the two functions. *)
Definition default_court_width : Q := 94.
Definition default_court_length : Q := 50.
Definition default_grid_rows : Z := 5.
Definition default_grid_cols : Z := 5.

End ProcessShots.

(** ** process_shots.py: the zone matrix *)

Module ZoneMatrix.

Local Open Scope Q_scope.
Local Open Scope py_scope.
Import Py ProcessShots.

(** A two-dimensional numpy array of floats, row by row. *)
Definition matrix : Type := list (list Q).

(** [np.zeros((rows, cols))]: a negative dimension is [ValueError]. *)
Definition zeros (rows cols : Z) : option matrix :=
  if (rows <? 0)%Z || (cols <? 0)%Z then None
  else Some (repeat (repeat 0 (Z.to_nat cols)) (Z.to_nat rows)).

(** An index along an axis of length [n]: a negative index counts from the
    end, an index outside [-n, n) is [IndexError]. *)
Definition axis_index (n : nat) (i : Z) : option nat :=
  if (0 <=? i)%Z && (i <? Z.of_nat n)%Z then Some (Z.to_nat i)
  else if (- Z.of_nat n <=? i)%Z && (i <? 0)%Z
       then Some (Z.to_nat (i + Z.of_nat n))
       else None.

Fixpoint set_nth {A} (k : nat) (v : A) (l : list A) : list A :=
  match l, k with
  | [], _ => []
  | _ :: l', O => v :: l'
  | a :: l', S k' => a :: set_nth k' v l'
  end.

(** [m[r, c] = v]. *)
Definition setitem (m : matrix) (r c : Z) (v : Q) : option matrix :=
  i <- axis_index (length m) r ;;
  row <- nth_error m i ;;
  j <- axis_index (length row) c ;;
  ret (set_nth i (set_nth j v row) m).

(** [m[r, c]]. *)
Definition getitem (m : matrix) (r c : Z) : option Q :=
  i <- axis_index (length m) r ;;
  row <- nth_error m i ;;
  j <- axis_index (length row) c ;;
  nth_error row j.

(** [m.max()]: [ValueError] on an array without elements. *)
Definition amax (m : matrix) : option Q :=
  match concat m with
  | [] => None
  | x :: xs => Some (fold_left (fun a b => if ltb a b then b else a) xs x)
  end.

(** A [for] loop that updates a value, or raises. *)
Fixpoint for_update {A S} (body : S -> A -> option S) (l : list A) (s : S)
  : option S :=
  match l with
  | [] => Some s
  | a :: l' =>
      match body s a with
      | Some s' => for_update body l' s'
      | None => None
      end
  end.

(** [row[metric]] as a value that can be stored in a float array: the
    label column ['Zone'] cannot ([ValueError]), another name is
    [KeyError]. *)
Definition column (metric : string) (row : ZoneStats) : option Q :=
  if String.eqb metric "Row" then Some (inject_Z (Row row))
  else if String.eqb metric "Col" then Some (inject_Z (Col row))
  else if String.eqb metric "TotalShots" then Some (inject_Z (TotalShots row))
  else if String.eqb metric "MadeShots" then Some (inject_Z (MadeShots row))
  else if String.eqb metric "MissedShots"
       then Some (inject_Z (MissedShots row))
  else if String.eqb metric "TotalPoints"
       then Some (inject_Z (TotalPoints row))
  else if String.eqb metric "PointsPerShot" then Some (PointsPerShot row)
  else if String.eqb metric "PointsPerPossession"
       then Some (PointsPerPossession row)
  else if String.eqb metric "FieldGoalPercentage"
       then Some (FieldGoalPercentage row)
  else None.

Definition create_zone_matrix (stats_df : list ZoneStats)
    (grid_rows grid_cols : Z) (metric : string) : option matrix :=
  matrix <- zeros grid_rows grid_cols ;;
  for_update
    (fun matrix row =>
       let r := Row row in
       let c := Col row in
       v <- column metric row ;;
       setitem matrix r c v)
    stats_df matrix.

Definition default_metric : string := "PointsPerShot".

End ZoneMatrix.

(** ** visualize_shots.py: what the charts draw *)

Module VisualizeShots.

Local Open Scope Q_scope.
Local Open Scope py_scope.
Import Py ProcessShots ZoneMatrix.

(** The text written in a cell of a chart. *)
Inductive annotation : Type :=
| Value_text (value : Q) (shots : Z)          (* "{value:.2f}\n({shots} shots)" *)
| Combined_text (pps ppp : Q) (shots : Z)     (* "PPS: ...\nPPP: ...\n(... shots)" *)
| No_shots.                                   (* "No Shots" *)

(** One [imshow] with its annotations: the axis it is drawn on, its title,
    the matrix, the colour range, and the text put at each [(i, j)]. *)
Record panel : Type := {
  axis : nat;
  panel_title : string;
  image : matrix;
  vmin : Q;
  vmax : Q;
  annotations : list (Z * Z * annotation)
}.

(** The three matrices both charts start from. *)
Definition zone_matrices (stats_df : list ZoneStats) (grid_rows grid_cols : Z)
  : option (matrix * matrix * matrix) :=
  pps_matrix <- zeros grid_rows grid_cols ;;
  ppp_matrix <- zeros grid_rows grid_cols ;;
  shot_count_matrix <- zeros grid_rows grid_cols ;;
  for_update
    (fun '(pps_matrix, ppp_matrix, shot_count_matrix) row =>
       let r := Row row in
       let c := Col row in
       pps_matrix <- setitem pps_matrix r c (PointsPerShot row) ;;
       ppp_matrix <- setitem ppp_matrix r c (PointsPerPossession row) ;;
       shot_count_matrix <-
         setitem shot_count_matrix r c (inject_Z (TotalShots row)) ;;
       ret (pps_matrix, ppp_matrix, shot_count_matrix))
    stats_df (pps_matrix, ppp_matrix, shot_count_matrix).

(** The annotation loops of [create_shot_chart]. *)
Definition annotate (value_matrix shot_count_matrix : matrix)
    (grid_rows grid_cols : Z) : option (list (Z * Z * annotation)) :=
  for_append
    (fun i =>
       for_append
         (fun j =>
            value <- getitem value_matrix i j ;;
            shots <- getitem shot_count_matrix i j ;;
            if shots >? 0
            then ret [(i, j, Value_text value (int shots))]
            else ret [(i, j, No_shots)])
         (range grid_cols))
    (range grid_rows).

Definition draw (axes : nat) (ax : nat) (title : string) (m counts : matrix)
    (grid_rows grid_cols : Z) : option panel :=
  _ <- (if (ax <? axes)%nat then ret tt else None) ;;   (* axes[ax] *)
  top <- amax m ;;
  texts <- annotate m counts grid_rows grid_cols ;;
  ret {| axis := ax; panel_title := title; image := m;
         vmin := 0; vmax := max 3 top; annotations := texts |}.

(** [create_shot_chart]: the panels drawn on the figure, in order. *)
Definition create_shot_chart (stats_df : list ZoneStats)
    (grid_rows grid_cols : Z) (show_pps show_ppp : bool)
  : option (list panel) :=
  ms <- zone_matrices stats_df grid_rows grid_cols ;;
  let '(pps_matrix, ppp_matrix, shot_count_matrix) := ms in
  let axes := if show_pps && show_ppp then 2%nat else 1%nat in
  drawn1 <- (if show_pps then
               p <- draw axes 0 "Points Per Shot" pps_matrix
                      shot_count_matrix grid_rows grid_cols ;;
               ret [p]
             else ret []) ;;
  drawn2 <- (if show_ppp then
               p <- draw axes (if show_pps then 1 else 0)
                      "Points Per Possession" ppp_matrix
                      shot_count_matrix grid_rows grid_cols ;;
               ret [p]
             else ret []) ;;
  ret (drawn1 ++ drawn2)%list.

(** [(a + b) / 2] on arrays of the same shape. *)
Definition average (a b : matrix) : matrix :=
  map (fun '(ra, rb) => map (fun '(x, y) => (x + y) / 2) (combine ra rb))
      (combine a b).

(** [create_combined_shot_chart]: its one panel. *)
Definition create_combined_shot_chart (stats_df : list ZoneStats)
    (grid_rows grid_cols : Z) : option panel :=
  ms <- zone_matrices stats_df grid_rows grid_cols ;;
  let '(pps_matrix, ppp_matrix, shot_count_matrix) := ms in
  let combined_matrix := average pps_matrix ppp_matrix in
  top <- amax combined_matrix ;;
  texts <-
    for_append
      (fun i =>
         for_append
           (fun j =>
              pps <- getitem pps_matrix i j ;;
              ppp <- getitem ppp_matrix i j ;;
              shots <- getitem shot_count_matrix i j ;;
              if shots >? 0
              then ret [(i, j, Combined_text pps ppp (int shots))]
              else ret [(i, j, No_shots)])
           (range grid_cols))
      (range grid_rows) ;;
  ret {| axis := 0;
         panel_title := "Shot Chart: Points Per Shot & Points Per Possession";
         image := combined_matrix;
         vmin := 0; vmax := max 3 top; annotations := texts |}.

End VisualizeShots.

(** ** generate_gamma_prompt.py: the computed parts of the report *)

Module GammaPrompt.

Local Open Scope Q_scope.
Local Open Scope py_scope.
Import Py AnalyzeGame.

Record GammaPromptGenerator : Type := {
  analyzer : GameAnalyzer;
  efficiency : EfficiencyMetrics;
  turnovers : TO.report;
  rebounding : REB.report;
  shot_selection : SHOT.report
}.

Section Generator.

Context {I : Interpreter}.
Variable float_of_str : string -> option Q.

Definition __init__ (analyzer : GameAnalyzer) : option GammaPromptGenerator :=
  efficiency <- calculate_efficiency_metrics analyzer ;;
  turnovers <- analyze_turnovers analyzer ;;
  rebounding <- analyze_rebounding analyzer ;;
  shot_selection <- optimize_shot_selection float_of_str analyzer ;;
  ret {| analyzer := analyzer;
         efficiency := efficiency;
         turnovers := turnovers;
         rebounding := rebounding;
         shot_selection := shot_selection |}.

End Generator.

(** The lines of the win/loss summary, with the number each one quotes. *)
Inductive factor : Type :=
| Higher_ppp (diff : Q)                 (* "✓ Higher Points Per Possession" *)
| Lower_ppp (diff : Q)                  (* "✗ Lower Points Per Possession" *)
| Better_turnover_control (diff : Q)    (* "✓ Better Turnover Control" *)
| Higher_turnover_rate (diff : Q)       (* "✗ Higher Turnover Rate" *)
| Won_rebounding (margin : Z)           (* "✓ Won Rebounding Battle" *)
| Lost_rebounding (margin : Z)          (* "✗ Lost Rebounding Battle" *)
| Better_shooting (diff : Q)            (* "✓ Better Shooting Efficiency" *)
| Lower_shooting (diff : Q).            (* "✗ Lower Shooting Efficiency" *)

Definition _generate_win_loss_factors (self : GammaPromptGenerator)
  : list factor :=
  let our := our_team (efficiency self) in
  let opp := opponent (efficiency self) in
  let factors := [] in
  let factors :=
    (factors ++ [if ppp our >? opp_ppp opp
                 then Higher_ppp (ppp our - opp_ppp opp)
                 else Lower_ppp (ppp our - opp_ppp opp)])%list in
  let factors :=
    (factors ++ [if ltb (TO.our_to_rate (turnovers self))
                        (TO.opp_to_rate (turnovers self))
                 then Better_turnover_control
                        (TO.opp_to_rate (turnovers self)
                         - TO.our_to_rate (turnovers self))
                 else Higher_turnover_rate
                        (TO.our_to_rate (turnovers self)
                         - TO.opp_to_rate (turnovers self))])%list in
  let factors :=
    (factors ++ [if (REB.rebound_margin (rebounding self) >? 0)%Z
                 then Won_rebounding (REB.rebound_margin (rebounding self))
                 else Lost_rebounding (REB.rebound_margin (rebounding self))])%list in
  let factors :=
    (factors ++ [if efg our >? opp_efg opp
                 then Better_shooting (efg our - opp_efg opp)
                 else Lower_shooting (efg our - opp_efg opp)])%list in
  factors.

(** A formatted player list: the fallback sentence or the numbered lines. *)
Inductive player_lines (E : Type) : Type :=
| No_players
| Numbered (lines : list (nat * E)).

Arguments No_players {E}.
Arguments Numbered {E} lines.

(** [enumerate(l, 1)]. *)
Definition enumerate1 {E} (l : list E) : list (nat * E) :=
  combine (seq 1 (length l)) l.

Definition _format_turnover_players (self : GammaPromptGenerator)
  : player_lines TO.entry :=
  match TO.top_turnover_players (turnovers self) with
  | [] => No_players
  | _ => Numbered (enumerate1 (firstn 5 (TO.top_turnover_players (turnovers self))))
  end.

Definition _format_rebounding_players (self : GammaPromptGenerator)
  : player_lines REB.entry :=
  match REB.top_rebounders (rebounding self) with
  | [] => No_players
  | _ => Numbered (enumerate1 (firstn 5 (REB.top_rebounders (rebounding self))))
  end.

Definition _format_shooting_players (self : GammaPromptGenerator)
  : player_lines SHOT.entry :=
  match SHOT.top_shooters (shot_selection self) with
  | [] => No_players
  | _ => Numbered (enumerate1 (firstn 5 (SHOT.top_shooters (shot_selection self))))
  end.

(** The action items: a priority label and what the line says. *)
Inductive priority : Type :=
| HIGH_PRIORITY | TURNOVERS | REBOUNDING | SHOT_SELECTION.

Inductive action : Type :=
| Improve_efficiency (our opp : Q)      (* "Improve offensive efficiency: PPP ..." *)
| Reduce_turnovers (rate : Q)           (* "Reduce turnovers: Current rate ..." *)
| Turnover_advice (r : TO.recommendation)
| Rebounding_advice (r : REB.recommendation)
| Shot_advice (r : SHOT.recommendation).

Definition _format_action_items (self : GammaPromptGenerator)
  : list (priority * action) :=
  let all_recommendations := [] in
  let our := our_team (efficiency self) in
  let opp := opponent (efficiency self) in
  let all_recommendations :=
    if ltb (ppp our) (opp_ppp opp)
    then (all_recommendations
          ++ [(HIGH_PRIORITY, Improve_efficiency (ppp our) (opp_ppp opp))])%list
    else all_recommendations in
  let all_recommendations :=
    if TO.our_to_rate (turnovers self) >? 15
    then (all_recommendations
          ++ [(HIGH_PRIORITY,
               Reduce_turnovers (TO.our_to_rate (turnovers self)))])%list
    else all_recommendations in
  let all_recommendations :=
    (all_recommendations
     ++ map (fun rec => (TURNOVERS, Turnover_advice rec))
            (TO.recommendations (turnovers self)))%list in
  let all_recommendations :=
    (all_recommendations
     ++ map (fun rec => (REBOUNDING, Rebounding_advice rec))
            (REB.recommendations (rebounding self)))%list in
  let all_recommendations :=
    (all_recommendations
     ++ map (fun rec => (SHOT_SELECTION, Shot_advice rec))
            (SHOT.recommendations (shot_selection self)))%list in
  firstn 15 all_recommendations.

Inductive key_strength : Type :=
| Shooting_efficiency (our opp : Q)     (* "Better shooting efficiency (...)" *)
| Turnover_control                      (* "Better turnover control" *)
| Strong_rebounding                     (* "Strong rebounding" *)
| Consistent_performance.               (* "Consistent performance across metrics" *)

Definition _identify_key_strength (self : GammaPromptGenerator)
  : key_strength :=
  let our := our_team (efficiency self) in
  let opp := opponent (efficiency self) in
  if efg our >? opp_efg opp then Shooting_efficiency (efg our) (opp_efg opp)
  else if ltb (TO.our_to_rate (turnovers self))
              (TO.opp_to_rate (turnovers self)) then Turnover_control
  else if (REB.rebound_margin (rebounding self) >? 0)%Z then Strong_rebounding
  else Consistent_performance.

Inductive key_weakness : Type :=
| Rebounding_deficit (margin : Z)       (* "Rebounding deficit (...)" *)
| High_turnover_rate (rate : Q)         (* "High turnover rate (...)" *)
| Lower_efficiency (our opp : Q)        (* "Lower offensive efficiency (...)" *)
| Minor_areas.                          (* "Minor areas for improvement ..." *)

Definition _identify_key_weakness (self : GammaPromptGenerator)
  : key_weakness :=
  let our := our_team (efficiency self) in
  let opp := opponent (efficiency self) in
  if (REB.rebound_margin (rebounding self) <? -5)%Z
  then Rebounding_deficit (REB.rebound_margin (rebounding self))
  else if TO.our_to_rate (turnovers self) >? 20
  then High_turnover_rate (TO.our_to_rate (turnovers self))
  else if ltb (ppp our) (opp_ppp opp)
  then Lower_efficiency (ppp our) (opp_ppp opp)
  else Minor_areas.

End GammaPrompt.

(** ** main.py: from the shot file to the zone table *)

Module Main.

Import Py ProcessShots VisualizeShots.
Local Open Scope string_scope.
Local Open Scope py_scope.

(** The shot file once read: its header and its rows (the values of the
    four required columns, which matter only when all four are there). *)
Record DataFrame : Type := {
  columns : list string;
  data : list Shot
}.

Inductive outcome : Type :=
| File_not_found                        (* "Error: shots_data.csv not found. ..." *)
| Missing_columns (missing : list string)
| Visualizations                        (* "All visualizations created successfully!" *)
    (stats_df : list ZoneStats)         (* saved to zone_statistics.csv *)
    (fig1 : list panel)                 (* shot_chart_comparison.png *)
    (fig2 : panel)                      (* shot_chart_combined.png *)
    (fig3 : list panel)                 (* shot_chart_pps.png *)
    (fig4 : list panel)                 (* shot_chart_ppp.png *)
| Raised.                               (* an exception left [main] *)

Definition required_columns : list string := ["X"; "Y"; "ShotType"; "Result"].

(** [main], from the file read to the four figures; [None] is a missing
    file. *)
Definition main (shots_data : option DataFrame) : outcome :=
  match shots_data with
  | None => File_not_found
  | Some df =>
      let missing_columns :=
        filter (fun col => negb (existsb (String.eqb col) (columns df)))
               required_columns in
      match missing_columns with
      | _ :: _ => Missing_columns missing_columns
      | [] =>
          let grid_rows := 5%Z in
          let grid_cols := 5%Z in
          match
            stats_df <- calculate_zone_stats (data df) default_court_width
                          default_court_length grid_rows grid_cols ;;
            fig1 <- create_shot_chart stats_df grid_rows grid_cols true true ;;
            fig2 <- create_combined_shot_chart stats_df grid_rows grid_cols ;;
            fig3 <- create_shot_chart stats_df grid_rows grid_cols true false ;;
            fig4 <- create_shot_chart stats_df grid_rows grid_cols false true ;;
            ret (stats_df, fig1, fig2, fig3, fig4)
          with
          | Some (stats_df, fig1, fig2, fig3, fig4) =>
              Visualizations stats_df fig1 fig2 fig3 fig4
          | None => Raised
          end
      end
  end.

End Main.

(** ** The wording of the specification, and sample tables *)

Module Spec.

Import Py AnalyzeGame.
Local Open Scope Q_scope.

(** "turnover count is present and strictly positive". *)
Definition has_positive_turnovers (p : Player) : bool :=
  match Basic_TO p with
  | Some v => gtb v 0
  | None => false
  end.

Definition has_positive_rebounds (p : Player) : bool :=
  match Basic_TRB p with
  | Some v => gtb v 0
  | None => false
  end.

Definition has_positive_attempts (p : Player) : bool :=
  match Basic_FGA p with
  | Some v => gtb v 0
  | None => false
  end.

Section Entries.
Context {I : Interpreter}.

(** "The entry [e] of the ranking describes the player [p]". *)
Definition turnover_entry_of (p : Player) (e : TO.entry) : Prop :=
  TO.player e = Athlete p /\ TO.number e = Number p /\
  Basic_TO p = Some (TO.turnovers e) /\
  TO.minutes e = _parse_minutes (Basic_MP p).

Definition rebound_entry_of (p : Player) (e : REB.entry) : Prop :=
  REB.player e = Athlete p /\ REB.number e = Number p /\
  Basic_TRB p = Some (REB.total_reb e) /\
  REB.minutes e = _parse_minutes (Basic_MP p).

End Entries.

(** The interpreter of the sample tables: [int] on ASCII numerals. *)
Definition sample_interpreter : Interpreter :=
  {| int_of_str := int_of_ascii |}.

Definition shot_entry_of (p : Player) (e : SHOT.entry) : Prop :=
  SHOT.player e = Athlete p /\ SHOT.number e = Number p /\
  exists v, Basic_FGA p = Some v /\ SHOT.fga e = int v.

(** What the player loops have appended, before the sort. *)
Definition appended {A B} (body : A -> option (list B)) (l : list A) : list B :=
  flat_map (fun a => try_except (body a) []) l.

(** "shot-type string contains 3PT". *)
Definition is_substring (pat s : string) : Prop :=
  exists pre post, s = (pre ++ pat ++ post)%string.

(** "The table has a row whose shot type is text": it is not empty and
    its shot-type column is a column of text. *)
Definition has_shot_type (df : list ProcessShots.Shot) : Prop :=
  existsb (fun s => match ProcessShots.ShotType s with
                    | Some _ => true
                    | None => false
                    end) df = true.

(** The shots of the table that fall in zone [(row, col)]. *)
Definition in_zone (court_width court_length : Q) (grid_rows grid_cols : Z)
    (row col : Z) (s : ProcessShots.Shot) : bool :=
  match ProcessShots.assign_zone (ProcessShots.X s) (ProcessShots.Y s)
          court_width court_length grid_rows grid_cols with
  | Some z => ProcessShots.zone_eqb z (row, col)
  | None => false
  end.

(** Row [r] of the working copy of the shot table comes from shot [s]. *)
Definition row_of (cw cl : Q) (gr gc : Z) (s : ProcessShots.Shot)
    (r : ProcessShots.ShotRow) : Prop :=
  ProcessShots.shot r = s /\
  ProcessShots.Points r = ProcessShots.shot_points s /\
  ProcessShots.assign_zone (ProcessShots.X s) (ProcessShots.Y s) cw cl gr gc
  = Some (ProcessShots.Zone r).

(** The output row [z] aggregates the shots of [df] assigned to the zone
    [rc]. *)
Definition zone_of_shots (cw cl : Q) (gr gc : Z) (df : list ProcessShots.Shot)
    (rc : Z * Z) (z : ProcessShots.ZoneStats) : Prop :=
  let zone_shots := filter (in_zone cw cl gr gc (fst rc) (snd rc)) df in
  ProcessShots.Row z = fst rc /\ ProcessShots.Col z = snd rc /\
  ProcessShots.ZoneLabel z = ProcessShots.zone_label (fst rc) (snd rc) /\
  ProcessShots.TotalShots z = Z.of_nat (length zone_shots) /\
  ProcessShots.MadeShots z
  = Z.of_nat (length (filter ProcessShots.is_Made zone_shots)) /\
  ProcessShots.MissedShots z
  = (ProcessShots.TotalShots z - ProcessShots.MadeShots z)%Z /\
  ProcessShots.TotalPoints z
  = ProcessShots.sum (map ProcessShots.shot_points zone_shots) /\
  ProcessShots.PointsPerPossession z = ProcessShots.PointsPerShot z /\
  (zone_shots = [] ->
   ProcessShots.PointsPerShot z = 0 /\
   ProcessShots.FieldGoalPercentage z = 0) /\
  (zone_shots <> [] ->
   ProcessShots.PointsPerShot z
   = round (inject_Z (ProcessShots.TotalPoints z)
            / inject_Z (ProcessShots.TotalShots z)) 2 /\
   ProcessShots.FieldGoalPercentage z
   = round (inject_Z (ProcessShots.MadeShots z)
            / inject_Z (ProcessShots.TotalShots z) * 100) 1).

(** A team row given by its counting columns. *)
Definition team (name : string) (pts fga orb to fta pp : Q) : TeamStats :=
  {| Team := name; Points := pts; FG_Attempts := fga;
     Offensive_Rebounds := orb; Defensive_Rebounds := 20; Rebounds := 20 + orb;
     Turnovers := to; FT_Att := fta;
     Effective_Field_Goal_pct := Some 50; True_Shooting_pct := None;
     _2FG_Made := 20; _2FG_Attempts := 40;
     _3FG_Made := 6; _3FG_Attempts := 20; _3FG_Att := 20;
     _2FG_pct := 50; _3FG_pct := 30;
     AST_TO_Ratio := 1.2; Turnover_pct := 17.5;
     Points_Per_Possession := pp;
     Offensive_Rebounding_pct := 30; Defensive_Rebounding_pct := 70 |}.

(** FGA=60, ORB=10, TO=12, FTA=15; the data gives 1.1 points per possession. *)
Definition harker : TeamStats := team "Harker" 70 60 10 12 15 1.1.

(** A team without any possession. *)
Definition aptos : TeamStats := team "Aptos" 0 0 0 0 0 0.

Definition athlete (name : string) (mp : option string) (to : option Q)
  : Player :=
  {| P_Team := "home"; Athlete := name; Number := Num 1;
     Basic_MP := mp; Basic_TO := to; Basic_TRB := to;
     Basic_ORB := None; Basic_DRB := to;
     Basic_FGA := to; Basic_FGM := Some 0;
     Basic_FG_pct := Str "—"; Shooting_eFG_pct := Num 50;
     Shooting_TS_pct := NaN;
     Advanced_AST_TO := None; Advanced_USG_pct := Some 20;
     Advanced_ORB_pct := None; Advanced_DRB_pct := None |}.

(** Eight players, seven of them with a positive count. *)
Definition roster : list Player :=
  [ athlete "A" (Some "24:30") (Some 3);
    athlete "B" (Some "—") (Some 1);
    athlete "C" (Some "10:00") (Some 3);
    athlete "D" None (Some 2);
    athlete "E" (Some "12:00") (Some 0);
    athlete "F" (Some "05:15") (Some 1);
    athlete "G" (Some "30:00") (Some 4);
    athlete "H" (Some "0:00") (Some 2) ]%string.

(** "The array [m] has shape [(rows, cols)]". *)
Definition shape (m : ZoneMatrix.matrix) (rows cols : Z) : Prop :=
  Z.of_nat (length m) = rows /\
  Forall (fun row => Z.of_nat (length row) = cols) m.

(** The last row of a zone table that is about zone [(i, j)]: the one whose
    value a matrix filled row after row ends up holding. *)
Definition row_at (stats_df : list ProcessShots.ZoneStats) (i j : Z)
  : option ProcessShots.ZoneStats :=
  find (fun z => ProcessShots.zone_eqb
                   (ProcessShots.Row z, ProcessShots.Col z) (i, j))
       (rev stats_df).

(** The loop that stores [f row] at [(Row, Col)] for each row of a table. *)
Definition fill (f : ProcessShots.ZoneStats -> Q)
    (stats_df : list ProcessShots.ZoneStats) (m : ZoneMatrix.matrix)
  : option ZoneMatrix.matrix :=
  ZoneMatrix.for_update
    (fun m row =>
       ZoneMatrix.setitem m (ProcessShots.Row row) (ProcessShots.Col row)
         (f row))
    stats_df m.

(** "The array [m] has shape [(rows, cols)] and holds [g i j] at [(i, j)]". *)
Definition holds (m : ZoneMatrix.matrix) (rows cols : Z) (g : Z -> Z -> Q)
  : Prop :=
  shape m rows cols /\
  forall i j, (0 <= i < rows)%Z -> (0 <= j < cols)%Z ->
              ZoneMatrix.getitem m i j = Some (g i j).

(** What a chart writes in the cell of the zone table row [z]. *)
Definition cell_text (z : ProcessShots.ZoneStats) : VisualizeShots.annotation :=
  if (0 <? ProcessShots.TotalShots z)%Z
  then VisualizeShots.Value_text (ProcessShots.PointsPerShot z)
         (ProcessShots.TotalShots z)
  else VisualizeShots.No_shots.

Definition combined_cell_text (z : ProcessShots.ZoneStats)
  : VisualizeShots.annotation :=
  if (0 <? ProcessShots.TotalShots z)%Z
  then VisualizeShots.Combined_text (ProcessShots.PointsPerShot z)
         (ProcessShots.PointsPerShot z) (ProcessShots.TotalShots z)
  else VisualizeShots.No_shots.

(** The rows of a zone table lie in the grid. *)
Definition in_grid (rows cols : Z) (z : ProcessShots.ZoneStats) : Prop :=
  (0 <= ProcessShots.Row z < rows)%Z /\ (0 <= ProcessShots.Col z < cols)%Z.

Definition game : GameAnalyzer :=
  {| our_team_stats := harker;
     opponent_stats := aptos;
     our_players := roster;
     our_possessions := _calculate_possessions harker;
     opponent_possessions := _calculate_possessions aptos |}.

(** A table of shots mixing the three cases. *)
Definition shots : list ProcessShots.Shot :=
  [ {| ProcessShots.X := 10; ProcessShots.Y := 10;
       ProcessShots.ShotType := Some "3PT Jump Shot";
       ProcessShots.Result := Some "Made" |};
    {| ProcessShots.X := 12; ProcessShots.Y := 12;
       ProcessShots.ShotType := Some "Layup";
       ProcessShots.Result := Some "Made" |};
    {| ProcessShots.X := 11; ProcessShots.Y := 11;
       ProcessShots.ShotType := None;
       ProcessShots.Result := Some "Made" |};
    {| ProcessShots.X := 15; ProcessShots.Y := 14;
       ProcessShots.ShotType := Some "3PT Jump Shot";
       ProcessShots.Result := Some "Missed" |};
    {| ProcessShots.X := -10; ProcessShots.Y := 60;
       ProcessShots.ShotType := Some "Dunk";
       ProcessShots.Result := None |} ]%string.

End Spec.

Unset Implicit Arguments.

(** * Properties *)

(** ** Facts about the Python builtins *)

Module PyFacts.

Import Py.
Local Open Scope Q_scope.
Local Open Scope py_scope.

Lemma ltb_lt (a b : Q) : ltb a b = true <-> a < b.
Proof.
  unfold ltb. rewrite negb_true_iff, <- not_true_iff_false, Qle_bool_iff.
  split; [apply Qnot_le_lt | apply Qlt_not_le].
Qed.

Lemma ltb_ge (a b : Q) : ltb a b = false <-> b <= a.
Proof.
  unfold ltb. rewrite negb_false_iff. apply Qle_bool_iff.
Qed.

Lemma gtb_gt (a b : Q) : (a >? b) = true <-> b < a.
Proof. apply ltb_lt. Qed.

Lemma gtb_le (a b : Q) : (a >? b) = false <-> a <= b.
Proof. apply ltb_ge. Qed.

Lemma gtb_nonpos (x : Q) : x <= 0 -> (x >? 0) = false.
Proof. apply gtb_le. Qed.

Lemma py_div_nonzero (a b : Q) : ~ b == 0 -> a // b = Some (a / b).
Proof.
  intros Hb. unfold py_div.
  destruct (Qeq_bool b 0) eqn:E; [|reflexivity].
  apply Qeq_bool_iff in E. contradiction.
Qed.

Lemma py_div_pos (a b : Q) : (b >? 0) = true -> a // b = Some (a / b).
Proof.
  intros Hb. apply gtb_gt in Hb. apply py_div_nonzero.
  intros E. rewrite E in Hb. revert Hb. apply Qlt_irrefl.
Qed.

(** A division guarded by [if d > 0 ... else 0] never raises. *)
Lemma guarded_div (a d : Q) :
  (if d >? 0 then a // d else ret 0) = Some (guarded a d).
Proof.
  unfold guarded. destruct (d >? 0) eqn:E; [|reflexivity].
  now apply py_div_pos.
Qed.

Lemma guarded_div_scaled (a d k : Q) :
  (if d >? 0 then r <- a // d ;; ret (r * k) else ret 0)
  = Some (guarded_scaled a d k).
Proof.
  unfold guarded_scaled. destruct (d >? 0) eqn:E; [|reflexivity].
  rewrite py_div_pos by assumption. reflexivity.
Qed.

Lemma guarded_nonpos (a d : Q) : d <= 0 -> guarded a d = 0.
Proof. intros H. unfold guarded. now rewrite gtb_nonpos. Qed.

Lemma guarded_scaled_nonpos (a d k : Q) : d <= 0 -> guarded_scaled a d k = 0.
Proof. intros H. unfold guarded_scaled. now rewrite gtb_nonpos. Qed.

Lemma py_div_100 (a : Q) : a // 100 = Some (a / 100).
Proof. reflexivity. Qed.

Lemma py_div_60 (a : Q) : a // 60 = Some (a / 60).
Proof. reflexivity. Qed.

Lemma round_half_even_zero (t : Q) : t == 0 -> round_half_even t = 0%Z.
Proof.
  intros Ht. unfold round_half_even.
  rewrite (Qfloor_comp _ _ Ht). change (Qfloor 0) with 0%Z.
  assert (H : Qcompare (t - inject_Z 0) (1 # 2) = Lt).
  { rewrite <- Qlt_alt. rewrite Ht. reflexivity. }
  rewrite H. reflexivity.
Qed.

Lemma round_zero (x : Q) (n : nat) : x == 0 -> round x n == 0.
Proof.
  intros Hx. unfold round.
  rewrite round_half_even_zero.
  - unfold Qdiv. apply Qmult_0_l.
  - rewrite Hx. apply Qmult_0_l.
Qed.

Lemma int_nonneg (x : Q) : 0 <= x -> (0 <= int x)%Z.
Proof.
  intros Hx. unfold int. apply Z.quot_pos; [|lia].
  unfold Qle in Hx. simpl in Hx. lia.
Qed.

Lemma min_max_clamp (v : Q) : 0 <= max 0 (min 1 v) /\ max 0 (min 1 v) <= 1.
Proof.
  unfold max, min.
  destruct (ltb v 1) eqn:E1.
  - apply ltb_lt in E1.
    destruct (v >? 0) eqn:E2.
    + apply gtb_gt in E2. split; lra.
    + split; lra.
  - destruct (1 >? 0) eqn:E2; split; lra.
Qed.


(** *** The loop combinator *)

Lemma for_append_flat_map {A B} (body : A -> option (list B))
    (f : A -> list B) (l : list A) :
  (forall a, In a l -> body a = Some (f a)) ->
  for_append body l = Some (flat_map f l).
Proof.
  induction l as [|a l IH]; intros H; simpl.
  - reflexivity.
  - rewrite (H a) by (now left).
    rewrite IH by (intros; apply H; now right). reflexivity.
Qed.

Lemma for_append_total {A B} (body : A -> option (list B)) (l : list A) :
  (forall a, In a l -> body a <> None) ->
  for_append body l = Some (Spec.appended body l).
Proof.
  intros H. apply for_append_flat_map. intros a Ha.
  specialize (H a Ha). destruct (body a); [reflexivity | contradiction].
Qed.

Lemma appended_filter {A B} (q : A -> bool) (R : A -> B -> Prop)
    (body : A -> option (list B)) (l : list A) :
  (forall a, if q a then exists b, body a = Some [b] /\ R a b
             else body a = Some []) ->
  Forall2 R (filter q l) (Spec.appended body l).
Proof.
  intros H. unfold Spec.appended.
  induction l as [|a l IH]; simpl.
  - constructor.
  - specialize (H a). destruct (q a).
    + destruct H as (b & -> & Hb). simpl. now constructor.
    + rewrite H. simpl. exact IH.
Qed.

End PyFacts.

(** ** The stable descending sort *)

Module SortFacts.

Import Py.
Local Open Scope Q_scope.

Section Sorting.
Variables (A : Type) (key : A -> Q).

(** [desc a b]: [a] may stand before [b] in a descending list. *)
Let desc (a b : A) : Prop := key b <= key a.

(** The elements of key [k]. *)
Let of_key (k : Q) (a : A) : bool := Qeq_bool (key a) k.

Lemma insert_desc_perm (x : A) (l : list A) :
  Permutation (x :: l) (insert_desc key x l).
Proof.
  induction l as [|y l IH]; simpl.
  - apply Permutation_refl.
  - destruct (ltb (key x) (key y)).
    + eapply perm_trans; [apply perm_swap|]. now apply perm_skip.
    + apply Permutation_refl.
Qed.

Lemma sort_reverse_perm (l : list A) : Permutation l (sort_reverse key l).
Proof.
  induction l as [|x l IH]; simpl.
  - apply perm_nil.
  - eapply perm_trans; [apply perm_skip, IH|]. apply insert_desc_perm.
Qed.

Lemma insert_desc_sorted (x : A) (l : list A) :
  StronglySorted desc l -> StronglySorted desc (insert_desc key x l).
Proof.
  induction l as [|y l IH]; intros Hs; simpl.
  - constructor; [constructor | constructor].
  - inversion Hs as [|? ? Hl Hy]; subst.
    destruct (ltb (key x) (key y)) eqn:E.
    + constructor; [now apply IH|].
      eapply Permutation_Forall; [apply insert_desc_perm|].
      constructor; [|assumption].
      apply PyFacts.ltb_lt in E. unfold desc. now apply Qlt_le_weak.
    + apply PyFacts.ltb_ge in E.
      constructor; [assumption|].
      constructor; [exact E|].
      eapply Forall_impl; [|exact Hy].
      intros a Ha. unfold desc in *. eapply Qle_trans; eassumption.
Qed.

Lemma sort_reverse_sorted (l : list A) :
  StronglySorted desc (sort_reverse key l).
Proof.
  induction l as [|x l IH]; simpl.
  - constructor.
  - now apply insert_desc_sorted.
Qed.

Lemma insert_desc_filter (k : Q) (x : A) (l : list A) :
  filter (of_key k) (insert_desc key x l) = filter (of_key k) (x :: l).
Proof.
  induction l as [|y l IH]; simpl.
  - reflexivity.
  - destruct (ltb (key x) (key y)) eqn:E; [|reflexivity].
    simpl. rewrite IH. simpl.
    destruct (of_key k x) eqn:Ex; [|reflexivity].
    destruct (of_key k y) eqn:Ey; [|reflexivity].
    exfalso. unfold of_key in *.
    apply Qeq_bool_iff in Ex, Ey. apply PyFacts.ltb_lt in E.
    rewrite Ex, Ey in E. revert E. apply Qlt_irrefl.
Qed.

(** Stability: the elements of any one key keep their input order. *)
Lemma sort_reverse_stable (k : Q) (l : list A) :
  filter (of_key k) (sort_reverse key l) = filter (of_key k) l.
Proof.
  induction l as [|x l IH]; simpl.
  - reflexivity.
  - rewrite insert_desc_filter. simpl. now rewrite IH.
Qed.

Lemma sort_reverse_length (l : list A) :
  length (sort_reverse key l) = length l.
Proof. symmetry. apply Permutation_length, sort_reverse_perm. Qed.

(** Two descending lists whose elements of each key come in the same order
    are equal: a stable descending sort has one possible result, so any
    stable sort, whatever its algorithm, returns [sort_reverse key l]. *)
Lemma stable_sorted_unique (l1 : list A) :
  forall l2,
    StronglySorted desc l1 -> StronglySorted desc l2 ->
    (forall k, filter (of_key k) l1 = filter (of_key k) l2) ->
    l1 = l2.
Proof.
  assert (Hself : forall a, of_key (key a) a = true).
  { intros a. apply Qeq_bool_iff. reflexivity. }
  assert (Hhead : forall x l1' y l2',
             StronglySorted desc (y :: l2') ->
             filter (of_key (key x)) (x :: l1')
             = filter (of_key (key x)) (y :: l2') ->
             key x <= key y).
  { intros x l1' y l2' Hs E.
    assert (Hin : In x (y :: l2')).
    { eapply proj1. apply (filter_In (of_key (key x))).
      rewrite <- E. simpl. rewrite Hself. now left. }
    inversion Hs as [|? ? _ Hy]; subst.
    destruct Hin as [<- | Hin]; [apply Qle_refl|].
    rewrite Forall_forall in Hy. now apply Hy. }
  induction l1 as [|x l1 IH]; intros [|y l2] H1 H2 HF.
  - reflexivity.
  - specialize (HF (key y)). simpl in HF. rewrite Hself in HF. discriminate.
  - specialize (HF (key x)). simpl in HF. rewrite Hself in HF. discriminate.
  - assert (Exy : key x == key y).
    { apply Qle_antisym.
      - eapply Hhead; [exact H2 | apply HF].
      - eapply Hhead; [exact H1 | symmetry; apply HF]. }
    assert (Hy : of_key (key x) y = true) by (apply Qeq_bool_iff; now symmetry).
    pose proof (HF (key x)) as E. simpl in E. rewrite Hself, Hy in E.
    injection E as <- _.
    f_equal. apply IH.
    + now inversion H1.
    + now inversion H2.
    + intros k. specialize (HF k). simpl in HF.
      destruct (of_key k x); [now injection HF | exact HF].
Qed.

Lemma sort_reverse_unique (l l' : list A) :
  StronglySorted desc l' ->
  (forall k, filter (of_key k) l' = filter (of_key k) l) ->
  l' = sort_reverse key l.
Proof.
  intros Hs HF. apply stable_sorted_unique.
  - exact Hs.
  - apply sort_reverse_sorted.
  - intros k. rewrite sort_reverse_stable. apply HF.
Qed.

End Sorting.

Lemma firstn_5_length {A} (l : list A) :
  length (firstn 5 l) = Nat.min 5 (length l) /\ (length (firstn 5 l) <= 5)%nat.
Proof. rewrite length_firstn. split; [reflexivity | apply Nat.le_min_l]. Qed.

End SortFacts.

(** ** The game analyzer *)

Module GameFacts.

Import Py PyFacts AnalyzeGame Spec.
Local Open Scope Q_scope.
Local Open Scope py_scope.

Section Interpreted.
Context {I : Interpreter}.

Lemma init_game :
  __init__ [aptos; harker] roster "Harker" "Aptos" = Some game.
Proof. reflexivity. Qed.

(** [calculate_efficiency_metrics] never raises, and its [ppp] fields are
    the rounded guarded quotients. *)
Lemma efficiency_total (self : GameAnalyzer) :
  exists e, calculate_efficiency_metrics self = Some e /\
    ppp (our_team e)
    = round (guarded (Points (our_team_stats self)) (our_possessions self)) 3 /\
    opp_ppp (opponent e)
    = round (guarded (Points (opponent_stats self))
                     (opponent_possessions self)) 3.
Proof.
  unfold calculate_efficiency_metrics.
  rewrite !guarded_div, !guarded_div_scaled.
  destruct (Effective_Field_Goal_pct (our_team_stats self)),
           (Effective_Field_Goal_pct (opponent_stats self)),
           (True_Shooting_pct (our_team_stats self)),
           (True_Shooting_pct (opponent_stats self));
    rewrite ?py_div_100; cbn [bind ret];
    rewrite ?py_div_100; cbn [bind ret];
    (eexists; split; [reflexivity | split; reflexivity]).
Qed.

(** *** The player loops *)

Lemma turnover_body_spec (p : Player) :
  if has_positive_turnovers p
  then exists e, turnover_body p = Some [e] /\ turnover_entry_of p e /\
         TO.to_per_36 e
         = round (guarded_scaled (TO.turnovers e) (TO.minutes e) 36) 2
  else turnover_body p = Some [].
Proof.
  unfold has_positive_turnovers, turnover_body.
  destruct (Basic_TO p) as [v|] eqn:Ev; [|reflexivity].
  destruct (v >? 0); [|reflexivity].
  rewrite guarded_div_scaled. cbn [bind ret].
  eexists. split; [reflexivity|].
  unfold turnover_entry_of. cbn. auto.
Qed.

Lemma rebound_body_spec (p : Player) :
  if has_positive_rebounds p
  then exists e, rebound_body p = Some [e] /\ rebound_entry_of p e /\
         REB.reb_per_36 e
         = round (guarded_scaled (REB.total_reb e) (REB.minutes e) 36) 2
  else rebound_body p = Some [].
Proof.
  unfold has_positive_rebounds, rebound_body.
  destruct (Basic_TRB p) as [v|] eqn:Ev; [|reflexivity].
  destruct (v >? 0); [|reflexivity].
  rewrite guarded_div_scaled. cbn [bind ret].
  eexists. split; [reflexivity|].
  unfold rebound_entry_of. cbn. auto.
Qed.

Lemma shot_body_spec (float_of_str : string -> option Q) (p : Player) :
  if has_positive_attempts p
  then exists e, shot_body float_of_str p = Some [e] /\ shot_entry_of p e
  else shot_body float_of_str p = Some [].
Proof.
  unfold has_positive_attempts, shot_body.
  destruct (Basic_FGA p) as [v|] eqn:Ev; [|reflexivity].
  destruct (v >? 0); [|reflexivity].
  eexists. split; [reflexivity|].
  unfold shot_entry_of. cbn. eauto.
Qed.


Lemma turnover_body_total (p : Player) : turnover_body p <> None.
Proof.
  generalize (turnover_body_spec p).
  destruct (has_positive_turnovers p).
  - intros (e & -> & _). discriminate.
  - intros ->. discriminate.
Qed.

Lemma rebound_body_total (p : Player) : rebound_body p <> None.
Proof.
  generalize (rebound_body_spec p).
  destruct (has_positive_rebounds p).
  - intros (e & -> & _). discriminate.
  - intros ->. discriminate.
Qed.

Lemma shot_body_total (float_of_str : string -> option Q) (p : Player) :
  shot_body float_of_str p <> None.
Proof.
  generalize (shot_body_spec float_of_str p).
  destruct (has_positive_attempts p).
  - intros (e & -> & _). discriminate.
  - intros ->. discriminate.
Qed.

Lemma player_turnovers_eq (self : GameAnalyzer) :
  player_turnovers self
  = Some (sort_reverse TO.turnovers
            (appended turnover_body (our_players self))).
Proof.
  unfold player_turnovers.
  rewrite for_append_total by (intros; apply turnover_body_total).
  reflexivity.
Qed.

Lemma player_rebounds_eq (self : GameAnalyzer) :
  player_rebounds self
  = Some (sort_reverse REB.total_reb
            (appended rebound_body (our_players self))).
Proof.
  unfold player_rebounds.
  rewrite for_append_total by (intros; apply rebound_body_total).
  reflexivity.
Qed.

Lemma player_shots_eq (float_of_str : string -> option Q)
    (self : GameAnalyzer) :
  player_shots float_of_str self
  = Some (sort_reverse (fun x => inject_Z (SHOT.fga x))
            (appended (shot_body float_of_str) (our_players self))).
Proof.
  unfold player_shots.
  rewrite for_append_total by (intros; apply shot_body_total).
  reflexivity.
Qed.

(** *** The three reports *)

Lemma analyze_turnovers_total (self : GameAnalyzer) :
  exists r ranked,
    analyze_turnovers self = Some r /\
    player_turnovers self = Some ranked /\
    TO.top_turnover_players r = firstn 5 ranked /\
    TO.our_to_rate r
    = round (guarded_scaled (Turnovers (our_team_stats self))
               (our_possessions self) 100) 2 /\
    TO.opp_to_rate r
    = round (guarded_scaled (Turnovers (opponent_stats self))
               (opponent_possessions self) 100) 2 /\
    TO.potential_points_lost r
    = round (Turnovers (our_team_stats self)
             * Points_Per_Possession (our_team_stats self)) 2.
Proof.
  unfold analyze_turnovers.
  rewrite !guarded_div_scaled, player_turnovers_eq. cbn [bind ret].
  do 2 eexists. split; [reflexivity|]. repeat split.
Qed.

Lemma analyze_rebounding_total (self : GameAnalyzer) :
  exists r ranked,
    analyze_rebounding self = Some r /\
    player_rebounds self = Some ranked /\
    REB.top_rebounders r = firstn 5 ranked.
Proof.
  unfold analyze_rebounding.
  rewrite player_rebounds_eq. cbn [bind ret].
  do 2 eexists. split; [reflexivity|]. repeat split.
Qed.

Lemma optimize_shot_selection_total (float_of_str : string -> option Q)
    (self : GameAnalyzer) :
  exists r ranked,
    optimize_shot_selection float_of_str self = Some r /\
    player_shots float_of_str self = Some ranked /\
    SHOT.top_shooters r = firstn 5 ranked.
Proof.
  unfold optimize_shot_selection.
  rewrite !py_div_100, !guarded_div, player_shots_eq. cbn [bind ret].
  do 2 eexists. split; [reflexivity|]. repeat split.
Qed.

(** *** Possessions *)

(** C1. The possession estimate of every team row is
    FGA - ORB + TO + 0.44 * FTA; the analyzer stores that estimate for both
    teams when it is built; and a team with FGA=60, ORB=10, TO=12, FTA=15
    has 68.6 possessions, in exact arithmetic and in binary64. *)
Theorem possessions_formula :
  (forall ts : TeamStats,
      _calculate_possessions ts
      = FG_Attempts ts - Offensive_Rebounds ts + Turnovers ts
        + 0.44 * FT_Att ts) /\
  (forall team_df player_df our opp self,
      __init__ team_df player_df our opp = Some self ->
      our_possessions self = _calculate_possessions (our_team_stats self) /\
      opponent_possessions self
      = _calculate_possessions (opponent_stats self)) /\
  (forall ts : TeamStats,
      FG_Attempts ts == 60 -> Offensive_Rebounds ts == 10 ->
      Turnovers ts == 12 -> FT_Att ts == 15 ->
      _calculate_possessions ts == 68.6) /\
  Binary64._calculate_possessions 60 10 12 15 = Binary64.example.
Proof.
  split; [reflexivity|]. split; [|split; [|reflexivity]].
  - intros team_df player_df our opp self. unfold __init__.
    destruct (team_row team_df our); [|discriminate].
    destruct (team_row team_df opp); [|discriminate].
    cbn [bind ret]. intros [= <-]. split; reflexivity.
  - intros ts H1 H2 H3 H4. unfold _calculate_possessions.
    rewrite H1, H2, H3, H4. reflexivity.
Qed.

Lemma possessions_formula_witness :
  our_possessions game == 68.6 /\ opponent_possessions game == 0.
Proof.
  destruct possessions_formula as (_ & Hinit & Hex & _).
  destruct (Hinit _ _ _ _ _ init_game) as [-> ->].
  split; [apply Hex; reflexivity | reflexivity].
Defined.

(** C2. A team whose estimated possession count is zero or negative gets 0
    as points per possession in [calculate_efficiency_metrics] and 0 as
    turnover rate in [analyze_turnovers]; both functions return a result
    for every analyzer state, so no division raises. *)
Theorem zero_possessions_report_zero (self : GameAnalyzer) :
  exists e t,
    calculate_efficiency_metrics self = Some e /\
    analyze_turnovers self = Some t /\
    (our_possessions self <= 0 ->
     ppp (our_team e) == 0 /\ TO.our_to_rate t == 0) /\
    (opponent_possessions self <= 0 ->
     opp_ppp (opponent e) == 0 /\ TO.opp_to_rate t == 0).
Proof.
  destruct (efficiency_total self) as (e & He & Hour & Hopp).
  destruct (analyze_turnovers_total self)
    as (t & ranked & Ht & _ & _ & Hrate & Horate & _).
  exists e, t. repeat split; try assumption.
  - rewrite Hour, guarded_nonpos by assumption. now apply round_zero.
  - rewrite Hrate, guarded_scaled_nonpos by assumption. now apply round_zero.
  - rewrite Hopp, guarded_nonpos by assumption. now apply round_zero.
  - rewrite Horate, guarded_scaled_nonpos by assumption. now apply round_zero.
Qed.

End Interpreted.

Section Sample.
Existing Instance sample_interpreter.

Lemma zero_possessions_report_zero_witness :
  exists e t,
    calculate_efficiency_metrics game = Some e /\
    analyze_turnovers game = Some t /\
    opp_ppp (opponent e) == 0 /\ TO.opp_to_rate t == 0.
Proof.
  destruct (zero_possessions_report_zero game) as (e & t & He & Ht & _ & H).
  exists e, t. repeat split; try assumption; apply H; vm_compute; discriminate.
Defined.

End Sample.

Section Interpreted.
Context {I : Interpreter}.

(** *** Rankings *)

Lemma has_positive_turnovers_iff (p : Player) :
  has_positive_turnovers p = true <-> exists v, Basic_TO p = Some v /\ 0 < v.
Proof.
  unfold has_positive_turnovers. destruct (Basic_TO p) as [v|].
  - rewrite gtb_gt. split.
    + intros H. now exists v.
    + now intros (w & [= <-] & H).
  - split; [discriminate | now intros (w & [=] & _)].
Qed.

Lemma turnover_entries (l : list Player) :
  Forall2 turnover_entry_of (filter has_positive_turnovers l)
    (appended turnover_body l).
Proof.
  apply appended_filter. intros p. generalize (turnover_body_spec p).
  destruct (has_positive_turnovers p); [|trivial].
  intros (e & He & Hof & _). now exists e.
Qed.

Lemma rebound_entries (l : list Player) :
  Forall2 rebound_entry_of (filter has_positive_rebounds l)
    (appended rebound_body l).
Proof.
  apply appended_filter. intros p. generalize (rebound_body_spec p).
  destruct (has_positive_rebounds p); [|trivial].
  intros (e & He & Hof & _). now exists e.
Qed.

Lemma shot_entries (float_of_str : string -> option Q) (l : list Player) :
  Forall2 shot_entry_of (filter has_positive_attempts l)
    (appended (shot_body float_of_str) l).
Proof.
  apply appended_filter. intros p. apply shot_body_spec.
Qed.

(** C7, as amended.  The ranked turnover list that [analyze_turnovers]
    builds (the list [player_turnovers] once sorted) has one entry for each
    player whose turnover count is present and strictly positive and no
    other entry; it is in descending order of turnover count; players of
    equal count keep their input order.  The report returns only its first
    five entries. *)
Theorem turnover_ranking (self : GameAnalyzer) :
  exists unsorted ranked report,
    player_turnovers self = Some ranked /\
    analyze_turnovers self = Some report /\
    TO.top_turnover_players report = firstn 5 ranked /\
    (forall p, has_positive_turnovers p = true <->
               exists v, Basic_TO p = Some v /\ 0 < v) /\
    Forall2 turnover_entry_of
      (filter has_positive_turnovers (our_players self)) unsorted /\
    Permutation unsorted ranked /\
    StronglySorted (fun a b => TO.turnovers b <= TO.turnovers a) ranked /\
    (forall k,
        filter (fun e => Qeq_bool (TO.turnovers e) k) ranked
        = filter (fun e => Qeq_bool (TO.turnovers e) k) unsorted).
Proof.
  destruct (analyze_turnovers_total self)
    as (r & ranked & Hr & Hranked & Htop & _).
  exists (appended turnover_body (our_players self)), ranked, r.
  rewrite player_turnovers_eq in Hranked. injection Hranked as <-.
  split; [apply player_turnovers_eq|].
  split; [assumption|]. split; [assumption|].
  split; [apply has_positive_turnovers_iff|].
  split; [apply turnover_entries|].
  split; [apply SortFacts.sort_reverse_perm|].
  split; [apply SortFacts.sort_reverse_sorted|].
  intros k. apply SortFacts.sort_reverse_stable.
Qed.

End Interpreted.

Section Sample.
Existing Instance sample_interpreter.

(** The ranking of the sample roster: G (4), then A and C (3) and D and H
    (2) in input order, then B and F (1); E (0 turnovers) is absent. *)
Lemma turnover_ranking_witness :
  exists ranked,
    player_turnovers game = Some ranked /\
    map TO.player ranked = ["G"; "A"; "C"; "D"; "H"; "B"; "F"]%string.
Proof.
  destruct (turnover_ranking game) as (u & ranked & r & H & _).
  exists ranked. split; [exact H|].
  vm_compute in H. injection H as <-. reflexivity.
Defined.

(** C7, as stated, fails on the list the function returns: seven players
    of the sample roster have a positive turnover count, and B, one of
    them, is not in the returned list, which holds G, A, C, D and H. *)
Lemma turnover_ranking_counterexample :
  exists p report,
    In p (our_players game) /\
    has_positive_turnovers p = true /\
    analyze_turnovers game = Some report /\
    map TO.player (TO.top_turnover_players report)
    = ["G"; "A"; "C"; "D"; "H"]%string /\
    ~ In (Athlete p) (map TO.player (TO.top_turnover_players report)).
Proof.
  exists (athlete "B" (Some "—"%string) (Some 1)).
  eexists. split; [right; left; reflexivity|].
  split; [reflexivity|]. split; [vm_compute; reflexivity|].
  split; [reflexivity|].
  cbn. intros [H | [H | [H | [H | [H | []]]]]]; discriminate H.
Qed.

End Sample.

Section Interpreted.
Context {I : Interpreter}.

(** C10. Each of the three returned rankings is the first five entries of
    the sorted list of qualifying players, hence has at most five entries
    (exactly five as soon as five players qualify). *)
Theorem rankings_at_most_five (float_of_str : string -> option Q)
    (self : GameAnalyzer) :
  exists t r s to_ranked reb_ranked shot_ranked,
    analyze_turnovers self = Some t /\
    analyze_rebounding self = Some r /\
    optimize_shot_selection float_of_str self = Some s /\
    player_turnovers self = Some to_ranked /\
    player_rebounds self = Some reb_ranked /\
    player_shots float_of_str self = Some shot_ranked /\
    TO.top_turnover_players t = firstn 5 to_ranked /\
    REB.top_rebounders r = firstn 5 reb_ranked /\
    SHOT.top_shooters s = firstn 5 shot_ranked /\
    (length (TO.top_turnover_players t) <= 5)%nat /\
    (length (REB.top_rebounders r) <= 5)%nat /\
    (length (SHOT.top_shooters s) <= 5)%nat /\
    length (TO.top_turnover_players t)
    = Nat.min 5 (length (filter has_positive_turnovers (our_players self))) /\
    length (REB.top_rebounders r)
    = Nat.min 5 (length (filter has_positive_rebounds (our_players self))) /\
    length (SHOT.top_shooters s)
    = Nat.min 5 (length (filter has_positive_attempts (our_players self))).
Proof.
  destruct (analyze_turnovers_total self) as (t & tl & Ht & Htl & Htop & _).
  destruct (analyze_rebounding_total self) as (r & rl & Hr & Hrl & Hrtop).
  destruct (optimize_shot_selection_total float_of_str self)
    as (s & sl & Hs & Hsl & Hstop).
  exists t, r, s, tl, rl, sl.
  repeat (split; [assumption|]).
  rewrite Htop, Hrtop, Hstop.
  repeat (split; [apply SortFacts.firstn_5_length|]).
  rewrite player_turnovers_eq in Htl. injection Htl as <-.
  rewrite player_rebounds_eq in Hrl. injection Hrl as <-.
  rewrite player_shots_eq in Hsl. injection Hsl as <-.
  rewrite !length_firstn, !SortFacts.sort_reverse_length.
  rewrite (Forall2_length (turnover_entries (our_players self))).
  rewrite (Forall2_length (rebound_entries (our_players self))).
  rewrite (Forall2_length (shot_entries float_of_str (our_players self))).
  repeat split.
Qed.

End Interpreted.

Section Sample.
Existing Instance sample_interpreter.

(** Seven players of the sample roster qualify; five are returned. *)
Lemma rankings_at_most_five_witness :
  exists t,
    analyze_turnovers game = Some t /\
    map TO.player (TO.top_turnover_players t)
    = ["G"; "A"; "C"; "D"; "H"]%string.
Proof.
  destruct (rankings_at_most_five (fun _ => None) game)
    as (t & _ & _ & _ & _ & _ & H & _).
  exists t. split; [exact H|].
  vm_compute in H. injection H as <-. reflexivity.
Defined.

End Sample.

Section Interpreted.
Context {I : Interpreter}.

(** *** Points lost to turnovers *)

(** C9, as amended.  The reported potential points lost is the turnover
    count times the team's [Points Per Possession] column, rounded to two
    decimals; that column is read from the data, it is not recomputed as
    points over estimated possessions. *)
Theorem potential_points_lost_from_column (self : GameAnalyzer) :
  exists r,
    analyze_turnovers self = Some r /\
    TO.potential_points_lost r
    = round (Turnovers (our_team_stats self)
             * Points_Per_Possession (our_team_stats self)) 2.
Proof.
  destruct (analyze_turnovers_total self)
    as (r & ranked & Hr & _ & _ & _ & _ & Hlost).
  now exists r.
Qed.

End Interpreted.

Section Sample.
Existing Instance sample_interpreter.

(** C9, as stated, fails: with 70 points, 68.6 estimated possessions, 12
    turnovers and a [Points Per Possession] column of 1.1, the report says
    13.2, while 12 * (70 / 68.6) is 600/49 (12.24 once rounded). *)
Lemma potential_points_lost_counterexample :
  our_possessions game == 68.6 /\
  option_map TO.potential_points_lost (analyze_turnovers game) = Some 13.20 /\
  Turnovers harker * (Points harker / our_possessions game) == 600 # 49 /\
  round (Turnovers harker * (Points harker / our_possessions game)) 2 == 12.24 /\
  ~ 13.20 == 600 # 49 /\ ~ 13.20 == 12.24.
Proof.
  repeat split; try (vm_compute; reflexivity); vm_compute; discriminate.
Qed.

End Sample.

Section Interpreted.
Context {I : Interpreter}.

(** *** Per-36-minute rates *)

Lemma turnover_rate_zero (p : Player) (e : TO.entry) :
  turnover_body p = Some [e] ->
  TO.minutes e = _parse_minutes (Basic_MP p) /\
  (TO.minutes e <= 0 -> TO.to_per_36 e == 0).
Proof.
  intros H. generalize (turnover_body_spec p).
  destruct (has_positive_turnovers p).
  - intros (e' & He' & Hof & Hrate). rewrite H in He'. injection He' as <-.
    split; [apply Hof|]. intros Hm.
    rewrite Hrate, guarded_scaled_nonpos by assumption.
    now apply round_zero.
  - intros H'. rewrite H in H'. discriminate.
Qed.

Lemma rebound_rate_zero (p : Player) (e : REB.entry) :
  rebound_body p = Some [e] ->
  REB.minutes e = _parse_minutes (Basic_MP p) /\
  (REB.minutes e <= 0 -> REB.reb_per_36 e == 0).
Proof.
  intros H. generalize (rebound_body_spec p).
  destruct (has_positive_rebounds p).
  - intros (e' & He' & Hof & Hrate). rewrite H in He'. injection He' as <-.
    split; [apply Hof|]. intros Hm.
    rewrite Hrate, guarded_scaled_nonpos by assumption.
    now apply round_zero.
  - intros H'. rewrite H in H'. discriminate.
Qed.

Lemma appended_Forall {A B} (P : B -> Prop) (body : A -> option (list B))
    (l : list A) :
  (forall a bs, body a = Some bs -> Forall P bs) ->
  Forall P (appended body l).
Proof.
  intros H. unfold appended. induction l as [|a l IH]; simpl.
  - constructor.
  - apply Forall_app. split; [|exact IH].
    destruct (body a) as [bs|] eqn:E; [now apply (H a) | constructor].
Qed.

Lemma turnover_rates_zero (l : list Player) :
  Forall (fun e => TO.minutes e <= 0 -> TO.to_per_36 e == 0)
    (appended turnover_body l).
Proof.
  apply appended_Forall. intros p bs H. generalize (turnover_body_spec p).
  destruct (has_positive_turnovers p).
  - intros (e & He & _). rewrite H in He. injection He as ->.
    constructor; [|constructor]. now apply (turnover_rate_zero p).
  - intros H'. rewrite H in H'. injection H' as ->. constructor.
Qed.

Lemma rebound_rates_zero (l : list Player) :
  Forall (fun e => REB.minutes e <= 0 -> REB.reb_per_36 e == 0)
    (appended rebound_body l).
Proof.
  apply appended_Forall. intros p bs H. generalize (rebound_body_spec p).
  destruct (has_positive_rebounds p).
  - intros (e & He & _). rewrite H in He. injection He as ->.
    constructor; [|constructor]. now apply (rebound_rate_zero p).
  - intros H'. rewrite H in H'. injection H' as ->. constructor.
Qed.

End Interpreted.

End GameFacts.

(** ** Clock strings *)

Module ClockFacts.

Import Py PyFacts AnalyzeGame Spec.
Local Open Scope Q_scope.
Local Open Scope py_scope.

(** *** The sample interpreter reads decimal numerals *)

Ltac each_ascii c :=
  destruct c as [[] [] [] [] [] [] [] []]; try reflexivity; try discriminate.

Lemma digit_not_space (c : ascii) : is_digit c = true -> is_space c = false.
Proof. each_ascii c. Qed.

Lemma lstrip_digits (s : string) : all_chars is_digit s = true -> lstrip s = s.
Proof.
  destruct s as [|c s]; simpl; intros H; [reflexivity|].
  apply andb_prop in H as [Hc _]. now rewrite digit_not_space.
Qed.

Lemma rstrip_digits (s : string) : all_chars is_digit s = true -> rstrip s = s.
Proof.
  induction s as [|c s IH]; simpl; intros H; [reflexivity|].
  apply andb_prop in H as [Hc Hs]. rewrite (IH Hs).
  destruct s; [now rewrite digit_not_space | reflexivity].
Qed.

Lemma strip_digits (s : string) : all_chars is_digit s = true -> strip s = s.
Proof.
  intros H. unfold strip. rewrite lstrip_digits by assumption.
  now apply rstrip_digits.
Qed.

Lemma numeral_digits (d : Decimal.uint) :
  all_chars is_digit (NilEmpty.string_of_uint d) = true.
Proof. induction d; simpl; auto. Qed.

Lemma parse_digits_numeral (d : Decimal.uint) :
  forall (a : nat) (prev : bool),
    d <> Decimal.Nil \/ prev = true ->
    parse_digits (NilEmpty.string_of_uint d) (Z.of_nat a) prev
    = Some (Z.of_nat (Nat.of_uint_acc d a)).
Proof.
  induction d; intros a prev H;
    cbn [NilEmpty.string_of_uint parse_digits Nat.of_uint_acc].
  1: { destruct H as [H | ->]; [contradiction | reflexivity]. }
  all: match goal with
       | |- context [digit_val ?c] =>
           let v := eval vm_compute in (digit_val c) in
           change (digit_val c) with v; cbv iota
       end.
  all: rewrite <- (IHd _ true) by (now right); f_equal;
       rewrite Nat.tail_mul_spec; lia.
Qed.

Lemma int_of_numeral (d : Decimal.uint) :
  d <> Decimal.Nil ->
  int_of_ascii (NilEmpty.string_of_uint d) = Some (Z.of_nat (Nat.of_uint d)).
Proof.
  intros Hd. unfold int_of_ascii.
  rewrite strip_digits by apply numeral_digits.
  unfold Nat.of_uint. rewrite <- (parse_digits_numeral d 0 false) by now left.
  destruct d; [contradiction | reflexivity ..].
Qed.

(** *** Parsing the minutes *)

Lemma float_of_int_inside (n : Z) :
  (Z.abs n < float_limit)%Z -> float_of_int n = Some (inject_Z n).
Proof.
  intros H. unfold float_of_int.
  now rewrite (proj2 (Z.ltb_lt _ _) H).
Qed.

Lemma float_of_int_outside (n : Z) :
  ~ (Z.abs n < float_limit)%Z -> float_of_int n = None.
Proof.
  intros H. unfold float_of_int.
  destruct (Z.abs n <? float_limit)%Z eqn:E; [|reflexivity].
  apply Z.ltb_lt in E. contradiction.
Qed.

Lemma length_2 {A} (l : list A) :
  length l = 2%nat -> exists a b, l = [a; b].
Proof. destruct l as [|a [|b [|c l]]]; try discriminate. eauto. Qed.

Lemma appended_In {A B} (body : A -> option (list B)) (l : list A)
    (a : A) (b : B) :
  In a l -> body a = Some [b] -> In b (appended body l).
Proof.
  intros Ha Hb. unfold appended. apply in_flat_map. exists a.
  split; [exact Ha|]. rewrite Hb. now left.
Qed.

Section Interpreted.
Context {I : Interpreter}.

(** The parts of a ["MM:SS"] string, once read as integers that convert to
    floats, give [MM + SS / 60]. *)
Lemma parse_minutes_parts (s a b : string) (m sec : Z) :
  split ":" s = [a; b] ->
  int_of_str a = Some m -> int_of_str b = Some sec ->
  (Z.abs m < float_limit)%Z -> (Z.abs sec < float_limit)%Z ->
  _parse_minutes (Some s) = inject_Z m + inject_Z sec / 60.
Proof.
  intros Hs Ha Hb Hm Hsec. unfold _parse_minutes.
  destruct (String.eqb s "—") eqn:E.
  - apply String.eqb_eq in E. subst s. discriminate Hs.
  - rewrite Hs. cbn [length Nat.eqb nth]. rewrite Ha, Hb. cbn [bind].
    rewrite (float_of_int_inside _ Hsec). cbn [bind]. rewrite py_div_60.
    cbn [bind]. rewrite (float_of_int_inside _ Hm). reflexivity.
Qed.

(** Everything else parses to 0. *)
Lemma parse_minutes_otherwise (s : string) :
  (forall (a b : string) (m sec : Z),
      split ":" s = [a; b] ->
      int_of_str a = Some m -> int_of_str b = Some sec ->
      (Z.abs m < float_limit)%Z -> (Z.abs sec < float_limit)%Z -> False) ->
  _parse_minutes (Some s) = 0.
Proof.
  intros H. unfold _parse_minutes.
  destruct (String.eqb s "—"); [reflexivity|].
  destruct (Nat.eqb (length (split ":" s)) 2) eqn:E; [|reflexivity].
  apply Nat.eqb_eq in E. destruct (length_2 _ E) as (a & b & Hs).
  rewrite Hs in *. cbn [nth].
  destruct (int_of_str a) as [m|] eqn:Ha; [|reflexivity].
  destruct (int_of_str b) as [sec|] eqn:Hb; [|reflexivity].
  cbn [bind].
  destruct (Z_lt_dec (Z.abs sec) float_limit) as [Hsec | Hsec].
  2:{ now rewrite (float_of_int_outside _ Hsec). }
  rewrite (float_of_int_inside _ Hsec). cbn [bind]. rewrite py_div_60.
  cbn [bind].
  destruct (Z_lt_dec (Z.abs m) float_limit) as [Hm | Hm].
  2:{ now rewrite (float_of_int_outside _ Hm). }
  exfalso. exact (H a b m sec eq_refl Ha Hb Hm Hsec).
Qed.

Lemma zero_minutes_turnovers (p : Player) (v : Q) :
  _parse_minutes (Basic_MP p) == 0 ->
  Basic_TO p = Some v -> 0 < v ->
  exists e, turnover_body p = Some [e] /\ turnover_entry_of p e /\
            TO.to_per_36 e == 0.
Proof.
  intros Hmin Hv Hpos. generalize (GameFacts.turnover_body_spec p).
  replace (has_positive_turnovers p) with true.
  2:{ symmetry. apply GameFacts.has_positive_turnovers_iff. eauto. }
  intros (e & He & Hof & _). exists e. split; [exact He|].
  split; [exact Hof|].
  destruct (GameFacts.turnover_rate_zero p e He) as [Hm H0].
  apply H0. rewrite Hm, Hmin. apply Qle_refl.
Qed.

Lemma zero_minutes_rebounds (p : Player) (v : Q) :
  _parse_minutes (Basic_MP p) == 0 ->
  Basic_TRB p = Some v -> 0 < v ->
  exists e, rebound_body p = Some [e] /\ rebound_entry_of p e /\
            REB.reb_per_36 e == 0.
Proof.
  intros Hmin Hv Hpos. generalize (GameFacts.rebound_body_spec p).
  replace (has_positive_rebounds p) with true.
  2:{ symmetry. unfold has_positive_rebounds. rewrite Hv. now apply gtb_gt. }
  intros (e & He & Hof & _). exists e. split; [exact He|].
  split; [exact Hof|].
  destruct (GameFacts.rebound_rate_zero p e He) as [Hm H0].
  apply H0. rewrite Hm, Hmin. apply Qle_refl.
Qed.

(** C6. Minutes normalization.  A string whose two colon-separated parts
    are read by [int] as MM and SS parses to [MM + SS / 60] (the two
    integers being within the range of floats), so ["24:30"] parses to
    24.5; a missing value, the sentinel and every other string (not two
    parts, a part that [int] rejects, or an integer too large for a float)
    parse to 0; and a player whose parsed minutes are 0 and who has
    turnovers (rebounds) gets an entry whose turnovers (rebounds) per 36
    minutes are 0, in the player loop and in the ranked list, the loops
    never raising. *)
Theorem minutes_normalization :
  (forall (s a b : string) (m sec : Z),
      split ":" s = [a; b] ->
      int_of_str a = Some m -> int_of_str b = Some sec ->
      (Z.abs m + Z.abs sec < float_limit)%Z ->
      _parse_minutes (Some s) = inject_Z m + inject_Z sec / 60) /\
  (int_of_str "24" = Some 24%Z -> int_of_str "30" = Some 30%Z ->
   _parse_minutes (Some "24:30"%string) == 24.5) /\
  _parse_minutes None = 0 /\
  _parse_minutes (Some "—"%string) = 0 /\
  (forall s : string,
      (forall (a b : string) (m sec : Z),
          split ":" s = [a; b] ->
          int_of_str a = Some m -> int_of_str b = Some sec ->
          (Z.abs m < float_limit)%Z -> (Z.abs sec < float_limit)%Z ->
          False) ->
      _parse_minutes (Some s) = 0) /\
  (forall (p : Player) (v : Q),
      _parse_minutes (Basic_MP p) == 0 -> 0 < v ->
      (Basic_TO p = Some v ->
       exists e, turnover_body p = Some [e] /\ turnover_entry_of p e /\
                 TO.to_per_36 e == 0) /\
      (Basic_TRB p = Some v ->
       exists e, rebound_body p = Some [e] /\ rebound_entry_of p e /\
                 REB.reb_per_36 e == 0)) /\
  (forall (self : GameAnalyzer) (p : Player) (v : Q),
      In p (our_players self) ->
      _parse_minutes (Basic_MP p) == 0 -> 0 < v ->
      exists tl rl,
        player_turnovers self = Some tl /\
        player_rebounds self = Some rl /\
        (Basic_TO p = Some v ->
         exists e, In e tl /\ turnover_entry_of p e /\ TO.to_per_36 e == 0) /\
        (Basic_TRB p = Some v ->
         exists e, In e rl /\ rebound_entry_of p e /\
                   REB.reb_per_36 e == 0) /\
        Forall (fun e => TO.minutes e == 0 -> TO.to_per_36 e == 0) tl /\
        Forall (fun e => REB.minutes e == 0 -> REB.reb_per_36 e == 0) rl).
Proof.
  split.
  { intros s a b m sec Hs Ha Hb Hlim.
    apply (parse_minutes_parts s a b m sec Hs Ha Hb); lia. }
  split.
  { intros H24 H30.
    rewrite (parse_minutes_parts "24:30" "24" "30" 24 30 eq_refl H24 H30)
      by (vm_compute; reflexivity).
    reflexivity. }
  split; [reflexivity|]. split; [reflexivity|].
  split; [exact parse_minutes_otherwise|].
  split.
  - intros p v Hp Hv. split; intros Hcell.
    + now apply (zero_minutes_turnovers p v).
    + now apply (zero_minutes_rebounds p v).
  - intros self p v Hin Hp Hv. do 2 eexists.
    split; [apply GameFacts.player_turnovers_eq|].
    split; [apply GameFacts.player_rebounds_eq|].
    split; [|split; [|split]].
    + intros Hcell.
      destruct (zero_minutes_turnovers p v Hp Hcell Hv) as (e & He & Hof & H0).
      exists e. split; [|now split].
      eapply Permutation_in; [apply SortFacts.sort_reverse_perm|].
      now apply (appended_In _ _ p).
    + intros Hcell.
      destruct (zero_minutes_rebounds p v Hp Hcell Hv) as (e & He & Hof & H0).
      exists e. split; [|now split].
      eapply Permutation_in; [apply SortFacts.sort_reverse_perm|].
      now apply (appended_In _ _ p).
    + eapply Permutation_Forall; [apply SortFacts.sort_reverse_perm|].
      eapply Forall_impl; [|apply GameFacts.turnover_rates_zero].
      intros e H Hm. apply H. rewrite Hm. apply Qle_refl.
    + eapply Permutation_Forall; [apply SortFacts.sort_reverse_perm|].
      eapply Forall_impl; [|apply GameFacts.rebound_rates_zero].
      intros e H Hm. apply H. rewrite Hm. apply Qle_refl.
Qed.

End Interpreted.

Section Sample.
Existing Instance sample_interpreter.

(** With the sample interpreter: ["05:15"] parses to 5.25 and ["1:2:3"] to
    0; player B of the sample roster has the sentinel as minutes and one
    turnover, and gets an entry with rate 0. *)
Lemma minutes_normalization_witness :
  _parse_minutes (Some "05:15"%string) == 5.25 /\
  _parse_minutes (Some "1:2:3"%string) = 0 /\
  exists e,
    turnover_body (athlete "B" (Some "—"%string) (Some 1)) = Some [e] /\
    TO.player e = "B"%string /\ TO.to_per_36 e == 0.
Proof.
  destruct minutes_normalization
    as (Hparts & _ & _ & _ & Hother & Hrate & _).
  split; [|split].
  - rewrite (Hparts "05:15"%string "05"%string "15"%string 5%Z 15%Z)
      by (vm_compute; reflexivity).
    reflexivity.
  - apply Hother. intros a b m sec Hs. vm_compute in Hs. discriminate Hs.
  - destruct (Hrate (athlete "B" (Some "—"%string) (Some 1)) 1) as [Hto _];
      try reflexivity.
    destruct (Hto eq_refl) as (e & He & (Hname & _) & H0).
    exists e. repeat split; assumption.
Defined.

End Sample.

End ClockFacts.

(** ** Shot zones *)

Module ShotFacts.

Import Py PyFacts ProcessShots.
Import Spec.
Local Open Scope Q_scope.
Local Open Scope py_scope.

(** *** Zone assignment *)

Lemma nonzero_of_pos (d : Q) : 0 < d -> ~ d == 0.
Proof. intros H E. rewrite E in H. revert H. apply Qlt_irrefl. Qed.

Lemma assign_zone_eq (x y cw cl : Q) (gr gc : Z) :
  ~ cw == 0 -> ~ cl == 0 ->
  assign_zone x y cw cl gr gc
  = Some (Z.min (int (max 0 (min 1 (y / cl)) * inject_Z gr)) (gr - 1),
          Z.min (int (max 0 (min 1 (x / cw)) * inject_Z gc)) (gc - 1)).
Proof.
  intros Hw Hl. unfold assign_zone.
  rewrite !py_div_nonzero by assumption. reflexivity.
Qed.

Lemma clamped_index (v : Q) (n : Z) :
  (0 < n)%Z ->
  (0 <= Z.min (int (max 0 (min 1 v) * inject_Z n)) (n - 1) <= n - 1)%Z.
Proof.
  intros Hn. split; [|apply Z.le_min_r].
  apply Z.min_glb; [|lia].
  apply int_nonneg. apply Qmult_le_0_compat.
  - apply min_max_clamp.
  - change 0 with (inject_Z 0). rewrite <- Zle_Qle. lia.
Qed.



Example assign_zone_out_of_bounds :
  assign_zone (-10) 25 94 50 5 5 = Some (2, 0)%Z /\
  assign_zone 200 (-3) 94 50 5 5 = Some (0, 4)%Z /\
  assign_zone 94 50 94 50 5 5 = Some (4, 4)%Z.
Proof. repeat split. Qed.

(** *** The working copy of the table *)

Lemma add_columns_rows (cw cl : Q) (gr gc : Z) (df : list Shot) :
  forall rows,
    for_append (add_columns cw cl gr gc) df = Some rows ->
    Forall2 (row_of cw cl gr gc) df rows.
Proof.
  induction df as [|s df IH]; simpl; intros rows H.
  - injection H as <-. constructor.
  - unfold add_columns at 1 in H.
    destruct (assign_zone (X s) (Y s) cw cl gr gc) as [z|] eqn:Ez;
      [|discriminate].
    cbn [bind ret] in H.
    destruct (for_append (add_columns cw cl gr gc) df) as [rest|];
      [|discriminate].
    injection H as <-. simpl. constructor; [|now apply IH].
    repeat split. exact Ez.
Qed.

Lemma add_columns_total (cw cl : Q) (gr gc : Z) (df : list Shot) :
  ~ cw == 0 -> ~ cl == 0 ->
  exists rows, for_append (add_columns cw cl gr gc) df = Some rows.
Proof.
  intros Hw Hl.
  induction df as [|s df [rest IH]]; simpl.
  - now exists [].
  - unfold add_columns at 1. rewrite assign_zone_eq by assumption.
    cbn [bind ret]. rewrite IH. eauto.
Qed.

Lemma filter_Forall2 {A B} (R : A -> B -> Prop) (p : A -> bool)
    (q : B -> bool) (l : list A) (l' : list B) :
  (forall a b, R a b -> p a = q b) ->
  Forall2 R l l' -> Forall2 R (filter p l) (filter q l').
Proof.
  intros Hpq H. induction H as [|a b l l' Hab _ IH]; simpl.
  - constructor.
  - rewrite <- (Hpq a b Hab). destruct (p a); [now constructor | exact IH].
Qed.

Lemma zone_shots_rows (cw cl : Q) (gr gc row col : Z)
    (df : list Shot) (rows : list ShotRow) :
  Forall2 (row_of cw cl gr gc) df rows ->
  Forall2 (row_of cw cl gr gc)
    (filter (in_zone cw cl gr gc row col) df)
    (filter (fun r => zone_eqb (Zone r) (row, col)) rows).
Proof.
  apply filter_Forall2. intros s r (_ & _ & Hz).
  unfold in_zone. now rewrite Hz.
Qed.

Lemma rows_points (cw cl : Q) (gr gc : Z) (l : list Shot)
    (l' : list ShotRow) :
  Forall2 (row_of cw cl gr gc) l l' ->
  map Points l' = map shot_points l /\
  length l' = length l /\
  length (filter (fun r => is_Made (shot r)) l') = length (filter is_Made l).
Proof.
  intros H. split; [|split].
  - induction H as [|s r l l' (_ & Hp & _) _ IH]; simpl;
      [reflexivity | now rewrite Hp, IH].
  - symmetry. eapply Forall2_length, H.
  - symmetry. eapply Forall2_length, filter_Forall2; [|exact H].
    intros s r (Hs & _). now rewrite Hs.
Qed.

(** *** One zone *)

Lemma existsb_map {A B} (f : B -> bool) (g : A -> B) (l : list A) :
  existsb f (map g l) = existsb (fun a => f (g a)) l.
Proof. induction l as [|a l IH]; simpl; [reflexivity | now rewrite IH]. Qed.

Lemma str_accessor_text (df : list Shot) :
  has_shot_type df -> str_accessor (map ShotType df) = Some tt.
Proof.
  unfold has_shot_type, str_accessor. intros H.
  destruct df as [|s df]; [discriminate|].
  cbn [map]. rewrite <- map_cons, existsb_map. cbv beta.
  now rewrite H.
Qed.

Lemma has_shot_type_rows (df : list Shot) : has_shot_type df -> df <> [].
Proof. intros H ->. discriminate H. Qed.

Lemma zone_body_spec (df : list ShotRow) (row col : Z) :
  df <> [] ->
  let zone_shots := filter (fun r => zone_eqb (Zone r) (row, col)) df in
  exists z,
    zone_body df row col = Some z /\
    Row z = row /\ Col z = col /\ ZoneLabel z = zone_label row col /\
    TotalShots z = Z.of_nat (length zone_shots) /\
    MadeShots z
    = Z.of_nat (length (filter (fun r => is_Made (shot r)) zone_shots)) /\
    MissedShots z = (TotalShots z - MadeShots z)%Z /\
    TotalPoints z = sum (map Points zone_shots) /\
    PointsPerPossession z = PointsPerShot z /\
    (zone_shots = [] ->
     PointsPerShot z = 0 /\ FieldGoalPercentage z = 0) /\
    (zone_shots <> [] ->
     PointsPerShot z
     = round (inject_Z (TotalPoints z) / inject_Z (TotalShots z)) 2 /\
     FieldGoalPercentage z
     = round (inject_Z (MadeShots z) / inject_Z (TotalShots z) * 100) 1).
Proof.
  intros Hne zone_shots. unfold zone_body.
  assert (Hz : zone_rows df row col = Some zone_shots)
    by (destruct df; [contradiction | reflexivity]).
  rewrite Hz. cbn [bind].
  destruct zone_shots as [|r0 rest] eqn:E.
  - cbn [length Nat.ltb Nat.leb]. eexists. split; [reflexivity|].
    cbn. repeat split; try reflexivity; intros; congruence.
  - assert (Hpos : (inject_Z (Z.of_nat (length (r0 :: rest))) >? 0) = true).
    { apply gtb_gt. change 0 with (inject_Z 0). rewrite <- Zlt_Qlt.
      simpl length. lia. }
    replace (0 <? length (r0 :: rest))%nat with true
      by (symmetry; apply Nat.ltb_lt; simpl; lia).
    rewrite Hpos, !py_div_pos by exact Hpos. cbn [bind ret].
    eexists. split; [reflexivity|]. cbn.
    repeat split; try reflexivity; intros; congruence.
Qed.

(** *** The grid *)

Lemma Forall2_map_l {A B C} (g : A -> B) (P : B -> C -> Prop)
    (l : list A) (l' : list C) :
  Forall2 (fun a c => P (g a) c) l l' -> Forall2 P (map g l) l'.
Proof. induction 1; simpl; now constructor. Qed.

Section Grid.
Variables (f : Z -> Z -> option ZoneStats) (P : Z * Z -> ZoneStats -> Prop).
Hypothesis f_spec : forall r c, exists z, f r c = Some z /\ P (r, c) z.

Let inner (r : Z) (cs : list Z) : option (list ZoneStats) :=
  for_append (fun c => z <- f r c ;; ret [z]) cs.

Lemma inner_loop (r : Z) (cs : list Z) :
  exists out, inner r cs = Some out /\ Forall2 P (map (pair r) cs) out.
Proof.
  induction cs as [|c cs (out & Hout & IH)]; unfold inner in *; simpl.
  - exists []. split; [reflexivity | constructor].
  - destruct (f_spec r c) as (z & -> & Hz). cbn [bind ret].
    rewrite Hout. exists (z :: out). split; [reflexivity | now constructor].
Qed.

Lemma grid_loop (rs cs : list Z) :
  exists rows,
    for_append (fun r => inner r cs) rs = Some rows /\
    Forall2 P (list_prod rs cs) rows.
Proof.
  induction rs as [|r rs (rows & Hrows & IH)]; simpl.
  - exists []. split; [reflexivity | constructor].
  - destruct (inner_loop r cs) as (out & -> & Hout). rewrite Hrows.
    exists (out ++ rows)%list. split; [reflexivity|].
    now apply Forall2_app.
Qed.
End Grid.

Lemma zone_body_of_shots (cw cl : Q) (gr gc : Z) (df : list Shot)
    (rows : list ShotRow) (row col : Z) :
  df <> [] ->
  Forall2 (row_of cw cl gr gc) df rows ->
  exists z, zone_body rows row col = Some z /\
            zone_of_shots cw cl gr gc df (row, col) z.
Proof.
  intros Hdf H.
  assert (Hrows : rows <> [])
    by (intros ->; inversion H; congruence).
  pose proof (zone_shots_rows cw cl gr gc row col df rows H) as Hz.
  destruct (rows_points _ _ _ _ _ _ Hz) as (Hpts & Hlen & Hmade).
  destruct (zone_body_spec rows row col Hrows)
    as (z & Hbody & Hr & Hc & Hlab & Hts & Hms & Hmiss & Htp & Hppp & He & Hne).
  exists z. split; [exact Hbody|].
  unfold zone_of_shots. cbn [fst snd].
  rewrite <- Hpts, <- Hlen, <- Hmade.
  repeat (split; [assumption|]). split.
  - intros E. apply He. apply length_zero_iff_nil.
    rewrite Hlen, E. reflexivity.
  - intros E. apply Hne. intros E'. apply E. apply length_zero_iff_nil.
    rewrite <- Hlen, E'. reflexivity.
Qed.

(** On a table without rows the loop raises at its first zone: it ends
    only when there is no zone. *)
Lemma grid_loop_raises (f : Z -> Z -> option ZoneStats) (rs cs : list Z)
    (rows : list ZoneStats) :
  (forall r c, f r c = None) ->
  for_append (fun r => for_append (fun c => z <- f r c ;; ret [z]) cs) rs
  = Some rows ->
  rows = [] /\ list_prod rs cs = [].
Proof.
  intros Hf. destruct cs as [|c cs].
  - revert rows. induction rs as [|r rs IH]; simpl; intros rows H.
    + injection H as <-. now split.
    + destruct (for_append _ rs) as [rest|] eqn:E; [|discriminate].
      injection H as <-. destruct (IH rest eq_refl) as [-> Hp]. now split.
  - destruct rs as [|r rs]; simpl; intros H.
    + injection H as <-. now split.
    + rewrite Hf in H. discriminate.
Qed.

(** [calculate_zone_stats] returns whenever the table has a row with a
    text shot type and every shot can be assigned a zone, and its rows
    follow the grid in row-major order. *)
Lemma calculate_zone_stats_spec (df : list Shot) (cw cl : Q) (gr gc : Z) :
  has_shot_type df -> ~ cw == 0 -> ~ cl == 0 ->
  exists rows,
    calculate_zone_stats df cw cl gr gc = Some rows /\
    Forall2 (zone_of_shots cw cl gr gc df)
      (list_prod (range gr) (range gc)) rows.
Proof.
  intros Htext Hw Hl. unfold calculate_zone_stats.
  destruct (add_columns_total cw cl gr gc df Hw Hl) as (df' & Hdf').
  rewrite Hdf', (str_accessor_text df Htext). cbn [bind].
  apply add_columns_rows in Hdf'.
  apply (grid_loop (zone_body df')).
  intros r c. apply zone_body_of_shots; [|assumption].
  now apply has_shot_type_rows.
Qed.

Lemma calculate_zone_stats_inv (df : list Shot) (cw cl : Q) (gr gc : Z)
    (rows : list ZoneStats) :
  calculate_zone_stats df cw cl gr gc = Some rows ->
  Forall2 (zone_of_shots cw cl gr gc df)
    (list_prod (range gr) (range gc)) rows.
Proof.
  unfold calculate_zone_stats. intros H.
  destruct (for_append (add_columns cw cl gr gc) df) as [df'|] eqn:Hdf';
    [|discriminate].
  cbn [bind] in H.
  destruct (str_accessor (map ShotType df)) as [[]|]; [|discriminate].
  cbn [bind] in H. apply add_columns_rows in Hdf'.
  destruct df as [|s0 df0].
  - inversion Hdf'; subst.
    destruct (grid_loop_raises (zone_body []) _ _ rows (fun _ _ => eq_refl) H)
      as [-> ->].
    constructor.
  - destruct (grid_loop (zone_body df')
                (zone_of_shots cw cl gr gc (s0 :: df0))
                (fun r c => zone_body_of_shots cw cl gr gc (s0 :: df0) df' r c
                              ltac:(discriminate) Hdf')
                (range gr) (range gc)) as (rows' & Hrows' & HF).
    rewrite Hrows' in H. now injection H as <-.
Qed.


(** *** Substrings *)

Lemma prefix_iff (pat s : string) :
  String.prefix pat s = true <-> exists post, s = (pat ++ post)%string.
Proof.
  revert s. induction pat as [|a pat IH]; intros s.
  - split; [intros _; now exists s | intros _; now destruct s].
  - destruct s as [|b s]; simpl.
    + split; [discriminate | intros (post & [=])].
    + destruct (Ascii.ascii_dec a b) as [<- | Hab].
      * rewrite IH. split; intros (post & H); exists post; congruence.
      * split; [discriminate | intros (post & [= E _]); congruence].
Qed.

Lemma contains_iff (pat s : string) :
  contains pat s = true <-> is_substring pat s.
Proof.
  unfold is_substring. split.
  - induction s as [|c s IH]; cbn [contains];
      rewrite orb_true_iff, prefix_iff.
    + intros [(post & H) | [=]]. now exists EmptyString, post.
    + intros [(post & H) | H]; [now exists EmptyString, post|].
      destruct (IH H) as (pre & post & ->). now exists (String c pre), post.
  - intros (pre & post & ->).
    induction pre as [|c pre IH].
    + change (String.append EmptyString (pat ++ post))
        with (pat ++ post)%string.
      destruct (pat ++ post)%string eqn:E; cbn [contains];
        rewrite orb_true_iff, prefix_iff; left; exists post; now rewrite E.
    + cbn [String.append contains]. rewrite IH. apply orb_true_r.
Qed.

(** *** Claims on the zone table *)

Lemma zone_eqb_eq (a b : Z * Z) : zone_eqb a b = true <-> a = b.
Proof.
  destruct a, b. unfold zone_eqb. simpl.
  rewrite andb_true_iff, !Z.eqb_eq. split; [intros [-> ->] | intros [= -> ->]];
    auto.
Qed.


Lemma Forall2_In_r {A B} (R : A -> B -> Prop) (l : list A) (l' : list B)
    (b : B) :
  Forall2 R l l' -> In b l' -> exists a, In a l /\ R a b.
Proof.
  induction 1 as [|a b' l l' Hab _ IH]; simpl; [contradiction|].
  intros [<- | Hb].
  - exists a. auto.
  - destruct (IH Hb) as (a' & Ha' & HR). exists a'. auto.
Qed.

Lemma zone_keys (cw cl : Q) (gr gc : Z) (df : list Shot)
    (l : list (Z * Z)) (rows : list ZoneStats) :
  Forall2 (zone_of_shots cw cl gr gc df) l rows ->
  map (fun z => (Row z, Col z)) rows = l.
Proof.
  induction 1 as [|[r c] z l rows (Hr & Hc & _) _ IH]; simpl;
    [reflexivity|].
  simpl in Hr, Hc. now rewrite Hr, Hc, IH.
Qed.




Lemma is_Made_iff (s : Shot) :
  is_Made s = true <-> Result s = Some "Made"%string.
Proof.
  unfold is_Made. destruct (Result s) as [r|].
  - rewrite String.eqb_eq. split; congruence.
  - split; discriminate.
Qed.

Lemma is_3PT_iff (s : Shot) :
  is_3PT s = true <->
  exists t, ShotType s = Some t /\ is_substring "3PT" t.
Proof.
  unfold is_3PT. destruct (ShotType s) as [t|].
  - rewrite contains_iff. split.
    + intros H. now exists t.
    + now intros (t' & [= <-] & H).
  - split; [discriminate | now intros (t' & [=] & _)].
Qed.

(** C5. A shot counts 3 in the total points of its zone when its result
    is "Made" and its shot type contains "3PT", 2 when its result is "Made"
    and its shot type does not contain "3PT" or is missing, and 0 for any
    other result; the total points of a zone are the sum of these over the
    shots assigned to it. *)
Theorem zone_points_by_shot :
  (forall s : Shot,
      Result s = Some "Made"%string ->
      (exists t, ShotType s = Some t /\ is_substring "3PT" t) ->
      shot_points s = 3%Z) /\
  (forall s : Shot,
      Result s = Some "Made"%string ->
      (forall t, ShotType s = Some t -> ~ is_substring "3PT" t) ->
      shot_points s = 2%Z) /\
  (forall s : Shot,
      Result s <> Some "Made"%string -> shot_points s = 0%Z) /\
  (forall (df : list Shot) (court_width court_length : Q)
          (grid_rows grid_cols : Z) (rows : list ZoneStats),
      calculate_zone_stats df court_width court_length grid_rows grid_cols
      = Some rows ->
      Forall (fun z =>
                TotalPoints z
                = sum (map shot_points
                         (filter (in_zone court_width court_length
                                    grid_rows grid_cols (Row z) (Col z)) df)))
             rows).
Proof.
  split; [|split; [|split]].
  - intros s Hm H3. apply is_Made_iff in Hm. apply is_3PT_iff in H3.
    unfold shot_points. now rewrite Hm, H3.
  - intros s Hm H3. apply is_Made_iff in Hm.
    assert (E : is_3PT s = false).
    { apply not_true_iff_false. rewrite is_3PT_iff.
      intros (t & Ht & Hsub). exact (H3 t Ht Hsub). }
    unfold shot_points. now rewrite Hm, E.
  - intros s Hm.
    assert (E : is_Made s = false).
    { apply not_true_iff_false. now rewrite is_Made_iff. }
    unfold shot_points. rewrite E.
    now destruct (is_3PT s).
  - intros df cw cl gr gc rows H.
    apply calculate_zone_stats_inv in H.
    apply Forall_forall. intros z Hz.
    destruct (Forall2_In_r _ _ _ _ H Hz) as ([r c] & _ & Hzone).
    unfold zone_of_shots in Hzone. cbn [fst snd] in Hzone.
    destruct Hzone as (-> & -> & _ & _ & _ & _ & Htp & _). exact Htp.
Qed.

(** The sample table: three made shots in zone (1,0) count 3 + 2 + 2, the
    missed 3-pointer of the same zone and the shot without result count 0. *)
Lemma zone_points_by_shot_witness :
  map shot_points shots = [3; 2; 2; 0; 0]%Z /\
  exists rows,
    calculate_zone_stats shots 94 50 5 5 = Some rows /\
    map TotalPoints rows
    = [0; 0; 0; 0; 0;  7; 0; 0; 0; 0;  0; 0; 0; 0; 0;
       0; 0; 0; 0; 0;  0; 0; 0; 0; 0]%Z /\
    Forall (fun z =>
              TotalPoints z
              = sum (map shot_points
                       (filter (in_zone 94 50 5 5 (Row z) (Col z)) shots)))
           rows.
Proof.
  split; [reflexivity|].
  eexists. split; [vm_compute; reflexivity|]. split; [reflexivity|].
  destruct zone_points_by_shot as (_ & _ & _ & H).
  apply (H shots 94 50 5%Z 5%Z). vm_compute. reflexivity.
Defined.

(** C8. In every row of the zone statistics the points per possession
    equal the points per shot. *)
Theorem ppp_equals_pps (df : list Shot) (court_width court_length : Q)
    (grid_rows grid_cols : Z) (rows : list ZoneStats) :
  calculate_zone_stats df court_width court_length grid_rows grid_cols
  = Some rows ->
  Forall (fun z => PointsPerPossession z = PointsPerShot z) rows.
Proof.
  intros H. apply calculate_zone_stats_inv in H.
  apply Forall_forall. intros z Hz.
  destruct (Forall2_In_r _ _ _ _ H Hz) as (rc & _ & Hzone).
  apply Hzone.
Qed.

Lemma ppp_equals_pps_witness :
  exists rows,
    calculate_zone_stats shots 94 50 5 5 = Some rows /\
    nth 5 (map PointsPerShot rows) 0 == 1.75 /\
    Forall (fun z => PointsPerPossession z = PointsPerShot z) rows.
Proof.
  eexists. split; [vm_compute; reflexivity|]. split; [reflexivity|].
  apply (ppp_equals_pps shots 94 50 5%Z 5%Z). vm_compute. reflexivity.
Defined.

End ShotFacts.

(** ** Rounding and truncation *)

Module RoundFacts.

Import Py PyFacts.
Local Open Scope Q_scope.
Local Open Scope py_scope.

Lemma round_half_even_le (t : Q) (n : Z) :
  t <= inject_Z n -> (round_half_even t <= n)%Z.
Proof.
  intros Ht. unfold round_half_even.
  pose proof (Qfloor_le t) as Hf.
  assert (Hfn : (Qfloor t <= n)%Z).
  { rewrite Zle_Qle. eapply Qle_trans; eassumption. }
  destruct (Z.eq_dec (Qfloor t) n) as [E | E].
  - assert (Hc : Qcompare (t - inject_Z (Qfloor t)) (1 # 2) = Lt).
    { rewrite <- Qlt_alt. rewrite E. lra. }
    rewrite Hc. lia.
  - destruct (Qcompare (t - inject_Z (Qfloor t)) (1 # 2));
      try destruct (Z.even (Qfloor t)); lia.
Qed.

Lemma round_half_even_ge (t : Q) (n : Z) :
  inject_Z n <= t -> (n <= round_half_even t)%Z.
Proof.
  intros Ht. unfold round_half_even.
  assert (Hfn : (n <= Qfloor t)%Z).
  { rewrite <- (Qfloor_Z n). now apply Qfloor_resp_le. }
  destruct (Qcompare (t - inject_Z (Qfloor t)) (1 # 2));
    try destruct (Z.even (Qfloor t)); lia.
Qed.

Lemma scale_pos (ndigits : nat) : 0 < inject_Z (10 ^ Z.of_nat ndigits).
Proof.
  change 0 with (inject_Z 0). rewrite <- Zlt_Qlt.
  apply Z.pow_pos_nonneg; lia.
Qed.

(** Rounding to decimals never crosses an integer. *)
Lemma round_le (x : Q) (ndigits : nat) (n : Z) :
  x <= inject_Z n -> round x ndigits <= inject_Z n.
Proof.
  intros Hx. unfold round.
  pose proof (scale_pos ndigits) as Hs.
  set (s := (10 ^ Z.of_nat ndigits)%Z) in *.
  apply Qle_shift_div_r; [exact Hs|].
  rewrite <- inject_Z_mult, <- Zle_Qle.
  apply round_half_even_le. rewrite inject_Z_mult.
  apply Qmult_le_compat_r; [exact Hx | now apply Qlt_le_weak].
Qed.

Lemma round_ge (x : Q) (ndigits : nat) (n : Z) :
  inject_Z n <= x -> inject_Z n <= round x ndigits.
Proof.
  intros Hx. unfold round.
  pose proof (scale_pos ndigits) as Hs.
  set (s := (10 ^ Z.of_nat ndigits)%Z) in *.
  apply Qle_shift_div_l; [exact Hs|].
  rewrite <- inject_Z_mult, <- Zle_Qle.
  apply round_half_even_ge. rewrite inject_Z_mult.
  apply Qmult_le_compat_r; [exact Hx | now apply Qlt_le_weak].
Qed.

Lemma round_gt_inv (x : Q) (ndigits : nat) (n : Z) :
  inject_Z n < round x ndigits -> inject_Z n < x.
Proof.
  intros H. apply Qnot_le_lt. intros Hx.
  apply (round_le _ ndigits) in Hx. lra.
Qed.

Lemma round_lt_inv (x : Q) (ndigits : nat) (n : Z) :
  round x ndigits < inject_Z n -> x < inject_Z n.
Proof.
  intros H. apply Qnot_le_lt. intros Hx.
  apply (round_ge _ ndigits) in Hx. lra.
Qed.


Lemma floor_le_int (x : Q) : (Qfloor x <= int x)%Z.
Proof.
  unfold int. destruct x as [a d]. simpl.
  destruct (Z.le_gt_cases 0 a) as [Ha | Ha].
  - rewrite Z.quot_div_nonneg by lia. lia.
  - pose proof (Z.quot_rem' a (Z.pos d)) as Hq.
    assert (Hr : (Z.rem a (Z.pos d) <= 0)%Z) by (apply Z.rem_nonpos; lia).
    pose proof (Z.div_mod a (Z.pos d)) as Hd.
    pose proof (Z.mod_pos_bound a (Z.pos d)) as Hm.
    nia.
Qed.

(** [int x] is within one of [x], on the side of zero. *)
Lemma lt_int_succ (x : Q) : x < inject_Z (int x + 1).
Proof.
  eapply Qlt_le_trans; [apply Qlt_floor|].
  rewrite <- Zle_Qle. pose proof (floor_le_int x). lia.
Qed.

Lemma int_neg_le (x : Q) : x <= 0 -> x <= inject_Z (int x).
Proof.
  intros Hx. unfold int. destruct x as [a d].
  unfold Qle in *. simpl in *. rewrite Z.mul_1_r in Hx. rewrite Z.mul_1_r.
  pose proof (Z.quot_rem' a (Z.pos d)) as Hq.
  destruct (Z.eq_dec a 0) as [-> | Hne].
  - rewrite Z.quot_0_l by lia. lia.
  - assert (Hr : (Z.rem a (Z.pos d) <= 0)%Z) by (apply Z.rem_nonpos; lia).
    nia.
Qed.

End RoundFacts.

(** ** More on the game analyzer *)

Module GameExtras.

Import Py PyFacts RoundFacts AnalyzeGame Spec.
Local Open Scope Q_scope.
Local Open Scope py_scope.

Section Interpreted.
Context {I : Interpreter}.

(** *** Possessions and the analyzer state *)

(** X1. The possession estimate grows with turnovers and free-throw
    attempts and shrinks with offensive rebounds, the other columns being
    equal. *)
Theorem possessions_monotone (a b : TeamStats) :
  FG_Attempts a == FG_Attempts b ->
  Offensive_Rebounds b <= Offensive_Rebounds a ->
  Turnovers a <= Turnovers b ->
  FT_Att a <= FT_Att b ->
  _calculate_possessions a <= _calculate_possessions b.
Proof.
  intros Hfga Horb Hto Hfta. unfold _calculate_possessions.
  rewrite Hfga.
  assert (H : 0.44 * FT_Att a <= 0.44 * FT_Att b).
  { rewrite !(Qmult_comm 0.44). apply Qmult_le_compat_r; [exact Hfta|].
    discriminate. }
  lra.
Qed.

Lemma possessions_monotone_witness :
  _calculate_possessions (team "Harker" 70 60 10 12 15 1.1)
  <= _calculate_possessions (team "Harker" 70 60 8 14 20 1.1).
Proof.
  apply possessions_monotone; vm_compute; first [reflexivity | discriminate].
Defined.

Lemma team_row_some (team_df : list TeamStats) (name : string) (r : TeamStats) :
  team_row team_df name = Some r ->
  In r team_df /\ Team r = name /\
  exists before after,
    team_df = (before ++ r :: after)%list /\
    Forall (fun r' => Team r' <> name) before.
Proof.
  unfold team_row. induction team_df as [|r0 l IH]; simpl; [discriminate|].
  destruct (String.eqb (Team r0) name) eqn:E.
  - intros [= <-]. apply String.eqb_eq in E.
    split; [now left|]. split; [exact E|].
    exists [], l. split; [reflexivity | constructor].
  - intros H. destruct (IH H) as (Hin & Hname & before & after & -> & Hb).
    split; [now right|]. split; [exact Hname|].
    exists (r0 :: before), after. split; [reflexivity|].
    constructor; [|exact Hb]. now apply String.eqb_neq.
Qed.

Lemma team_row_none (team_df : list TeamStats) (name : string) :
  team_row team_df name = None <-> Forall (fun r => Team r <> name) team_df.
Proof.
  unfold team_row. induction team_df as [|r0 l IH]; simpl.
  - split; [constructor | reflexivity].
  - destruct (String.eqb (Team r0) name) eqn:E.
    + apply String.eqb_eq in E. split; [discriminate|].
      intros H. inversion H; subst. contradiction.
    + apply String.eqb_neq in E. rewrite IH. split.
      * now constructor.
      * intros H. now inversion H.
Qed.

(** X2. Building the analyzer fails exactly when one of the two team names
    has no row in the box score; otherwise each team gets the first row
    carrying its name, and the roster is the rows of the player table
    tagged "home", in their order, whatever the team names are. *)
Theorem init_teams (team_df : list TeamStats) (player_df : list Player)
    (our_team opponent_team : string) :
  (__init__ team_df player_df our_team opponent_team = None <->
   Forall (fun r => Team r <> our_team) team_df \/
   Forall (fun r => Team r <> opponent_team) team_df) /\
  (forall self,
      __init__ team_df player_df our_team opponent_team = Some self ->
      (exists before after,
          team_df = (before ++ our_team_stats self :: after)%list /\
          Team (our_team_stats self) = our_team /\
          Forall (fun r => Team r <> our_team) before) /\
      (exists before after,
          team_df = (before ++ opponent_stats self :: after)%list /\
          Team (opponent_stats self) = opponent_team /\
          Forall (fun r => Team r <> opponent_team) before) /\
      our_players self
      = filter (fun p => String.eqb (P_Team p) "home") player_df /\
      Forall (fun p => P_Team p = "home"%string) (our_players self)).
Proof.
  unfold __init__. split.
  - rewrite <- !team_row_none.
    destruct (team_row team_df our_team), (team_row team_df opponent_team);
      cbn [bind ret]; split; try discriminate; try tauto;
      intros [H | H]; discriminate.
  - intros self.
    destruct (team_row team_df our_team) as [our|] eqn:Eour; [|discriminate].
    destruct (team_row team_df opponent_team) as [opp|] eqn:Eopp;
      [|discriminate].
    cbn [bind ret]. intros [= <-]. cbn.
    destruct (team_row_some _ _ _ Eour) as (_ & Hn & b & a & Hs & Hb).
    destruct (team_row_some _ _ _ Eopp) as (_ & Hn' & b' & a' & Hs' & Hb').
    split; [now exists b, a|]. split; [now exists b', a'|].
    split; [reflexivity|].
    apply Forall_forall. intros p Hp. apply filter_In in Hp as [_ Hp].
    now apply String.eqb_eq.
Qed.

Lemma init_teams_witness :
  exists self,
    __init__ [aptos; harker] roster "Harker" "Aptos" = Some self /\
    Team (our_team_stats self) = "Harker"%string /\
    Forall (fun p => P_Team p = "home"%string) (our_players self).
Proof.
  exists game. split; [reflexivity|].
  destruct (init_teams [aptos; harker] roster "Harker" "Aptos") as [_ H].
  destruct (H game eq_refl) as ((_ & _ & _ & Hname & _) & _ & _ & Hhome).
  split; assumption.
Defined.

(** *** Efficiency metrics *)

Lemma efficiency_fields (self : GameAnalyzer) :
  let our := our_team_stats self in
  let opp := opponent_stats self in
  let pct2 := guarded_scaled (_2FG_Made our) (_2FG_Attempts our) 100 in
  let pct3 := guarded_scaled (_3FG_Made our) (_3FG_Attempts our) 100 in
  exists e,
    calculate_efficiency_metrics self = Some e /\
    pps (our_team e) = round (guarded (Points our) (FG_Attempts our)) 3 /\
    opp_pps (opponent e)
    = round (guarded (Points opp) (FG_Attempts opp)) 3 /\
    _2pt_pct (our_team e) = round pct2 2 /\
    _3pt_pct (our_team e) = round pct3 2 /\
    _2pt_pps (our_team e) = round (pct2 / 100 * 2) 3 /\
    _3pt_pps (our_team e) = round (pct3 / 100 * 3) 3.
Proof.
  intros our opp pct2 pct3. unfold calculate_efficiency_metrics.
  fold our opp. rewrite !guarded_div, !guarded_div_scaled.
  destruct (Effective_Field_Goal_pct our), (Effective_Field_Goal_pct opp),
           (True_Shooting_pct our), (True_Shooting_pct opp);
    rewrite ?py_div_100; cbn [bind ret];
    rewrite ?py_div_100; cbn [bind ret];
    (eexists; split; [reflexivity | repeat split]).
Qed.

Lemma guarded_scaled_bounds (m a k : Q) :
  0 <= m -> m <= a -> 0 <= k ->
  0 <= guarded_scaled m a k /\ guarded_scaled m a k <= k.
Proof.
  intros Hm Hma Hk. unfold guarded_scaled.
  destruct (a >? 0) eqn:E; [|split; [apply Qle_refl | exact Hk]].
  apply gtb_gt in E.
  assert (H0 : 0 <= m / a) by (apply Qle_shift_div_l; lra).
  assert (H1 : m / a <= 1) by (apply Qle_shift_div_r; lra).
  split; nra.
Qed.

(** X3. When the made shots of a kind are between 0 and the attempts of
    that kind, the reported 2-point and 3-point percentages lie between 0
    and 100 and the expected values per shot between 0 and the value of the
    shot (2 or 3): rounding never carries them outside. *)
Theorem shooting_split_bounds (self : GameAnalyzer) :
  let our := our_team_stats self in
  0 <= _2FG_Made our -> _2FG_Made our <= _2FG_Attempts our ->
  0 <= _3FG_Made our -> _3FG_Made our <= _3FG_Attempts our ->
  exists e,
    calculate_efficiency_metrics self = Some e /\
    (0 <= _2pt_pct (our_team e) /\ _2pt_pct (our_team e) <= 100) /\
    (0 <= _3pt_pct (our_team e) /\ _3pt_pct (our_team e) <= 100) /\
    (0 <= _2pt_pps (our_team e) /\ _2pt_pps (our_team e) <= 2) /\
    (0 <= _3pt_pps (our_team e) /\ _3pt_pps (our_team e) <= 3).
Proof.
  intros our H2 H2' H3 H3'.
  destruct (efficiency_fields self)
    as (e & He & _ & _ & Hp2 & Hp3 & Hv2 & Hv3).
  fold our in Hp2, Hp3, Hv2, Hv3.
  destruct (guarded_scaled_bounds (_2FG_Made our) (_2FG_Attempts our) 100)
    as [L2 U2]; [assumption | assumption | discriminate |].
  destruct (guarded_scaled_bounds (_3FG_Made our) (_3FG_Attempts our) 100)
    as [L3 U3]; [assumption | assumption | discriminate |].
  exists e. split; [exact He|].
  rewrite Hp2, Hp3, Hv2, Hv3.
  generalize dependent
    (guarded_scaled (_2FG_Made our) (_2FG_Attempts our) 100).
  generalize dependent
    (guarded_scaled (_3FG_Made our) (_3FG_Attempts our) 100).
  intros g3 _ _ L3 U3 g2 _ _ L2 U2.
  repeat split.
  - apply (round_ge _ 2 0). exact L2.
  - apply (round_le _ 2 100). exact U2.
  - apply (round_ge _ 2 0). exact L3.
  - apply (round_le _ 2 100). exact U3.
  - apply (round_ge _ 3 0). cbv [inject_Z Qdiv]. change (/ 100) with (1 # 100). lra.
  - apply (round_le _ 3 2). cbv [inject_Z Qdiv]. change (/ 100) with (1 # 100). lra.
  - apply (round_ge _ 3 0). cbv [inject_Z Qdiv]. change (/ 100) with (1 # 100). lra.
  - apply (round_le _ 3 3). cbv [inject_Z Qdiv]. change (/ 100) with (1 # 100). lra.
Qed.

Lemma shooting_split_bounds_witness :
  exists e,
    calculate_efficiency_metrics game = Some e /\
    _2pt_pct (our_team e) == 50 /\ _3pt_pps (our_team e) == 0.9 /\
    _3pt_pps (our_team e) <= 3.
Proof.
  destruct (shooting_split_bounds game)
    as (e & He & _ & _ & _ & _ & H3); try (vm_compute; discriminate).
  exists e. split; [exact He|].
  vm_compute in He. injection He as <-.
  repeat split; try exact H3.
Defined.

(** X4. A team without field-goal attempts gets 0 points per shot, and
    without attempts of one kind it gets 0 as percentage and as expected
    value of that kind; nothing is divided by zero. *)
Theorem zero_attempts_report_zero (self : GameAnalyzer) :
  exists e,
    calculate_efficiency_metrics self = Some e /\
    (FG_Attempts (our_team_stats self) <= 0 -> pps (our_team e) == 0) /\
    (FG_Attempts (opponent_stats self) <= 0 -> opp_pps (opponent e) == 0) /\
    (_2FG_Attempts (our_team_stats self) <= 0 ->
     _2pt_pct (our_team e) == 0 /\ _2pt_pps (our_team e) == 0) /\
    (_3FG_Attempts (our_team_stats self) <= 0 ->
     _3pt_pct (our_team e) == 0 /\ _3pt_pps (our_team e) == 0).
Proof.
  destruct (efficiency_fields self)
    as (e & He & Hpps & Hopps & Hp2 & Hp3 & Hv2 & Hv3).
  exists e. split; [exact He|].
  rewrite Hpps, Hopps, Hp2, Hp3, Hv2, Hv3.
  repeat split; intros;
    rewrite ?guarded_nonpos, ?guarded_scaled_nonpos by assumption;
    apply round_zero; reflexivity.
Qed.

Lemma zero_attempts_report_zero_witness :
  exists e,
    calculate_efficiency_metrics game = Some e /\ opp_pps (opponent e) == 0.
Proof.
  destruct (zero_attempts_report_zero game) as (e & He & _ & H & _).
  exists e. split; [exact He|]. apply H. vm_compute. discriminate.
Defined.

(** *** The other two rankings *)

Lemma has_positive_rebounds_iff (p : Player) :
  has_positive_rebounds p = true <-> exists v, Basic_TRB p = Some v /\ 0 < v.
Proof.
  unfold has_positive_rebounds. destruct (Basic_TRB p) as [v|].
  - rewrite gtb_gt. split.
    + intros H. now exists v.
    + now intros (w & [= <-] & H).
  - split; [discriminate | now intros (w & [=] & _)].
Qed.

Lemma has_positive_attempts_iff (p : Player) :
  has_positive_attempts p = true <-> exists v, Basic_FGA p = Some v /\ 0 < v.
Proof.
  unfold has_positive_attempts. destruct (Basic_FGA p) as [v|].
  - rewrite gtb_gt. split.
    + intros H. now exists v.
    + now intros (w & [= <-] & H).
  - split; [discriminate | now intros (w & [=] & _)].
Qed.

(** X5. The rebounders ranked by [analyze_rebounding] are exactly the
    players with a present, strictly positive total-rebound count, by
    descending count, players of equal count in input order; the report
    returns the first five. *)
Theorem rebound_ranking (self : GameAnalyzer) :
  exists unsorted ranked report,
    player_rebounds self = Some ranked /\
    analyze_rebounding self = Some report /\
    REB.top_rebounders report = firstn 5 ranked /\
    (forall p, has_positive_rebounds p = true <->
               exists v, Basic_TRB p = Some v /\ 0 < v) /\
    Forall2 rebound_entry_of
      (filter has_positive_rebounds (our_players self)) unsorted /\
    Permutation unsorted ranked /\
    StronglySorted (fun a b => REB.total_reb b <= REB.total_reb a) ranked /\
    (forall k,
        filter (fun e => Qeq_bool (REB.total_reb e) k) ranked
        = filter (fun e => Qeq_bool (REB.total_reb e) k) unsorted).
Proof.
  destruct (GameFacts.analyze_rebounding_total self)
    as (r & ranked & Hr & Hranked & Htop).
  exists (appended rebound_body (our_players self)), ranked, r.
  rewrite GameFacts.player_rebounds_eq in Hranked. injection Hranked as <-.
  split; [apply GameFacts.player_rebounds_eq|].
  split; [assumption|]. split; [assumption|].
  split; [apply has_positive_rebounds_iff|].
  split; [apply GameFacts.rebound_entries|].
  split; [apply SortFacts.sort_reverse_perm|].
  split; [apply SortFacts.sort_reverse_sorted|].
  intros k. apply SortFacts.sort_reverse_stable.
Qed.

Lemma StronglySorted_weaken {A} (R S : A -> A -> Prop) (l : list A) :
  (forall a b, R a b -> S a b) -> StronglySorted R l -> StronglySorted S l.
Proof.
  intros HRS. induction 1 as [|x l _ IH Hx]; constructor; [exact IH|].
  eapply Forall_impl; [|exact Hx]. intros b. apply HRS.
Qed.

(** X6. The shooters ranked by [optimize_shot_selection] are exactly the
    players with a present, strictly positive attempt count; the sort key
    is the count truncated to an integer, so two players whose counts have
    the same integer part stay in input order. *)
Theorem shooter_ranking (float_of_str : string -> option Q)
    (self : GameAnalyzer) :
  exists unsorted ranked report,
    player_shots float_of_str self = Some ranked /\
    optimize_shot_selection float_of_str self = Some report /\
    SHOT.top_shooters report = firstn 5 ranked /\
    (forall p, has_positive_attempts p = true <->
               exists v, Basic_FGA p = Some v /\ 0 < v) /\
    Forall2 shot_entry_of
      (filter has_positive_attempts (our_players self)) unsorted /\
    Permutation unsorted ranked /\
    StronglySorted (fun a b => (SHOT.fga b <= SHOT.fga a)%Z) ranked /\
    (forall k : Z,
        filter (fun e => Z.eqb (SHOT.fga e) k) ranked
        = filter (fun e => Z.eqb (SHOT.fga e) k) unsorted).
Proof.
  destruct (GameFacts.optimize_shot_selection_total float_of_str self)
    as (r & ranked & Hr & Hranked & Htop).
  exists (appended (shot_body float_of_str) (our_players self)), ranked, r.
  rewrite GameFacts.player_shots_eq in Hranked. injection Hranked as <-.
  split; [apply GameFacts.player_shots_eq|].
  split; [assumption|]. split; [assumption|].
  split; [apply has_positive_attempts_iff|].
  split; [apply GameFacts.shot_entries|].
  split; [apply SortFacts.sort_reverse_perm|].
  split.
  - eapply StronglySorted_weaken;
      [|apply (SortFacts.sort_reverse_sorted _
                 (fun x => inject_Z (SHOT.fga x)))].
    intros a b H. cbv beta in H. now rewrite Zle_Qle.
  - intros k.
    assert (Hext : forall l : list SHOT.entry,
               filter (fun e => Z.eqb (SHOT.fga e) k) l
               = filter (fun e => Qeq_bool (inject_Z (SHOT.fga e))
                                           (inject_Z k)) l).
    { intros l. apply filter_ext. intros e.
      apply eq_true_iff_eq. rewrite Z.eqb_eq, Qeq_bool_iff.
      symmetry. apply inject_Z_injective. }
    rewrite !Hext.
    apply (SortFacts.sort_reverse_stable _ (fun x => inject_Z (SHOT.fga x))).
Qed.

Lemma sorted_firstn_skipn {A} (R : A -> A -> Prop) (l : list A) :
  StronglySorted R l ->
  forall n a b, In a (firstn n l) -> In b (skipn n l) -> R a b.
Proof.
  induction 1 as [|x l Hs IH Hx]; intros [|n] a b Ha Hb; simpl in *;
    try contradiction.
  destruct Ha as [<- | Ha].
  - rewrite Forall_forall in Hx. apply Hx.
    rewrite <- (firstn_skipn n l). apply in_or_app. now right.
  - now apply (IH n).
Qed.

(** X7. The five entries a report returns are the largest: no qualifying
    player left out of a returned ranking has a larger count than a player
    in it, in each of the three rankings. *)
Theorem top_five_are_largest (float_of_str : string -> option Q)
    (self : GameAnalyzer) :
  exists t r s to_ranked reb_ranked shot_ranked,
    analyze_turnovers self = Some t /\
    analyze_rebounding self = Some r /\
    optimize_shot_selection float_of_str self = Some s /\
    player_turnovers self = Some to_ranked /\
    player_rebounds self = Some reb_ranked /\
    player_shots float_of_str self = Some shot_ranked /\
    to_ranked = (TO.top_turnover_players t ++ skipn 5 to_ranked)%list /\
    reb_ranked = (REB.top_rebounders r ++ skipn 5 reb_ranked)%list /\
    shot_ranked = (SHOT.top_shooters s ++ skipn 5 shot_ranked)%list /\
    (forall a b, In a (TO.top_turnover_players t) ->
                 In b (skipn 5 to_ranked) ->
                 TO.turnovers b <= TO.turnovers a) /\
    (forall a b, In a (REB.top_rebounders r) ->
                 In b (skipn 5 reb_ranked) ->
                 REB.total_reb b <= REB.total_reb a) /\
    (forall a b, In a (SHOT.top_shooters s) ->
                 In b (skipn 5 shot_ranked) ->
                 (SHOT.fga b <= SHOT.fga a)%Z).
Proof.
  destruct (GameFacts.analyze_turnovers_total self)
    as (t & tl & Ht & Htl & Htop & _).
  destruct (GameFacts.analyze_rebounding_total self)
    as (r & rl & Hr & Hrl & Hrtop).
  destruct (GameFacts.optimize_shot_selection_total float_of_str self)
    as (s & sl & Hs & Hsl & Hstop).
  exists t, r, s, tl, rl, sl.
  repeat (split; [assumption|]).
  rewrite Htop, Hrtop, Hstop, !firstn_skipn.
  repeat (split; [reflexivity|]).
  rewrite GameFacts.player_turnovers_eq in Htl. injection Htl as <-.
  rewrite GameFacts.player_rebounds_eq in Hrl. injection Hrl as <-.
  rewrite GameFacts.player_shots_eq in Hsl. injection Hsl as <-.
  split; [|split].
  - apply (sorted_firstn_skipn
             (fun a b => TO.turnovers b <= TO.turnovers a)).
    apply SortFacts.sort_reverse_sorted.
  - apply (sorted_firstn_skipn
             (fun a b => REB.total_reb b <= REB.total_reb a)).
    apply SortFacts.sort_reverse_sorted.
  - intros a b Ha Hb. rewrite Zle_Qle.
    revert a b Ha Hb.
    apply (sorted_firstn_skipn
             (fun a b => inject_Z (SHOT.fga b) <= inject_Z (SHOT.fga a))).
    apply (SortFacts.sort_reverse_sorted _ (fun x => inject_Z (SHOT.fga x))).
Qed.

(** *** Recommendations *)

Lemma in_flag {A} (b : bool) (x y : A) :
  In y (if b then [x] else []) <-> b = true /\ y = x.
Proof.
  destruct b; simpl; split.
  - intros [<- | []]. now split.
  - intros [_ ->]. now left.
  - contradiction.
  - intros [[=] _].
Qed.

Lemma flag_length {A} (b : bool) (x : A) :
  (length (if b then [x] else []) <= 1)%nat.
Proof. destruct b; simpl; lia. Qed.

Lemma analyze_turnovers_recommendations (self : GameAnalyzer) :
  let rate := guarded_scaled (Turnovers (our_team_stats self))
                (our_possessions self) 100 in
  exists r ranked,
    analyze_turnovers self = Some r /\
    player_turnovers self = Some ranked /\
    TO.our_to_rate r = round rate 2 /\
    TO.recommendations r
    = ((if rate >? 20 then [TO.Critical_rate]
        else if rate >? 15 then [TO.Warning_rate] else [])
       ++ (if ltb (AST_TO_Ratio (our_team_stats self)) 1
           then [TO.Low_ast_to_ratio] else [])
       ++ (match ranked with
           | top :: _ =>
               if TO.to_per_36 top >? 5
               then [TO.High_player_rate (TO.player top) (TO.number top)]
               else []
           | [] => []
           end))%list.
Proof.
  intros rate. unfold analyze_turnovers.
  rewrite !guarded_div_scaled, GameFacts.player_turnovers_eq.
  cbn [bind ret]. do 2 eexists. repeat split.
Qed.

(** X8. The turnover recommendations.  The critical flag is raised exactly
    when turnovers per possession, in percent and before rounding, exceed
    20, the warning exactly when they exceed 15 without exceeding 20, so
    never both; the low-ratio flag exactly when the assist-to-turnover
    ratio is under 1; a player is named exactly when that player is first
    in the turnover ranking with a rounded rate per 36 minutes above 5, so
    no other player is ever named.  At most three recommendations are
    made. *)
Theorem turnover_recommendations (self : GameAnalyzer) :
  let rate := guarded_scaled (Turnovers (our_team_stats self))
                (our_possessions self) 100 in
  exists r ranked,
    analyze_turnovers self = Some r /\
    player_turnovers self = Some ranked /\
    (In TO.Critical_rate (TO.recommendations r) <-> 20 < rate) /\
    (In TO.Warning_rate (TO.recommendations r) <-> 15 < rate /\ rate <= 20) /\
    (In TO.Low_ast_to_ratio (TO.recommendations r) <->
     AST_TO_Ratio (our_team_stats self) < 1) /\
    (forall p n,
        In (TO.High_player_rate p n) (TO.recommendations r) <->
        exists top rest,
          ranked = top :: rest /\ 5 < TO.to_per_36 top /\
          p = TO.player top /\ n = TO.number top) /\
    (length (TO.recommendations r) <= 3)%nat.
Proof.
  intros rate.
  destruct (analyze_turnovers_recommendations self)
    as (r & ranked & Hr & Hranked & _ & Hrecs).
  fold rate in Hrecs.
  exists r, ranked. split; [exact Hr|]. split; [exact Hranked|].
  rewrite Hrecs. clear Hrecs Hr Hranked.
  assert (Hc : (rate >? 20) = true <-> 20 < rate) by apply gtb_gt.
  assert (Hw : (rate >? 15) = true <-> 15 < rate) by apply gtb_gt.
  assert (Hc' : (rate >? 20) = false <-> rate <= 20) by apply gtb_le.
  assert (Hl : ltb (AST_TO_Ratio (our_team_stats self)) 1 = true <->
               AST_TO_Ratio (our_team_stats self) < 1) by apply ltb_lt.
  repeat split.
  - rewrite !in_app_iff, in_flag. intros [H | [[_ [=]] | H]].
    + destruct (rate >? 20); [now apply Hc|].
      destruct (rate >? 15); simpl in H; intuition discriminate.
    + destruct ranked as [|top rest]; [contradiction|].
      apply in_flag in H as [_ [=]].
  - intros H. apply in_or_app. left. apply Hc in H. rewrite H. now left.
  - rewrite !in_app_iff, in_flag in H.
    destruct H as [H | [[_ [=]] | H]].
    + destruct (rate >? 20); [simpl in H; intuition discriminate|].
      destruct (rate >? 15); [now apply Hw | contradiction].
    + destruct ranked as [|top rest]; [contradiction|].
      apply in_flag in H as [_ [=]].
  - rewrite !in_app_iff, in_flag in H.
    destruct H as [H | [[_ [=]] | H]].
    + destruct (rate >? 20); [simpl in H; intuition discriminate|].
      now apply Hc'.
    + destruct ranked as [|top rest]; [contradiction|].
      apply in_flag in H as [_ [=]].
  - intros [H15 H20]. apply in_or_app. left.
    apply Hc' in H20. apply Hw in H15. rewrite H20, H15. now left.
  - rewrite !in_app_iff, in_flag. intros [H | [[H _] | H]].
    + destruct (rate >? 20); [simpl in H; intuition discriminate|].
      destruct (rate >? 15); simpl in H; intuition discriminate.
    + now apply Hl.
    + destruct ranked as [|top rest]; [contradiction|].
      apply in_flag in H as [_ [=]].
  - intros H. apply in_or_app. right. apply in_or_app. left.
    apply in_flag. split; [now apply Hl | reflexivity].
  - rewrite !in_app_iff, in_flag. intros [H | [[_ [=]] | H]].
    + destruct (rate >? 20); [simpl in H; intuition discriminate|].
      destruct (rate >? 15); simpl in H; intuition discriminate.
    + destruct ranked as [|top rest]; [contradiction|].
      apply in_flag in H as [H5 [= -> ->]].
      exists top, rest. repeat split. now apply gtb_gt.
  - intros (top & rest & -> & H5 & -> & ->).
    apply in_or_app. right. apply in_or_app. right.
    apply in_flag. split; [now apply gtb_gt | reflexivity].
  - rewrite !length_app.
    assert (H1 : (length (if rate >? 20 then [TO.Critical_rate]
                          else if rate >? 15 then [TO.Warning_rate] else [])
                  <= 1)%nat)
      by (destruct (rate >? 20), (rate >? 15); simpl; lia).
    pose proof (flag_length (ltb (AST_TO_Ratio (our_team_stats self)) 1)
                  TO.Low_ast_to_ratio) as H2.
    assert (H3 : (length (match ranked with
                          | top :: _ =>
                              if TO.to_per_36 top >? 5
                              then [TO.High_player_rate (TO.player top)
                                      (TO.number top)]
                              else []
                          | [] => []
                          end) <= 1)%nat)
      by (destruct ranked; [simpl; lia | apply flag_length]).
    lia.
Qed.

Lemma analyze_rebounding_fields (self : GameAnalyzer) :
  let our := our_team_stats self in
  let opp := opponent_stats self in
  exists r,
    analyze_rebounding self = Some r /\
    REB.rebound_margin r = int (Rebounds our - Rebounds opp) /\
    REB.orb_margin r
    = int (Offensive_Rebounds our - Offensive_Rebounds opp) /\
    REB.second_chance_opps r
    = (REB.offensive_rebounds (REB.our_team r),
       REB.offensive_rebounds (REB.opponent r)) /\
    REB.recommendations r
    = ((if ltb (Offensive_Rebounding_pct our) 25
        then [REB.Low_offensive_rebounding] else [])
       ++ (if Offensive_Rebounding_pct opp >? 35
           then [REB.Opponent_strong (Offensive_Rebounding_pct opp)] else [])
       ++ (if ltb (Rebounds our - Rebounds opp) (-5)
           then [REB.Losing_battle] else [])
       ++ (if ltb (Offensive_Rebounds our - Offensive_Rebounds opp) (-3)
           then [REB.Giving_up_offensive_rebounds] else []))%list.
Proof.
  intros our opp. unfold analyze_rebounding.
  rewrite GameFacts.player_rebounds_eq. cbn [bind ret].
  eexists. repeat split.
Qed.

(** X9. The rebounding report.  Its four recommendations are raised
    independently, each exactly on its threshold: own offensive-rebound
    percentage under 25, opponent's over 35, rebound margin under -5,
    offensive-rebound margin under -3 (margins before truncation); at most
    four are made.  The second-chance opportunities it reports are the two
    offensive-rebound counts of the same report. *)
Theorem rebounding_recommendations (self : GameAnalyzer) :
  let our := our_team_stats self in
  let opp := opponent_stats self in
  exists r,
    analyze_rebounding self = Some r /\
    (In REB.Low_offensive_rebounding (REB.recommendations r) <->
     Offensive_Rebounding_pct our < 25) /\
    (forall v, In (REB.Opponent_strong v) (REB.recommendations r) <->
               v = Offensive_Rebounding_pct opp /\ 35 < v) /\
    (In REB.Losing_battle (REB.recommendations r) <->
     Rebounds our - Rebounds opp < -5) /\
    (In REB.Giving_up_offensive_rebounds (REB.recommendations r) <->
     Offensive_Rebounds our - Offensive_Rebounds opp < -3) /\
    (length (REB.recommendations r) <= 4)%nat /\
    REB.second_chance_opps r
    = (REB.offensive_rebounds (REB.our_team r),
       REB.offensive_rebounds (REB.opponent r)).
Proof.
  intros our opp.
  destruct (analyze_rebounding_fields self)
    as (r & Hr & _ & _ & Hsc & Hrecs).
  fold our opp in Hrecs.
  exists r. split; [exact Hr|]. rewrite Hrecs. clear Hrecs.
  repeat split; try exact Hsc.
  - rewrite !in_app_iff, !in_flag.
    intros [[H _] | [[_ [=]] | [[_ [=]] | [_ [=]]]]]. now apply ltb_lt.
  - intros H. apply in_or_app. left. apply in_flag.
    split; [now apply ltb_lt | reflexivity].
  - rewrite !in_app_iff, !in_flag in H.
    destruct H as [[_ [=]] | [[_ [= ->]] | [[_ [=]] | [_ [=]]]]].
    reflexivity.
  - rewrite !in_app_iff, !in_flag in H.
    destruct H as [[_ [=]] | [[H [= ->]] | [[_ [=]] | [_ [=]]]]].
    now apply gtb_gt.
  - intros [-> H]. apply in_or_app. right. apply in_or_app. left.
    apply in_flag. split; [now apply gtb_gt | reflexivity].
  - rewrite !in_app_iff, !in_flag.
    intros [[_ [=]] | [[_ [=]] | [[H _] | [_ [=]]]]]. now apply ltb_lt.
  - intros H. do 2 (apply in_or_app; right). apply in_or_app. left.
    apply in_flag. split; [now apply ltb_lt | reflexivity].
  - rewrite !in_app_iff, !in_flag.
    intros [[_ [=]] | [[_ [=]] | [[_ [=]] | [H _]]]]. now apply ltb_lt.
  - intros H. do 3 (apply in_or_app; right).
    apply in_flag. split; [now apply ltb_lt | reflexivity].
  - rewrite !length_app.
    pose proof (flag_length (ltb (Offensive_Rebounding_pct our) 25)
                  REB.Low_offensive_rebounding).
    pose proof (flag_length (Offensive_Rebounding_pct opp >? 35)
                  (REB.Opponent_strong (Offensive_Rebounding_pct opp))).
    pose proof (flag_length (ltb (Rebounds our - Rebounds opp) (-5))
                  REB.Losing_battle).
    pose proof (flag_length
                  (ltb (Offensive_Rebounds our - Offensive_Rebounds opp) (-3))
                  REB.Giving_up_offensive_rebounds).
    lia.
Qed.

Lemma optimize_shot_selection_fields (float_of_str : string -> option Q)
    (self : GameAnalyzer) :
  let our := our_team_stats self in
  let e2 := _2FG_pct our / 100 * 2 in
  let e3 := _3FG_pct our / 100 * 3 in
  exists r,
    optimize_shot_selection float_of_str self = Some r /\
    SHOT.mix r = (if e3 >? e2 then SHOT.Increase_3pt e3 e2
                  else SHOT.Focus_2pt e2 e3) /\
    SHOT._2pt_expected_value r = round e2 3 /\
    SHOT._3pt_expected_value r = round e3 3 /\
    SHOT.recommendations r
    = ((if ltb (_3FG_pct our / 100) 0.30
           && (guarded (_3FG_Att our) (FG_Attempts our) >? 0.50)
        then [SHOT.Inefficient_3pt] else [])
       ++ (if ltb (_2FG_pct our / 100) 0.40 then [SHOT.Low_2pt] else []))%list.
Proof.
  intros our e2 e3. unfold optimize_shot_selection.
  rewrite !py_div_100, !guarded_div, GameFacts.player_shots_eq.
  cbn [bind ret]. eexists. repeat split.
Qed.

Lemma lt_div_iff (a b c : Q) : 0 < c -> (a < b / c <-> a * c < b).
Proof.
  intros Hc. split; [|now apply Qlt_shift_div_l].
  intros H.
  assert (Hb : b == b / c * c) by (field; intros E; rewrite E in Hc; lra).
  rewrite Hb. now apply Qmult_lt_compat_r.
Qed.

Lemma div_100_lt (x k : Q) : x / 100 < k <-> x < k * 100.
Proof.
  unfold Qdiv. change (/ 100) with (1 # 100). split; intros H; lra.
Qed.

(** X10. Shot selection, with a margin for rounding.  For percentages
    between 0 and 100: when the expected value of a three-pointer
    (3 x 3FG% / 100) exceeds that of a two-pointer (2 x 2FG% / 100) by at
    least 0.01 point, more three-point attempts are recommended, and when
    it is smaller by at least 0.01 point, the two-point shots are.  The
    volume warning is made only if the 3-point percentage is under 30, the
    team has attempts and more than half of them are three-pointers, and it
    is made whenever the first is at most 29.99 and the others hold; the
    2-point warning is made only if the 2-point percentage is under 40,
    and whenever it is at most 39.99. *)
Theorem shot_selection_advice (float_of_str : string -> option Q)
    (self : GameAnalyzer) :
  let our := our_team_stats self in
  exists r,
    optimize_shot_selection float_of_str self = Some r /\
    (0 <= _2FG_pct our <= 100 -> 0 <= _3FG_pct our <= 100 ->
     2 * _2FG_pct our + 1 <= 3 * _3FG_pct our ->
     exists e3 e2, SHOT.mix r = SHOT.Increase_3pt e3 e2) /\
    (0 <= _2FG_pct our <= 100 -> 0 <= _3FG_pct our <= 100 ->
     3 * _3FG_pct our + 1 <= 2 * _2FG_pct our ->
     exists e2 e3, SHOT.mix r = SHOT.Focus_2pt e2 e3) /\
    (In SHOT.Inefficient_3pt (SHOT.recommendations r) ->
     _3FG_pct our < 30 /\ 0 < FG_Attempts our /\
     FG_Attempts our < 2 * _3FG_Att our) /\
    (_3FG_pct our <= 29.99 -> 0 < FG_Attempts our ->
     FG_Attempts our < 2 * _3FG_Att our ->
     In SHOT.Inefficient_3pt (SHOT.recommendations r)) /\
    (In SHOT.Low_2pt (SHOT.recommendations r) -> _2FG_pct our < 40) /\
    (_2FG_pct our <= 39.99 -> In SHOT.Low_2pt (SHOT.recommendations r)).
Proof.
  intros our.
  destruct (optimize_shot_selection_fields float_of_str self)
    as (r & Hr & Hmix & _ & _ & Hrecs).
  fold our in Hmix, Hrecs.
  exists r. split; [exact Hr|]. rewrite Hmix, Hrecs. clear Hmix Hrecs Hr.
  assert (Hvol : (guarded (_3FG_Att our) (FG_Attempts our) >? 0.50) = true
                 <-> 0 < FG_Attempts our /\
                     FG_Attempts our < 2 * _3FG_Att our).
  { unfold guarded. destruct (FG_Attempts our >? 0) eqn:E.
    - apply gtb_gt in E. rewrite gtb_gt. split.
      + intros H. split; [exact E|].
        apply lt_div_iff in H; [lra | exact E].
      + intros [_ H]. apply lt_div_iff; [exact E | lra].
    - apply gtb_le in E. split; [discriminate | intros [H _]; lra]. }
  split; [|split; [|split; [|split; [|split]]]].
  - intros _ _ H.
    assert (E : (_3FG_pct our / 100 * 3 >? _2FG_pct our / 100 * 2) = true).
    { apply gtb_gt. unfold Qdiv. change (/ 100) with (1 # 100). lra. }
    rewrite E. eauto.
  - intros _ _ H.
    assert (E : (_3FG_pct our / 100 * 3 >? _2FG_pct our / 100 * 2) = false).
    { apply gtb_le. unfold Qdiv. change (/ 100) with (1 # 100). lra. }
    rewrite E. eauto.
  - intros H. rewrite in_app_iff, !in_flag in H.
    destruct H as [[H _] | [_ [=]]]. apply andb_prop in H as [H30 Hhalf].
    apply ltb_lt, div_100_lt in H30. apply Hvol in Hhalf.
    split; [lra | exact Hhalf].
  - intros H30 Hpos Hhalf. apply in_or_app. left. apply in_flag.
    split; [|reflexivity]. apply andb_true_intro. split.
    + apply ltb_lt, div_100_lt. lra.
    + apply Hvol. now split.
  - rewrite in_app_iff, !in_flag. intros [[_ [=]] | [H _]].
    apply ltb_lt, div_100_lt in H. lra.
  - intros H. apply in_or_app. right. apply in_flag.
    split; [|reflexivity]. apply ltb_lt, div_100_lt. lra.
Qed.

(** The sample team shoots 50% on twos and 30% on threes: 1 point against
    0.9, the two-point shots are advised. *)
Lemma shot_selection_advice_witness :
  exists r e2 e3,
    optimize_shot_selection (fun _ => None) game = Some r /\
    SHOT.mix r = SHOT.Focus_2pt e2 e3.
Proof.
  destruct (shot_selection_advice (fun _ => None) game)
    as (r & Hr & _ & Hfocus & _).
  destruct Hfocus as (e2 & e3 & Hmix);
    try (split; vm_compute; discriminate); try (vm_compute; discriminate).
  exists r, e2, e3. split; [exact Hr | exact Hmix].
Defined.

End Interpreted.

End GameExtras.

(** ** More on the shot zones *)

Module ZoneExtras.

Import Py PyFacts RoundFacts ProcessShots Spec ShotFacts.
Local Open Scope Q_scope.
Local Open Scope py_scope.

(** *** Where a coordinate falls *)















(** *** Totals over the grid *)

Lemma sum_cons (x : Z) (l : list Z) : sum (x :: l) = (x + sum l)%Z.
Proof.
  unfold sum. simpl.
  assert (H : forall l a, fold_left Z.add l a = (a + fold_left Z.add l 0)%Z).
  { clear. induction l as [|y l IH]; intros a; simpl; [lia|].
    rewrite (IH (a + y)%Z), (IH y). lia. }
  now rewrite (H l x).
Qed.

Lemma sum_ones {A} (l : list A) :
  sum (map (fun _ => 1%Z) l) = Z.of_nat (length l).
Proof.
  induction l as [|a l IH]; [reflexivity|].
  cbn [map length]. rewrite sum_cons, IH. lia.
Qed.

Lemma range_NoDup (n : Z) : NoDup (range n).
Proof.
  unfold range. apply NoDup_map_NoDup_ForallPairs; [|apply seq_NoDup].
  intros a b _ _ H. lia.
Qed.

Lemma in_range (n i : Z) : In i (range n) <-> (0 <= i < n)%Z.
Proof.
  unfold range. rewrite in_map_iff. split.
  - intros (k & <- & Hk). apply in_seq in Hk. lia.
  - intros Hi. exists (Z.to_nat i). split; [lia|]. apply in_seq. lia.
Qed.

Lemma list_prod_NoDup {A B} (l : list A) (l' : list B) :
  NoDup l -> NoDup l' -> NoDup (list_prod l l').
Proof.
  intros Hl Hl'. induction Hl as [|x l Hx _ IH]; simpl; [constructor|].
  apply NoDup_app.
  - apply NoDup_map_NoDup_ForallPairs; [|exact Hl'].
    intros a b _ _ [= ->]. reflexivity.
  - exact IH.
  - intros [a b] Hin Hin'. apply in_map_iff in Hin as (b' & [= <- <-] & _).
    apply in_prod_iff in Hin' as [Hin' _]. contradiction.
Qed.

Lemma sum_map_add {A} (f g : A -> Z) (l : list A) :
  sum (map (fun a => (f a + g a)%Z) l) = (sum (map f l) + sum (map g l))%Z.
Proof.
  induction l as [|a l IH]; [reflexivity|].
  cbn [map]. rewrite !sum_cons, IH. lia.
Qed.

Lemma sum_indicator_out (z : Z * Z) (v : Z) (zones : list (Z * Z)) :
  ~ In z zones ->
  sum (map (fun rc => if zone_eqb z rc then v else 0%Z) zones) = 0%Z.
Proof.
  induction zones as [|rc zones IH]; intros Hz; [reflexivity|].
  cbn [map]. rewrite sum_cons, IH by (intros H; apply Hz; now right).
  destruct (zone_eqb z rc) eqn:E; [|reflexivity].
  apply zone_eqb_eq in E. subst rc. exfalso. apply Hz. now left.
Qed.

Lemma sum_indicator (z : Z * Z) (v : Z) (zones : list (Z * Z)) :
  NoDup zones -> In z zones ->
  sum (map (fun rc => if zone_eqb z rc then v else 0%Z) zones) = v.
Proof.
  induction 1 as [|rc zones Hrc _ IH]; intros Hz; [contradiction|].
  cbn [map]. rewrite sum_cons.
  destruct (zone_eqb z rc) eqn:E.
  - apply zone_eqb_eq in E. subst rc.
    rewrite sum_indicator_out by exact Hrc. lia.
  - destruct Hz as [-> | Hz].
    + rewrite (proj2 (zone_eqb_eq z z) eq_refl) in E. discriminate.
    + rewrite (IH Hz). lia.
Qed.

(** The weights of the shots whose zone is [rc], summed over a list of
    distinct zones holding the zone of every shot, give the total weight. *)
Lemma sum_over_zones (w : Shot -> Z) (zone : Shot -> option (Z * Z))
    (zones : list (Z * Z)) (df : list Shot) :
  NoDup zones ->
  (forall s, In s df -> exists z, zone s = Some z /\ In z zones) ->
  sum (map (fun rc =>
              sum (map w (filter (fun s => match zone s with
                                           | Some z => zone_eqb z rc
                                           | None => false
                                           end) df)))
           zones)
  = sum (map w df).
Proof.
  intros Hnd. induction df as [|s df IH]; intros Hz.
  - cbn [filter map]. clear. induction zones as [|rc zones IHz];
      [reflexivity|].
    cbn [map]. rewrite sum_cons, IHz. reflexivity.
  - cbn [map]. rewrite sum_cons, <- IH by (intros; apply Hz; now right).
    destruct (Hz s (or_introl eq_refl)) as (z & Ez & Hin).
    rewrite <- (sum_indicator z (w s) zones Hnd Hin) at 1.
    rewrite <- sum_map_add. f_equal. apply map_ext. intros rc.
    cbn [filter]. rewrite Ez.
    destruct (zone_eqb z rc); [cbn [map]; now rewrite sum_cons | lia].
Qed.

Lemma zone_in_grid (cw cl : Q) (gr gc : Z) (s : Shot) :
  0 < cw -> 0 < cl -> (0 < gr)%Z -> (0 < gc)%Z ->
  exists z, assign_zone (X s) (Y s) cw cl gr gc = Some z /\
            In z (list_prod (range gr) (range gc)).
Proof.
  intros Hw Hl Hr Hc.
  rewrite assign_zone_eq by now apply nonzero_of_pos.
  eexists. split; [reflexivity|].
  apply in_prod_iff. rewrite !in_range.
  pose proof (clamped_index (Y s / cl) gr Hr).
  pose proof (clamped_index (X s / cw) gc Hc). lia.
Qed.

Lemma zone_totals (cw cl : Q) (gr gc : Z) (df : list Shot)
    (zones : list (Z * Z)) (rows : list ZoneStats) :
  Forall2 (zone_of_shots cw cl gr gc df) zones rows ->
  map TotalShots rows
  = map (fun rc => sum (map (fun _ => 1%Z)
                          (filter (in_zone cw cl gr gc (fst rc) (snd rc)) df)))
        zones /\
  map TotalPoints rows
  = map (fun rc => sum (map shot_points
                          (filter (in_zone cw cl gr gc (fst rc) (snd rc)) df)))
        zones.
Proof.
  induction 1 as [|rc z zones rows Hz _ [IH1 IH2]]; [now split|].
  unfold zone_of_shots in Hz.
  destruct Hz as (_ & _ & _ & Hts & _ & _ & Htp & _).
  cbn [map]. rewrite IH1, IH2, Hts, Htp, sum_ones. now split.
Qed.

(** X15. No shot is lost or counted twice: for a table that has a shot
    whose type is text, and positive court and grid dimensions, the shot
    counts of the zones add up to the number of rows of the shot table, and
    their total points to the points of all its shots. *)
Theorem zone_stats_conserve (df : list Shot) (court_width court_length : Q)
    (grid_rows grid_cols : Z) :
  has_shot_type df ->
  0 < court_width -> 0 < court_length ->
  (0 < grid_rows)%Z -> (0 < grid_cols)%Z ->
  exists rows,
    calculate_zone_stats df court_width court_length grid_rows grid_cols
    = Some rows /\
    sum (map TotalShots rows) = Z.of_nat (length df) /\
    sum (map TotalPoints rows) = sum (map shot_points df).
Proof.
  intros Htext Hw Hl Hr Hc.
  destruct (calculate_zone_stats_spec df court_width court_length
              grid_rows grid_cols Htext) as (rows & Hrows & HF);
    [now apply nonzero_of_pos .. |].
  exists rows. split; [exact Hrows|].
  destruct (zone_totals _ _ _ _ _ _ _ HF) as [-> ->].
  assert (Hnd : NoDup (list_prod (range grid_rows) (range grid_cols)))
    by (apply list_prod_NoDup; apply range_NoDup).
  assert (Hin : forall s, In s df ->
            exists z, assign_zone (X s) (Y s) court_width court_length
                        grid_rows grid_cols = Some z /\
                      In z (list_prod (range grid_rows) (range grid_cols)))
    by (intros; now apply zone_in_grid).
  split.
  - rewrite <- sum_ones.
    rewrite <- (sum_over_zones (fun _ => 1%Z) _ _ df Hnd Hin).
    reflexivity.
  - rewrite <- (sum_over_zones shot_points _ _ df Hnd Hin).
    reflexivity.
Qed.

Lemma zone_stats_conserve_witness :
  exists rows,
    calculate_zone_stats shots 94 50 5 5 = Some rows /\
    sum (map TotalShots rows) = 5%Z /\
    sum (map TotalPoints rows) = 7%Z.
Proof.
  apply (zone_stats_conserve shots 94 50 5 5); reflexivity.
Defined.

(** *** Each row of the zone table *)

Lemma shot_points_made (s : Shot) :
  if is_Made s then shot_points s = 2%Z \/ shot_points s = 3%Z
  else shot_points s = 0%Z.
Proof.
  unfold shot_points. destruct (is_Made s), (is_3PT s); simpl; auto.
Qed.

Lemma points_between (l : list Shot) :
  (2 * Z.of_nat (length (filter is_Made l)) <= sum (map shot_points l)
   <= 3 * Z.of_nat (length (filter is_Made l)))%Z /\
  (length (filter is_Made l) <= length l)%nat.
Proof.
  induction l as [|s l [IH1 IH2]]; [split; [cbn; lia | cbn; lia]|].
  cbn [map filter]. rewrite sum_cons.
  pose proof (shot_points_made s) as Hs.
  destruct (is_Made s); cbn [length]; split; lia.
Qed.

Lemma ratio_bounds (a b k : Z) :
  (0 <= a)%Z -> (a <= k * b)%Z -> (0 < b)%Z ->
  0 <= inject_Z a / inject_Z b /\ inject_Z a / inject_Z b <= inject_Z k.
Proof.
  intros Ha Hab Hb.
  assert (Hb' : 0 < inject_Z b)
    by (change 0 with (inject_Z 0); now rewrite <- Zlt_Qlt).
  split.
  - apply Qle_shift_div_l; [exact Hb'|].
    rewrite Qmult_0_l. change 0 with (inject_Z 0). now rewrite <- Zle_Qle.
  - apply Qle_shift_div_r; [exact Hb'|].
    now rewrite <- inject_Z_mult, <- Zle_Qle.
Qed.

Lemma zone_row_bounds (cw cl : Q) (gr gc : Z) (df : list Shot)
    (rc : Z * Z) (z : ZoneStats) :
  zone_of_shots cw cl gr gc df rc z ->
  (0 <= MadeShots z <= TotalShots z)%Z /\
  (MadeShots z + MissedShots z = TotalShots z)%Z /\
  (2 * MadeShots z <= TotalPoints z <= 3 * MadeShots z)%Z /\
  (0 <= PointsPerShot z /\ PointsPerShot z <= 3) /\
  (0 <= FieldGoalPercentage z /\ FieldGoalPercentage z <= 100).
Proof.
  unfold zone_of_shots.
  set (zs := filter (in_zone cw cl gr gc (fst rc) (snd rc)) df).
  intros (_ & _ & _ & Hts & Hms & Hmiss & Htp & _ & He & Hne).
  destruct (points_between zs) as [Hpts Hlen].
  rewrite <- Hms, <- Htp in Hpts.
  assert (Hmt : (0 <= MadeShots z <= TotalShots z)%Z) by lia.
  split; [exact Hmt|]. split; [lia|]. split; [exact Hpts|].
  destruct zs as [|s0 zs'] eqn:E.
  - destruct (He eq_refl) as [-> ->]. repeat split; discriminate.
  - assert (Hpos : (0 < TotalShots z)%Z) by (rewrite Hts; cbn [length]; lia).
    destruct Hne as [-> ->]; [discriminate|].
    destruct (ratio_bounds (TotalPoints z) (TotalShots z) 3) as [P0 P3];
      [lia | lia | exact Hpos |].
    destruct (ratio_bounds (MadeShots z) (TotalShots z) 1) as [F0 F1];
      [lia | lia | exact Hpos |].
    repeat split.
    + now apply (round_ge _ 2 0).
    + now apply (round_le _ 2 3).
    + apply (round_ge _ 1 0). cbv [inject_Z] in *. nra.
    + apply (round_le _ 1 100). cbv [inject_Z] in F0, F1 |- *. nra.
Qed.

(** X16. Every row of the zone table is consistent: made shots are
    between 0 and the total, made and missed add up to the total, the
    points are between twice and three times the made shots, the points
    per shot between 0 and 3 and the field-goal percentage between 0 and
    100, rounding included. *)
Theorem zone_row_invariants (df : list Shot) (court_width court_length : Q)
    (grid_rows grid_cols : Z) (rows : list ZoneStats) :
  calculate_zone_stats df court_width court_length grid_rows grid_cols
  = Some rows ->
  Forall (fun z =>
            (0 <= MadeShots z <= TotalShots z)%Z /\
            (MadeShots z + MissedShots z = TotalShots z)%Z /\
            (2 * MadeShots z <= TotalPoints z <= 3 * MadeShots z)%Z /\
            (0 <= PointsPerShot z /\ PointsPerShot z <= 3) /\
            (0 <= FieldGoalPercentage z /\ FieldGoalPercentage z <= 100))
         rows.
Proof.
  intros H. apply calculate_zone_stats_inv in H.
  apply Forall_forall. intros z Hz.
  destruct (Forall2_In_r _ _ _ _ H Hz) as (rc & _ & Hzone).
  eapply zone_row_bounds, Hzone.
Qed.

Lemma zone_row_invariants_witness :
  exists rows,
    calculate_zone_stats shots 94 50 5 5 = Some rows /\
    Forall (fun z =>
              (0 <= MadeShots z <= TotalShots z)%Z /\
              (MadeShots z + MissedShots z = TotalShots z)%Z /\
              (2 * MadeShots z <= TotalPoints z <= 3 * MadeShots z)%Z /\
              (0 <= PointsPerShot z /\ PointsPerShot z <= 3) /\
              (0 <= FieldGoalPercentage z /\ FieldGoalPercentage z <= 100))
           rows.
Proof.
  eexists. split; [vm_compute; reflexivity|].
  apply (zone_row_invariants shots 94 50 5%Z 5%Z). vm_compute. reflexivity.
Defined.

End ZoneExtras.

(** ** The zone matrix *)

Module MatrixFacts.

Import Py PyFacts ProcessShots ZoneMatrix Spec ShotFacts.
Local Open Scope Q_scope.
Local Open Scope py_scope.

(** *** Indexing *)

Lemma axis_index_inside (n : nat) (i : Z) :
  (0 <= i < Z.of_nat n)%Z -> axis_index n i = Some (Z.to_nat i).
Proof.
  intros H. unfold axis_index.
  replace ((0 <=? i)%Z && (i <? Z.of_nat n)%Z) with true; [reflexivity|].
  symmetry. apply andb_true_intro. split; [apply Z.leb_le | apply Z.ltb_lt]; lia.
Qed.

Lemma axis_index_outside (n : nat) (i : Z) :
  (i < - Z.of_nat n \/ Z.of_nat n <= i)%Z -> axis_index n i = None.
Proof.
  intros H. unfold axis_index.
  replace ((0 <=? i)%Z && (i <? Z.of_nat n)%Z) with false.
  - replace ((- Z.of_nat n <=? i)%Z && (i <? 0)%Z) with false; [reflexivity|].
    symmetry. apply andb_false_iff.
    rewrite Z.leb_gt, Z.ltb_ge. lia.
  - symmetry. apply andb_false_iff. rewrite Z.leb_gt, Z.ltb_ge. lia.
Qed.

Lemma axis_index_bound (n : nat) (i : Z) (k : nat) :
  axis_index n i = Some k -> (k < n)%nat.
Proof.
  unfold axis_index.
  destruct ((0 <=? i)%Z && (i <? Z.of_nat n)%Z) eqn:E.
  - apply andb_prop in E as [E1 E2].
    apply Z.leb_le in E1. apply Z.ltb_lt in E2. intros [= <-]. lia.
  - destruct ((- Z.of_nat n <=? i)%Z && (i <? 0)%Z) eqn:E'; [|discriminate].
    apply andb_prop in E' as [E1 E2].
    apply Z.leb_le in E1. apply Z.ltb_lt in E2. intros [= <-]. lia.
Qed.

Lemma length_set_nth {A} (k : nat) (v : A) (l : list A) :
  length (set_nth k v l) = length l.
Proof.
  revert k. induction l as [|a l IH]; intros [|k]; simpl; auto.
Qed.

Lemma nth_error_set_nth {A} (k j : nat) (v : A) (l : list A) :
  (k < length l)%nat ->
  nth_error (set_nth k v l) j
  = if Nat.eqb j k then Some v else nth_error l j.
Proof.
  revert k j. induction l as [|a l IH]; intros [|k] [|j] H; simpl in *;
    try lia; try reflexivity.
  apply IH. lia.
Qed.

Lemma Forall_set_nth {A} (P : A -> Prop) (k : nat) (v : A) (l : list A) :
  P v -> Forall P l -> Forall P (set_nth k v l).
Proof.
  intros Hv H. revert k.
  induction H as [|a l Ha Hl IH]; intros [|k]; simpl; constructor; auto.
Qed.

Lemma shape_row (m : matrix) (R C : Z) (i : nat) (row : list Q) :
  shape m R C -> nth_error m i = Some row -> Z.of_nat (length row) = C.
Proof.
  intros [_ H] Hi. apply nth_error_In in Hi.
  rewrite Forall_forall in H. now apply H.
Qed.

(** Storing inside the array keeps its shape, is read back, and leaves
    the other cells alone. *)
Lemma setitem_inside (m : matrix) (R C r c : Z) (v : Q) :
  shape m R C -> (0 <= r < R)%Z -> (0 <= c < C)%Z ->
  exists m',
    setitem m r c v = Some m' /\ shape m' R C /\
    forall i j, (0 <= i < R)%Z -> (0 <= j < C)%Z ->
      getitem m' i j
      = if Z.eqb i r && Z.eqb j c then Some v else getitem m i j.
Proof.
  intros Hs Hr Hc. pose proof Hs as [HR HC]. unfold setitem.
  rewrite axis_index_inside by lia. cbn [bind].
  destruct (nth_error m (Z.to_nat r)) as [row|] eqn:Erow.
  2: { apply nth_error_None in Erow. lia. }
  pose proof (shape_row _ _ _ _ _ Hs Erow) as Hrow.
  cbn [bind]. rewrite axis_index_inside by lia. cbn [bind ret].
  eexists. split; [reflexivity|]. split.
  - split; [now rewrite length_set_nth|].
    apply Forall_set_nth; [now rewrite length_set_nth | exact HC].
  - intros i j Hi Hj. unfold getitem.
    rewrite length_set_nth, axis_index_inside by lia. cbn [bind].
    rewrite nth_error_set_nth by lia.
    destruct (Z.eqb_spec i r) as [-> | Hne].
    + rewrite Nat.eqb_refl. cbn [bind].
      rewrite length_set_nth, axis_index_inside by lia. cbn [bind].
      rewrite nth_error_set_nth by lia. rewrite Erow. cbn [bind].
      rewrite axis_index_inside by lia. cbn [bind andb].
      destruct (Z.eqb_spec j c) as [-> | Hne'].
      * now rewrite Nat.eqb_refl.
      * replace (Z.to_nat j =? Z.to_nat c)%nat with false; [reflexivity|].
        symmetry. apply Nat.eqb_neq. lia.
    + replace (Z.to_nat i =? Z.to_nat r)%nat with false; [reflexivity|].
      symmetry. apply Nat.eqb_neq. lia.
Qed.

(** Storing outside the array raises. *)
Lemma setitem_outside (m : matrix) (R C r c : Z) (v : Q) :
  shape m R C ->
  (r < - R \/ R <= r \/ c < - C \/ C <= c)%Z ->
  setitem m r c v = None.
Proof.
  intros Hs H. pose proof Hs as [HR HC]. unfold setitem.
  destruct (axis_index (length m) r) as [i|] eqn:Ei; [|reflexivity].
  cbn [bind]. pose proof (axis_index_bound _ _ _ Ei) as Hi.
  destruct (nth_error m i) as [row|] eqn:Erow; [|reflexivity].
  cbn [bind]. pose proof (shape_row _ _ _ _ _ Hs Erow) as Hrow.
  assert (Hr : (- R <= r < R)%Z).
  { destruct (Z.lt_ge_cases r (- R)) as [Hlt | Hge];
      [rewrite axis_index_outside in Ei by lia; discriminate|].
    destruct (Z.lt_ge_cases r R) as [Hlt | Hge'];
      [lia | rewrite axis_index_outside in Ei by lia; discriminate]. }
  rewrite axis_index_outside by lia. reflexivity.
Qed.

Lemma setitem_shape (m m' : matrix) (R C r c : Z) (v : Q) :
  shape m R C -> setitem m r c v = Some m' -> shape m' R C.
Proof.
  intros Hs. pose proof Hs as [HR HC]. unfold setitem.
  destruct (axis_index (length m) r) as [i|]; [|discriminate].
  cbn [bind]. destruct (nth_error m i) as [row|] eqn:Erow; [|discriminate].
  cbn [bind]. pose proof (shape_row _ _ _ _ _ Hs Erow) as Hrow.
  destruct (axis_index (length row) c) as [j|]; [|discriminate].
  cbn [bind ret]. intros [= <-].
  split; [now rewrite length_set_nth|].
  apply Forall_set_nth; [now rewrite length_set_nth | exact HC].
Qed.

Lemma zeros_spec (R C : Z) :
  (0 <= R)%Z -> (0 <= C)%Z ->
  exists m, zeros R C = Some m /\ shape m R C /\
            forall i j, (0 <= i < R)%Z -> (0 <= j < C)%Z ->
                        getitem m i j = Some 0.
Proof.
  intros HR HC. unfold zeros.
  replace ((R <? 0)%Z || (C <? 0)%Z) with false
    by (symmetry; apply orb_false_iff; rewrite !Z.ltb_ge; lia).
  eexists. split; [reflexivity|]. split.
  - split; [rewrite repeat_length; lia|].
    apply Forall_forall. intros row Hrow. apply repeat_spec in Hrow.
    subst row. rewrite repeat_length. lia.
  - intros i j Hi Hj. unfold getitem.
    rewrite repeat_length, axis_index_inside by lia. cbn [bind].
    rewrite nth_error_repeat by lia. cbn [bind].
    rewrite repeat_length, axis_index_inside by lia. cbn [bind].
    apply nth_error_repeat. lia.
Qed.

(** *** Filling a matrix from a zone table *)

Lemma find_app {A} (p : A -> bool) (l l' : list A) :
  find p (l ++ l')
  = match find p l with
    | Some a => Some a
    | None => find p l'
    end.
Proof.
  induction l as [|a l IH]; simpl; [reflexivity|].
  destruct (p a); [reflexivity | exact IH].
Qed.

Lemma row_at_cons (a : ZoneStats) (rest : list ZoneStats) (i j : Z) :
  row_at (a :: rest) i j
  = match row_at rest i j with
    | Some z => Some z
    | None => if Z.eqb i (Row a) && Z.eqb j (Col a) then Some a else None
    end.
Proof.
  unfold row_at. cbn [rev]. rewrite find_app. cbn [find].
  unfold zone_eqb. cbn [fst snd].
  now rewrite (Z.eqb_sym (Row a)), (Z.eqb_sym (Col a)).
Qed.

(** Cell [(i, j)] ends up with the value of the last row about it, or
    keeps what it held. *)
Lemma fill_spec (f : ZoneStats -> Q) (R C : Z) (stats_df : list ZoneStats) :
  Forall (in_grid R C) stats_df ->
  forall m, shape m R C ->
  exists m',
    fill f stats_df m = Some m' /\ shape m' R C /\
    forall i j, (0 <= i < R)%Z -> (0 <= j < C)%Z ->
      getitem m' i j
      = match row_at stats_df i j with
        | Some z => Some (f z)
        | None => getitem m i j
        end.
Proof.
  induction 1 as [|a rest [Hr Hc] _ IH]; intros m Hs.
  - exists m. repeat split; try apply Hs.
  - destruct (setitem_inside m R C (Row a) (Col a) (f a) Hs Hr Hc)
      as (m1 & Hm1 & Hs1 & Hget1).
    destruct (IH m1 Hs1) as (m' & Hm' & Hs' & Hget').
    exists m'. split.
    + unfold fill in *. cbn [for_update]. now rewrite Hm1.
    + split; [exact Hs'|]. intros i j Hi Hj.
      rewrite (Hget' i j Hi Hj), row_at_cons, (Hget1 i j Hi Hj).
      destruct (row_at rest i j); [reflexivity|].
      now destruct (Z.eqb i (Row a) && Z.eqb j (Col a)).
Qed.

Lemma for_update_ext {A S} (body body' : S -> A -> option S) (l : list A) :
  (forall s a, body s a = body' s a) ->
  forall s, for_update body l s = for_update body' l s.
Proof.
  intros H. induction l as [|a l IH]; intros s; simpl; [reflexivity|].
  rewrite H. destruct (body' s a); [apply IH | reflexivity].
Qed.

Lemma for_update_fails {A S} (Inv : S -> Prop) (body : S -> A -> option S)
    (l : list A) :
  (forall s a s', Inv s -> body s a = Some s' -> Inv s') ->
  Exists (fun a => forall s, Inv s -> body s a = None) l ->
  forall s, Inv s -> for_update body l s = None.
Proof.
  intros Hinv. induction 1 as [a l Ha | a l _ IH]; intros s Hs; simpl.
  - now rewrite (Ha s Hs).
  - destruct (body s a) as [s'|] eqn:E; [|reflexivity].
    apply IH. eapply Hinv; eassumption.
Qed.

(** X17. [create_zone_matrix] turns a zone table into a matrix of the
    given shape: when every row of the table lies in the grid and the
    metric is one of its numeric columns, cell [(i, j)] holds the metric of
    the last row about zone [(i, j)], and 0 when there is none. *)
Theorem create_zone_matrix_lookup (stats_df : list ZoneStats)
    (grid_rows grid_cols : Z) (metric : string) (f : ZoneStats -> Q) :
  (0 <= grid_rows)%Z -> (0 <= grid_cols)%Z ->
  Forall (in_grid grid_rows grid_cols) stats_df ->
  (forall z, column metric z = Some (f z)) ->
  exists m,
    create_zone_matrix stats_df grid_rows grid_cols metric = Some m /\
    shape m grid_rows grid_cols /\
    forall i j, (0 <= i < grid_rows)%Z -> (0 <= j < grid_cols)%Z ->
      getitem m i j
      = Some (match row_at stats_df i j with
              | Some z => f z
              | None => 0
              end).
Proof.
  intros HR HC Hgrid Hcol. unfold create_zone_matrix.
  destruct (zeros_spec grid_rows grid_cols HR HC) as (m0 & -> & Hs0 & Hz).
  cbn [bind].
  destruct (fill_spec f grid_rows grid_cols stats_df Hgrid m0 Hs0)
    as (m & Hm & Hs & Hget).
  exists m. split; [|split; [exact Hs|]].
  - rewrite <- Hm. unfold fill. apply for_update_ext.
    intros s a. rewrite Hcol. reflexivity.
  - intros i j Hi Hj. rewrite (Hget i j Hi Hj).
    destruct (row_at stats_df i j); [reflexivity | now apply Hz].
Qed.

Lemma create_zone_matrix_lookup_witness :
  exists m,
    create_zone_matrix
      [ {| Row := 0; Col := 1; ZoneLabel := "(0,1)"; TotalShots := 4;
           MadeShots := 2; MissedShots := 2; TotalPoints := 5;
           PointsPerShot := 1.25; PointsPerPossession := 1.25;
           FieldGoalPercentage := 50 |} ]
      2 2 "PointsPerShot" = Some m /\
    getitem m 0 1 = Some 1.25 /\ getitem m 1 1 = Some 0.
Proof.
  destruct (create_zone_matrix_lookup
              [ {| Row := 0; Col := 1; ZoneLabel := "(0,1)"; TotalShots := 4;
                   MadeShots := 2; MissedShots := 2; TotalPoints := 5;
                   PointsPerShot := 1.25; PointsPerPossession := 1.25;
                   FieldGoalPercentage := 50 |} ]
              2 2 "PointsPerShot" PointsPerShot)
    as (m & Hm & _ & Hget).
  - discriminate.
  - discriminate.
  - constructor; [split; cbn; lia | constructor].
  - reflexivity.
  - exists m. split; [exact Hm|].
    split; [apply (Hget 0%Z 1%Z) | apply (Hget 1%Z 1%Z)]; lia.
Defined.

(** X18. [create_zone_matrix] raises when a grid dimension is negative,
    when a row of the table lies outside the grid (its index is not in
    [-n, n) on some axis), and, on a table that is not empty, when the
    metric is not one of the numeric columns. *)
Theorem create_zone_matrix_raises (stats_df : list ZoneStats)
    (grid_rows grid_cols : Z) (metric : string) :
  ((grid_rows < 0)%Z \/ (grid_cols < 0)%Z ->
   create_zone_matrix stats_df grid_rows grid_cols metric = None) /\
  (Exists (fun z => (Row z < - grid_rows \/ grid_rows <= Row z \/
                     Col z < - grid_cols \/ grid_cols <= Col z)%Z)
          stats_df ->
   create_zone_matrix stats_df grid_rows grid_cols metric = None) /\
  (stats_df <> [] -> (forall z, column metric z = None) ->
   create_zone_matrix stats_df grid_rows grid_cols metric = None).
Proof.
  unfold create_zone_matrix. repeat split.
  - intros H. unfold zeros.
    replace ((grid_rows <? 0)%Z || (grid_cols <? 0)%Z) with true;
      [reflexivity|].
    symmetry. apply orb_true_iff. rewrite !Z.ltb_lt. exact H.
  - intros H.
    destruct (Z.lt_ge_cases grid_rows 0) as [HR | HR];
      [unfold zeros; replace (grid_rows <? 0)%Z with true
         by (symmetry; now apply Z.ltb_lt); reflexivity|].
    destruct (Z.lt_ge_cases grid_cols 0) as [HC | HC];
      [unfold zeros; replace (grid_cols <? 0)%Z with true
         by (symmetry; now apply Z.ltb_lt);
       now rewrite orb_true_r|].
    destruct (zeros_spec grid_rows grid_cols HR HC) as (m0 & -> & Hs0 & _).
    cbn [bind].
    apply (for_update_fails (fun m => shape m grid_rows grid_cols)).
    + intros s a s' Hs. destruct (column metric a); [|discriminate].
      cbn [bind]. now apply setitem_shape.
    + eapply Exists_impl; [|exact H]. intros z Hz s Hs.
      destruct (column metric z); [|reflexivity]. cbn [bind].
      now apply (setitem_outside s grid_rows grid_cols).
    + exact Hs0.
  - intros Hne Hcol. destruct (zeros grid_rows grid_cols); [|reflexivity].
    cbn [bind]. destruct stats_df as [|z rest]; [contradiction|].
    cbn [for_update]. now rewrite Hcol.
Qed.

(** A 5 by 5 table does not fit a 4 by 4 matrix, and the label column is
    not a metric. *)
Lemma create_zone_matrix_raises_witness :
  exists rows,
    calculate_zone_stats shots 94 50 5 5 = Some rows /\
    create_zone_matrix rows 4 4 "PointsPerShot" = None /\
    create_zone_matrix rows 5 5 "Zone" = None.
Proof.
  eexists. split; [vm_compute; reflexivity|]. split.
  - eapply (proj1 (proj2 (create_zone_matrix_raises _ 4 4 "PointsPerShot"))).
    do 4 apply Exists_cons_tl. apply Exists_cons_hd. cbn. lia.
  - eapply (proj2 (proj2 (create_zone_matrix_raises _ 5 5 "Zone")));
      [discriminate | reflexivity].
Defined.

(** *** The matrix of a computed zone table *)

Lemma find_unique (key : ZoneStats -> Z * Z) (l : list ZoneStats)
    (z : ZoneStats) :
  NoDup (map key l) -> In z l ->
  find (fun z' => zone_eqb (key z') (key z)) l = Some z.
Proof.
  induction l as [|a l IH]; intros Hnd Hin; [contradiction|].
  cbn [map] in Hnd. inversion Hnd as [|? ? Ha Hl]; subst.
  cbn [find]. destruct (zone_eqb (key a) (key z)) eqn:E.
  - apply zone_eqb_eq in E. destruct Hin as [-> | Hin]; [reflexivity|].
    exfalso. apply Ha. rewrite E. now apply in_map.
  - destruct Hin as [-> | Hin].
    + rewrite (proj2 (zone_eqb_eq _ _) eq_refl) in E. discriminate.
    + now apply IH.
Qed.

Lemma row_at_unique (rows : list ZoneStats) (z : ZoneStats) :
  NoDup (map (fun z => (Row z, Col z)) rows) -> In z rows ->
  row_at rows (Row z) (Col z) = Some z.
Proof.
  intros Hnd Hin. unfold row_at.
  apply (find_unique (fun z => (Row z, Col z))).
  - rewrite map_rev. now apply NoDup_rev.
  - now apply in_rev in Hin.
Qed.

Lemma grid_keys_NoDup (gr gc : Z) :
  NoDup (list_prod (range gr) (range gc)).
Proof.
  apply ZoneExtras.list_prod_NoDup; apply ZoneExtras.range_NoDup.
Qed.

(** The rows computed for a grid lie in it, one per cell. *)
Lemma computed_rows (cw cl : Q) (gr gc : Z) (df : list Shot)
    (rows : list ZoneStats) :
  Forall2 (zone_of_shots cw cl gr gc df)
    (list_prod (range gr) (range gc)) rows ->
  Forall (in_grid gr gc) rows /\
  (forall z, In z rows -> row_at rows (Row z) (Col z) = Some z) /\
  (forall F : Z -> Z -> option ZoneStats -> Z * Z * VisualizeShots.annotation,
      map (fun rc => F (fst rc) (snd rc) (row_at rows (fst rc) (snd rc)))
          (list_prod (range gr) (range gc))
      = map (fun z => F (Row z) (Col z) (Some z)) rows).
Proof.
  intros HF. pose proof (zone_keys _ _ _ _ _ _ _ HF) as Hkeys.
  assert (Hnd : NoDup (map (fun z => (Row z, Col z)) rows))
    by (rewrite Hkeys; apply grid_keys_NoDup).
  assert (Hat : forall z, In z rows -> row_at rows (Row z) (Col z) = Some z)
    by (intros; now apply row_at_unique).
  split; [|split; [exact Hat|]].
  - apply Forall_forall. intros z Hz.
    assert (Hin : In (Row z, Col z) (list_prod (range gr) (range gc)))
      by (rewrite <- Hkeys; now apply (in_map (fun z => (Row z, Col z)))).
    apply in_prod_iff in Hin. rewrite !ZoneExtras.in_range in Hin.
    exact Hin.
  - intros F. rewrite <- Hkeys, map_map. apply map_ext_in.
    intros z Hz. cbn [fst snd]. now rewrite Hat.
Qed.

(** X19. The matrix built from a computed zone table gives the table
    back: for a shot table that has a shot whose type is text, positive
    court and grid dimensions and a numeric column as metric,
    [create_zone_matrix] returns a matrix of the shape of the grid whose
    cell [(Row, Col)] holds the metric of that row, for every row. *)
Theorem matrix_of_zone_stats (df : list Shot) (court_width court_length : Q)
    (grid_rows grid_cols : Z) (metric : string) (f : ZoneStats -> Q) :
  has_shot_type df ->
  0 < court_width -> 0 < court_length ->
  (0 < grid_rows)%Z -> (0 < grid_cols)%Z ->
  (forall z, column metric z = Some (f z)) ->
  exists rows m,
    calculate_zone_stats df court_width court_length grid_rows grid_cols
    = Some rows /\
    create_zone_matrix rows grid_rows grid_cols metric = Some m /\
    shape m grid_rows grid_cols /\
    Forall (fun z => getitem m (Row z) (Col z) = Some (f z)) rows.
Proof.
  intros Htext Hw Hl Hr Hc Hcol.
  destruct (calculate_zone_stats_spec df court_width court_length
              grid_rows grid_cols Htext) as (rows & Hrows & HF);
    [now apply nonzero_of_pos .. |].
  destruct (computed_rows _ _ _ _ _ _ HF) as (Hgrid & Hat & _).
  destruct (zeros_spec grid_rows grid_cols) as (m0 & Hm0 & Hs0 & _);
    [lia | lia |].
  destruct (fill_spec f grid_rows grid_cols rows Hgrid m0 Hs0)
    as (m & Hm & Hs & Hget).
  exists rows, m. split; [exact Hrows|]. split; [|split; [exact Hs|]].
  - unfold create_zone_matrix. rewrite Hm0. cbn [bind].
    rewrite <- Hm. unfold fill. apply for_update_ext.
    intros s a. now rewrite Hcol.
  - apply Forall_forall. intros z Hz.
    rewrite Forall_forall in Hgrid. destruct (Hgrid z Hz) as [Hi Hj].
    now rewrite (Hget _ _ Hi Hj), (Hat z Hz).
Qed.

Lemma matrix_of_zone_stats_witness :
  exists rows m,
    calculate_zone_stats shots 94 50 5 5 = Some rows /\
    create_zone_matrix rows 5 5 "TotalPoints" = Some m /\
    getitem m 1 0 = Some 7.
Proof.
  destruct (matrix_of_zone_stats shots 94 50 5 5 "TotalPoints"
              (fun z => inject_Z (TotalPoints z)))
    as (rows & m & Hrows & Hm & _ & Hget); try reflexivity.
  exists rows, m. split; [exact Hrows|]. split; [exact Hm|].
  vm_compute in Hrows. injection Hrows as <-.
  do 5 (apply Forall_inv_tail in Hget). apply Forall_inv in Hget.
  exact Hget.
Defined.

End MatrixFacts.

(** ** The charts *)

Module ChartFacts.

Import Py PyFacts RoundFacts ProcessShots ZoneMatrix VisualizeShots.
Import Spec ShotFacts MatrixFacts.
Local Open Scope Q_scope.
Local Open Scope py_scope.

(** *** Matrices as tables of values *)

Lemma zeros_holds (R C : Z) :
  (0 <= R)%Z -> (0 <= C)%Z ->
  exists m, zeros R C = Some m /\ holds m R C (fun _ _ => 0).
Proof.
  intros HR HC. destruct (zeros_spec R C HR HC) as (m & Hm & Hs & Hz).
  exists m. split; [exact Hm | now split].
Qed.

Lemma fill_holds (f : ZoneStats -> Q) (R C : Z) (stats_df : list ZoneStats)
    (m : matrix) (g : Z -> Z -> Q) :
  Forall (in_grid R C) stats_df -> holds m R C g ->
  exists m',
    fill f stats_df m = Some m' /\
    holds m' R C (fun i j => match row_at stats_df i j with
                             | Some z => f z
                             | None => g i j
                             end).
Proof.
  intros Hgrid [Hs Hg].
  destruct (fill_spec f R C stats_df Hgrid m Hs) as (m' & Hm' & Hs' & Hget).
  exists m'. split; [exact Hm'|]. split; [exact Hs'|].
  intros i j Hi Hj. rewrite (Hget i j Hi Hj).
  destruct (row_at stats_df i j); [reflexivity | now apply Hg].
Qed.

Lemma three_fills (f1 f2 f3 : ZoneStats -> Q) (stats_df : list ZoneStats) :
  forall a b c a' b' c',
    fill f1 stats_df a = Some a' ->
    fill f2 stats_df b = Some b' ->
    fill f3 stats_df c = Some c' ->
    for_update
      (fun '(a, b, c) row =>
         a <- setitem a (Row row) (Col row) (f1 row) ;;
         b <- setitem b (Row row) (Col row) (f2 row) ;;
         c <- setitem c (Row row) (Col row) (f3 row) ;;
         ret (a, b, c))
      stats_df (a, b, c)
    = Some (a', b', c').
Proof.
  unfold fill. induction stats_df as [|z rest IH];
    intros a b c a' b' c' Ha Hb Hc; cbn [for_update] in *.
  - congruence.
  - destruct (setitem a (Row z) (Col z) (f1 z)); [|discriminate].
    destruct (setitem b (Row z) (Col z) (f2 z)); [|discriminate].
    destruct (setitem c (Row z) (Col z) (f3 z)); [|discriminate].
    cbn [bind ret]. now apply IH.
Qed.

(** The three matrices of a chart, for a table that lies in the grid. *)
Lemma zone_matrices_hold (stats_df : list ZoneStats) (R C : Z) :
  (0 <= R)%Z -> (0 <= C)%Z -> Forall (in_grid R C) stats_df ->
  exists pps ppp counts,
    zone_matrices stats_df R C = Some (pps, ppp, counts) /\
    holds pps R C (fun i j => match row_at stats_df i j with
                              | Some z => PointsPerShot z
                              | None => 0
                              end) /\
    holds ppp R C (fun i j => match row_at stats_df i j with
                              | Some z => PointsPerPossession z
                              | None => 0
                              end) /\
    holds counts R C (fun i j => match row_at stats_df i j with
                                 | Some z => inject_Z (TotalShots z)
                                 | None => 0
                                 end).
Proof.
  intros HR HC Hgrid.
  destruct (zeros_holds R C HR HC) as (m0 & Hm0 & H0).
  destruct (fill_holds PointsPerShot R C stats_df m0 _ Hgrid H0)
    as (pps & Hpps & H1).
  destruct (fill_holds PointsPerPossession R C stats_df m0 _ Hgrid H0)
    as (ppp & Hppp & H2).
  destruct (fill_holds (fun z => inject_Z (TotalShots z)) R C stats_df m0 _
              Hgrid H0) as (counts & Hcounts & H3).
  exists pps, ppp, counts. repeat split; try apply H1; try apply H2;
    try apply H3.
  unfold zone_matrices. rewrite Hm0. cbn [bind].
  now apply (three_fills PointsPerShot PointsPerPossession
               (fun z => inject_Z (TotalShots z))).
Qed.

(** *** The largest entry *)

Lemma fold_max_in (xs : list Q) (x : Q) :
  In (fold_left (fun a b => if ltb a b then b else a) xs x) (x :: xs).
Proof.
  revert x. induction xs as [|y xs IH]; intros x; [now left|].
  cbn [fold_left]. destruct (IH (if ltb x y then y else x)) as [H | H].
  - rewrite <- H. destruct (ltb x y); [right; now left | now left].
  - right. now right.
Qed.

Lemma entry_of_concat (m : matrix) (R C : Z) (g : Z -> Z -> Q) (v : Q) :
  holds m R C g -> In v (concat m) ->
  exists i j, (0 <= i < R)%Z /\ (0 <= j < C)%Z /\ v = g i j.
Proof.
  intros [Hs Hg] Hv. pose proof Hs as [HR HC].
  apply in_concat in Hv as (row & Hrow & Hv).
  destruct (In_nth_error _ _ Hrow) as (i & Hi).
  destruct (In_nth_error _ _ Hv) as (j & Hj).
  pose proof (shape_row _ _ _ _ _ Hs Hi) as Hlen.
  assert (Hi' : (i < length m)%nat) by (apply nth_error_Some; congruence).
  assert (Hj' : (j < length row)%nat) by (apply nth_error_Some; congruence).
  exists (Z.of_nat i), (Z.of_nat j).
  split; [lia|]. split; [lia|].
  assert (E : getitem m (Z.of_nat i) (Z.of_nat j) = Some v).
  { unfold getitem. rewrite axis_index_inside by lia. cbn [bind].
    rewrite Nat2Z.id, Hi. cbn [bind].
    rewrite axis_index_inside by lia. cbn [bind]. now rewrite Nat2Z.id. }
  rewrite Hg in E by lia. congruence.
Qed.

Lemma amax_at_most_3 (m : matrix) (R C : Z) (g : Z -> Z -> Q) :
  holds m R C g -> (0 < R)%Z -> (0 < C)%Z ->
  (forall i j, (0 <= i < R)%Z -> (0 <= j < C)%Z -> g i j <= 3) ->
  exists top, amax m = Some top /\ max 3 top = 3.
Proof.
  intros Hm HR HC Hg. unfold amax.
  destruct (concat m) as [|x xs] eqn:E.
  - exfalso. destruct Hm as [[HRm HCm] _].
    destruct m as [|row m']; [simpl in HRm; lia|].
    pose proof (Forall_inv HCm) as Hrow. cbv beta in Hrow.
    destruct row as [|v row']; [simpl in Hrow; lia | discriminate].
  - eexists. split; [reflexivity|].
    pose proof (fold_max_in xs x) as Hin. rewrite <- E in Hin.
    destruct (entry_of_concat _ _ _ _ _ Hm Hin) as (i & j & Hi & Hj & ->).
    unfold max. now rewrite (proj2 (gtb_le _ _) (Hg i j Hi Hj)).
Qed.

(** *** Loops over the cells of the grid *)

Lemma grid_cells {B} (body : Z -> Z -> option (list B)) (cell : Z -> Z -> B)
    (rs cs : list Z) :
  (forall i j, In i rs -> In j cs -> body i j = Some [cell i j]) ->
  for_append (fun i => for_append (fun j => body i j) cs) rs
  = Some (map (fun rc => cell (fst rc) (snd rc)) (list_prod rs cs)).
Proof.
  intros H.
  assert (Hinner : forall i, In i rs ->
            for_append (fun j => body i j) cs = Some (map (cell i) cs)).
  { intros i Hi.
    rewrite (for_append_flat_map _ (fun j => [cell i j]))
      by (intros j Hj; now apply H).
    reflexivity. }
  rewrite (for_append_flat_map _ (fun i => map (cell i) cs))
    by exact Hinner.
  f_equal. clear. induction rs as [|r rs IH]; [reflexivity|].
  cbn [flat_map list_prod]. rewrite map_app, map_map, IH. reflexivity.
Qed.

Lemma annotate_spec (values counts : matrix) (R C : Z)
    (gv gn : Z -> Z -> Q) :
  holds values R C gv -> holds counts R C gn ->
  annotate values counts R C
  = Some (map (fun rc =>
                 (fst rc, snd rc,
                  if gn (fst rc) (snd rc) >? 0
                  then Value_text (gv (fst rc) (snd rc))
                         (int (gn (fst rc) (snd rc)))
                  else No_shots))
              (list_prod (range R) (range C))).
Proof.
  intros [_ Hv] [_ Hn]. unfold annotate.
  apply (grid_cells _ (fun i j => (i, j, if gn i j >? 0
                                         then Value_text (gv i j) (int (gn i j))
                                         else No_shots))).
  intros i j Hi Hj. apply ZoneExtras.in_range in Hi, Hj.
  rewrite (Hv i j Hi Hj), (Hn i j Hi Hj). cbn [bind ret].
  now destruct (gn i j >? 0).
Qed.

Lemma int_inject (n : Z) : int (inject_Z n) = n.
Proof. unfold int. simpl. apply Z.quot_1_r. Qed.

Lemma gtb_inject (n : Z) : (inject_Z n >? 0) = (0 <? n)%Z.
Proof.
  apply eq_true_iff_eq. rewrite gtb_gt, Z.ltb_lt.
  change 0 with (inject_Z 0). now rewrite <- Zlt_Qlt.
Qed.

(** The annotations of a computed table, row by row. *)
Lemma annotations_by_row (cw cl : Q) (gr gc : Z) (df : list Shot)
    (rows : list ZoneStats) (value : ZoneStats -> Q) :
  Forall2 (zone_of_shots cw cl gr gc df)
    (list_prod (range gr) (range gc)) rows ->
  map (fun rc =>
         (fst rc, snd rc,
          if match row_at rows (fst rc) (snd rc) with
             | Some z => inject_Z (TotalShots z)
             | None => 0
             end >? 0
          then Value_text
                 match row_at rows (fst rc) (snd rc) with
                 | Some z => value z
                 | None => 0
                 end
                 (int match row_at rows (fst rc) (snd rc) with
                      | Some z => inject_Z (TotalShots z)
                      | None => 0
                      end)
          else No_shots))
      (list_prod (range gr) (range gc))
  = map (fun z => (Row z, Col z,
                   if (0 <? TotalShots z)%Z
                   then Value_text (value z) (TotalShots z)
                   else No_shots))
        rows.
Proof.
  intros HF. destruct (computed_rows _ _ _ _ _ _ HF) as (_ & _ & Hmap).
  rewrite <- (Hmap (fun i j o =>
                      (i, j,
                       match o with
                       | Some z => if (0 <? TotalShots z)%Z
                                   then Value_text (value z) (TotalShots z)
                                   else No_shots
                       | None => No_shots
                       end))).
  apply map_ext. intros [i j]. cbn [fst snd].
  destruct (row_at rows i j) as [z|]; [|reflexivity].
  now rewrite gtb_inject, int_inject.
Qed.

(** The entries of the matrices of a computed table. *)
Lemma computed_values (cw cl : Q) (gr gc : Z) (df : list Shot)
    (rows : list ZoneStats) :
  Forall2 (zone_of_shots cw cl gr gc df)
    (list_prod (range gr) (range gc)) rows ->
  forall i j, (0 <= i < gr)%Z -> (0 <= j < gc)%Z ->
  exists z,
    In z rows /\ row_at rows i j = Some z /\ Row z = i /\ Col z = j /\
    PointsPerPossession z = PointsPerShot z /\
    0 <= PointsPerShot z /\ PointsPerShot z <= 3.
Proof.
  intros HF i j Hi Hj.
  destruct (computed_rows _ _ _ _ _ _ HF) as (_ & Hat & _).
  pose proof (zone_keys _ _ _ _ _ _ _ HF) as Hkeys.
  assert (Hin : In (i, j) (map (fun z => (Row z, Col z)) rows)).
  { rewrite Hkeys. apply in_prod_iff. now rewrite !ZoneExtras.in_range. }
  apply in_map_iff in Hin as (z & [= <- <-] & Hz).
  destruct (Forall2_In_r _ _ _ _ HF Hz) as (rc & _ & Hzone).
  destruct (ZoneExtras.zone_row_bounds _ _ _ _ _ _ _ Hzone)
    as (_ & _ & _ & [P0 P3] & _).
  exists z. repeat split; try assumption; try (now apply Hat).
  apply Hzone.
Qed.

(** *** One panel *)

Lemma draw_computed (cw cl : Q) (gr gc : Z) (df : list Shot)
    (rows : list ZoneStats) (value : ZoneStats -> Q) (m counts : matrix)
    (axes ax : nat) (title : string) :
  Forall2 (zone_of_shots cw cl gr gc df)
    (list_prod (range gr) (range gc)) rows ->
  (0 < gr)%Z -> (0 < gc)%Z -> (ax < axes)%nat ->
  (forall z, In z rows -> value z = PointsPerShot z) ->
  holds m gr gc (fun i j => match row_at rows i j with
                            | Some z => value z
                            | None => 0
                            end) ->
  holds counts gr gc (fun i j => match row_at rows i j with
                                 | Some z => inject_Z (TotalShots z)
                                 | None => 0
                                 end) ->
  exists p,
    draw axes ax title m counts gr gc = Some p /\
    axis p = ax /\ panel_title p = title /\
    vmin p = 0 /\ vmax p = 3 /\ shape (image p) gr gc /\
    Forall (fun z => getitem (image p) (Row z) (Col z)
                     = Some (PointsPerShot z)) rows /\
    annotations p = map (fun z => (Row z, Col z, cell_text z)) rows.
Proof.
  intros HF Hr Hc Hax Hval Hm Hn.
  destruct (computed_rows _ _ _ _ _ _ HF) as (Hgrid & Hat & _).
  assert (Hle : forall i j, (0 <= i < gr)%Z -> (0 <= j < gc)%Z ->
            match row_at rows i j with
            | Some z => value z
            | None => 0
            end <= 3).
  { intros i j Hi Hj.
    destruct (computed_values _ _ _ _ _ _ HF i j Hi Hj)
      as (z & Hz & -> & _ & _ & _ & _ & H3).
    now rewrite (Hval z Hz). }
  destruct (amax_at_most_3 m gr gc _ Hm Hr Hc Hle) as (top & Htop & Hmax).
  unfold draw.
  replace (ax <? axes)%nat with true by (symmetry; now apply Nat.ltb_lt).
  cbn [bind ret]. rewrite Htop. cbn [bind].
  rewrite (annotate_spec m counts gr gc _ _ Hm Hn). cbn [bind ret].
  eexists. split; [reflexivity|]. cbn.
  repeat split; try apply Hm; try exact Hmax.
  - apply Forall_forall. intros z Hz.
    rewrite Forall_forall in Hgrid. destruct (Hgrid z Hz) as [Hi Hj].
    destruct Hm as [_ Hget].
    now rewrite (Hget _ _ Hi Hj), (Hat z Hz), (Hval z Hz).
  - rewrite (annotations_by_row _ _ _ _ _ _ value HF).
    apply map_ext_in. intros z Hz. unfold cell_text.
    now rewrite (Hval z Hz).
Qed.

Lemma shot_chart_computed (cw cl : Q) (gr gc : Z) (df : list Shot)
    (rows : list ZoneStats) (show_pps show_ppp : bool) :
  Forall2 (zone_of_shots cw cl gr gc df)
    (list_prod (range gr) (range gc)) rows ->
  (0 < gr)%Z -> (0 < gc)%Z ->
  exists panels,
    create_shot_chart rows gr gc show_pps show_ppp = Some panels /\
    map panel_title panels
    = ((if show_pps then ["Points Per Shot"%string] else [])
       ++ (if show_ppp then ["Points Per Possession"%string] else []))%list /\
    map axis panels = seq 0 (length panels) /\
    Forall (fun p =>
              vmin p = 0 /\ vmax p = 3 /\
              shape (image p) gr gc /\
              Forall (fun z => getitem (image p) (Row z) (Col z)
                               = Some (PointsPerShot z)) rows /\
              annotations p = map (fun z => (Row z, Col z, cell_text z)) rows)
           panels.
Proof.
  intros HF Hr Hc.
  destruct (computed_rows _ _ _ _ _ _ HF) as (Hgrid & _ & _).
  destruct (zone_matrices_hold rows gr gc)
    as (pps & ppp & counts & Hms & Hpps & Hppp & Hcounts);
    [lia | lia | exact Hgrid |].
  assert (Hsame : forall z, In z rows ->
            PointsPerPossession z = PointsPerShot z).
  { intros z Hz. destruct (Forall2_In_r _ _ _ _ HF Hz) as (rc & _ & Hzone).
    apply Hzone. }
  unfold create_shot_chart. rewrite Hms. cbn [bind].
  destruct show_pps, show_ppp; cbn [andb].
  - destruct (draw_computed _ _ _ _ _ _ PointsPerShot pps counts 2 0
                "Points Per Shot" HF Hr Hc)
      as (p1 & -> & A1 & T1 & P1); [lia | reflexivity | assumption ..|].
    destruct (draw_computed _ _ _ _ _ _ PointsPerPossession ppp counts 2 1
                "Points Per Possession" HF Hr Hc)
      as (p2 & -> & A2 & T2 & P2); [lia | assumption ..|].
    cbn [bind ret app]. eexists. split; [reflexivity|].
    cbn [map length seq app]. rewrite A1, A2, T1, T2.
    split; [reflexivity|]. split; [reflexivity|].
    apply Forall_cons; [exact P1|].
    apply Forall_cons; [exact P2 | apply Forall_nil].
  - destruct (draw_computed _ _ _ _ _ _ PointsPerShot pps counts 1 0
                "Points Per Shot" HF Hr Hc)
      as (p1 & -> & A1 & T1 & P1); [lia | reflexivity | assumption ..|].
    cbn [bind ret app]. eexists. split; [reflexivity|].
    cbn [map length seq app]. rewrite A1, T1.
    split; [reflexivity|]. split; [reflexivity|].
    apply Forall_cons; [exact P1 | apply Forall_nil].
  - destruct (draw_computed _ _ _ _ _ _ PointsPerPossession ppp counts 1 0
                "Points Per Possession" HF Hr Hc)
      as (p2 & -> & A2 & T2 & P2); [lia | assumption ..|].
    cbn [bind ret app]. eexists. split; [reflexivity|].
    cbn [map length seq app]. rewrite A2, T2.
    split; [reflexivity|]. split; [reflexivity|].
    apply Forall_cons; [exact P2 | apply Forall_nil].
  - cbn [bind ret app]. eexists. split; [reflexivity|].
    split; [reflexivity|]. split; [reflexivity | apply Forall_nil].
Qed.

(** X20. The charts of a computed zone table.  For a shot table that has
    a shot whose type is text, and positive court and grid dimensions,
    [create_shot_chart] applied to its zone table draws one panel per requested
    metric, each on its own axis; every panel has the colour range 0 to 3,
    a matrix of the shape of the grid holding the points per shot of each
    zone, and one text per zone in the order of the table: "No Shots" for
    a zone without shots, the value and the shot count otherwise.  The two
    panels therefore show the same numbers. *)
Theorem shot_chart_of_zone_stats (df : list Shot)
    (court_width court_length : Q) (grid_rows grid_cols : Z)
    (show_pps show_ppp : bool) :
  has_shot_type df ->
  0 < court_width -> 0 < court_length ->
  (0 < grid_rows)%Z -> (0 < grid_cols)%Z ->
  exists rows panels,
    calculate_zone_stats df court_width court_length grid_rows grid_cols
    = Some rows /\
    create_shot_chart rows grid_rows grid_cols show_pps show_ppp
    = Some panels /\
    map panel_title panels
    = ((if show_pps then ["Points Per Shot"%string] else [])
       ++ (if show_ppp then ["Points Per Possession"%string] else []))%list /\
    map axis panels = seq 0 (length panels) /\
    Forall (fun p =>
              vmin p = 0 /\ vmax p = 3 /\
              shape (image p) grid_rows grid_cols /\
              Forall (fun z => getitem (image p) (Row z) (Col z)
                               = Some (PointsPerShot z)) rows /\
              annotations p = map (fun z => (Row z, Col z, cell_text z)) rows)
           panels.
Proof.
  intros Htext Hw Hl Hr Hc.
  destruct (calculate_zone_stats_spec df court_width court_length
              grid_rows grid_cols Htext) as (rows & Hrows & HF);
    [now apply nonzero_of_pos .. |].
  destruct (shot_chart_computed _ _ _ _ _ _ show_pps show_ppp HF Hr Hc)
    as (panels & Hpanels).
  exists rows, panels. split; [exact Hrows | exact Hpanels].
Qed.

Lemma shot_chart_of_zone_stats_witness :
  exists rows panels,
    calculate_zone_stats shots 94 50 5 5 = Some rows /\
    create_shot_chart rows 5 5 true true = Some panels /\
    map vmax panels = [3; 3] /\
    map (fun p => nth 5 (annotations p) (0%Z, 0%Z, No_shots)) panels
    = [(1%Z, 0%Z, Value_text 1.75 4); (1%Z, 0%Z, Value_text 1.75 4)].
Proof.
  destruct (shot_chart_of_zone_stats shots 94 50 5 5 true true)
    as (rows & panels & Hrows & Hpanels & _); try reflexivity.
  exists rows, panels. split; [exact Hrows|]. split; [exact Hpanels|].
  vm_compute in Hrows. injection Hrows as <-.
  vm_compute in Hpanels. injection Hpanels as <-.
  split; reflexivity.
Defined.

(** *** The combined chart *)

Lemma nth_error_combine {A B} (l : list A) (l' : list B) (k : nat) :
  nth_error (combine l l') k
  = match nth_error l k, nth_error l' k with
    | Some x, Some y => Some (x, y)
    | _, _ => None
    end.
Proof.
  revert l' k. induction l as [|x l IH]; intros [|y l2] [|k]; simpl;
    try reflexivity.
  - now destruct (nth_error l k).
  - apply IH.
Qed.

Lemma getitem_nth (m : matrix) (R C i j : Z) :
  shape m R C -> (0 <= i < R)%Z -> (0 <= j < C)%Z ->
  getitem m i j
  = match nth_error m (Z.to_nat i) with
    | Some row => nth_error row (Z.to_nat j)
    | None => None
    end.
Proof.
  intros Hs Hi Hj. pose proof Hs as [HR _]. unfold getitem.
  rewrite axis_index_inside by lia. cbn [bind].
  destruct (nth_error m (Z.to_nat i)) as [row|] eqn:E; [|reflexivity].
  cbn [bind]. rewrite axis_index_inside; [reflexivity|].
  rewrite (shape_row _ _ _ _ _ Hs E). lia.
Qed.

Lemma average_holds (a b : matrix) (R C : Z) (ga gb : Z -> Z -> Q) :
  holds a R C ga -> holds b R C gb ->
  holds (average a b) R C (fun i j => (ga i j + gb i j) / 2).
Proof.
  intros [Ha Hga] [Hb Hgb].
  assert (Hs : shape (average a b) R C).
  { destruct Ha as [HRa HCa], Hb as [HRb HCb]. split.
    - unfold average. rewrite length_map, length_combine. lia.
    - apply Forall_forall. intros row Hrow. unfold average in Hrow.
      apply in_map_iff in Hrow as ([ra rb] & <- & Hin).
      rewrite Forall_forall in HCa, HCb.
      pose proof (HCa _ (in_combine_l _ _ _ _ Hin)).
      pose proof (HCb _ (in_combine_r _ _ _ _ Hin)).
      rewrite length_map, length_combine. lia. }
  split; [exact Hs|]. intros i j Hi Hj.
  specialize (Hga i j Hi Hj). specialize (Hgb i j Hi Hj).
  rewrite (getitem_nth _ _ _ _ _ Ha Hi Hj) in Hga.
  rewrite (getitem_nth _ _ _ _ _ Hb Hi Hj) in Hgb.
  rewrite (getitem_nth _ _ _ _ _ Hs Hi Hj). unfold average.
  rewrite nth_error_map, nth_error_combine.
  destruct (nth_error a (Z.to_nat i)) as [ra|]; [|discriminate].
  destruct (nth_error b (Z.to_nat i)) as [rb|]; [|discriminate].
  cbn [option_map]. rewrite nth_error_map, nth_error_combine, Hga, Hgb.
  reflexivity.
Qed.

Lemma combined_chart_computed (cw cl : Q) (gr gc : Z) (df : list Shot)
    (rows : list ZoneStats) :
  Forall2 (zone_of_shots cw cl gr gc df)
    (list_prod (range gr) (range gc)) rows ->
  (0 < gr)%Z -> (0 < gc)%Z ->
  exists p,
    create_combined_shot_chart rows gr gc = Some p /\
    vmin p = 0 /\ vmax p = 3 /\
    shape (image p) gr gc /\
    Forall (fun z => exists v, getitem (image p) (Row z) (Col z) = Some v /\
                               v == PointsPerShot z) rows /\
    annotations p
    = map (fun z => (Row z, Col z, combined_cell_text z)) rows.
Proof.
  intros HF Hr Hc.
  destruct (computed_rows _ _ _ _ _ _ HF) as (Hgrid & Hat & Hmap).
  destruct (zone_matrices_hold rows gr gc)
    as (pps & ppp & counts & Hms & Hpps & Hppp & Hcounts);
    [lia | lia | exact Hgrid |].
  pose proof (average_holds _ _ _ _ _ _ Hpps Hppp) as Havg.
  destruct (amax_at_most_3 _ _ _ _ Havg Hr Hc) as (top & Htop & Hmax).
  { intros i j Hi Hj.
    destruct (computed_values _ _ _ _ _ _ HF i j Hi Hj)
      as (z & _ & -> & _ & _ & Hsame & _ & H3).
    rewrite Hsame. cbv [Qdiv]. change (/ 2) with (1 # 2). lra. }
  unfold create_combined_shot_chart.
  rewrite Hms. cbn [bind]. rewrite Htop. cbn [bind].
  rewrite (grid_cells _
             (fun i j =>
                (i, j,
                 match row_at rows i j with
                 | Some z => if (0 <? TotalShots z)%Z
                             then Combined_text (PointsPerShot z)
                                    (PointsPerPossession z) (TotalShots z)
                             else No_shots
                 | None => No_shots
                 end))).
  2:{ intros i j Hi Hj. apply ZoneExtras.in_range in Hi, Hj.
      destruct Hpps as [_ Hp], Hppp as [_ Hq], Hcounts as [_ Hn].
      rewrite (Hp i j Hi Hj), (Hq i j Hi Hj), (Hn i j Hi Hj).
      cbn [bind ret].
      destruct (row_at rows i j) as [z|]; [|reflexivity].
      rewrite gtb_inject, int_inject. now destruct (0 <? TotalShots z)%Z. }
  cbn [bind ret]. eexists.
  split; [reflexivity|]. cbn.
  split; [reflexivity|]. split; [exact Hmax|].
  split; [apply Havg|]. split.
  - apply Forall_forall. intros z Hz.
    rewrite Forall_forall in Hgrid. destruct (Hgrid z Hz) as [Hi Hj].
    destruct Havg as [_ Hget]. rewrite (Hget _ _ Hi Hj), (Hat z Hz).
    eexists. split; [reflexivity|].
    destruct (Forall2_In_r _ _ _ _ HF Hz) as (rc & _ & Hzone).
    replace (PointsPerPossession z) with (PointsPerShot z)
      by (symmetry; apply Hzone).
    field.
  - rewrite (Hmap (fun i j o =>
                     (i, j,
                      match o with
                      | Some z => if (0 <? TotalShots z)%Z
                                  then Combined_text (PointsPerShot z)
                                         (PointsPerPossession z) (TotalShots z)
                                  else No_shots
                      | None => No_shots
                      end))).
    apply map_ext_in. intros z Hz. unfold combined_cell_text.
    destruct (Forall2_In_r _ _ _ _ HF Hz) as (rc & _ & Hzone).
    replace (PointsPerPossession z) with (PointsPerShot z)
      by (symmetry; apply Hzone).
    reflexivity.
Qed.

(** X21. The combined chart of a computed zone table.  For a shot table
    that has a shot whose type is text, and positive court and grid
    dimensions, [create_combined_shot_chart] applied to its zone table
    draws one panel with the colour range 0 to 3; its matrix has the shape of the grid and the
    average it holds for a zone is the zone's points per shot; every zone
    gets one text, in the order of the table: "No Shots" for a zone
    without shots, otherwise the same number twice, as PPS and as PPP, and
    the shot count. *)
Theorem combined_chart_of_zone_stats (df : list Shot)
    (court_width court_length : Q) (grid_rows grid_cols : Z) :
  has_shot_type df ->
  0 < court_width -> 0 < court_length ->
  (0 < grid_rows)%Z -> (0 < grid_cols)%Z ->
  exists rows p,
    calculate_zone_stats df court_width court_length grid_rows grid_cols
    = Some rows /\
    create_combined_shot_chart rows grid_rows grid_cols = Some p /\
    vmin p = 0 /\ vmax p = 3 /\
    shape (image p) grid_rows grid_cols /\
    Forall (fun z => exists v, getitem (image p) (Row z) (Col z) = Some v /\
                               v == PointsPerShot z) rows /\
    annotations p
    = map (fun z => (Row z, Col z, combined_cell_text z)) rows.
Proof.
  intros Htext Hw Hl Hr Hc.
  destruct (calculate_zone_stats_spec df court_width court_length
              grid_rows grid_cols Htext) as (rows & Hrows & HF);
    [now apply nonzero_of_pos .. |].
  destruct (combined_chart_computed _ _ _ _ _ _ HF Hr Hc) as (p & Hp).
  exists rows, p. split; [exact Hrows | exact Hp].
Qed.

Lemma combined_chart_of_zone_stats_witness :
  exists rows p,
    calculate_zone_stats shots 94 50 5 5 = Some rows /\
    create_combined_shot_chart rows 5 5 = Some p /\
    vmax p = 3 /\
    nth 5 (annotations p) (0%Z, 0%Z, No_shots)
    = (1%Z, 0%Z, Combined_text 1.75 1.75 4).
Proof.
  destruct (combined_chart_of_zone_stats shots 94 50 5 5)
    as (rows & p & Hrows & Hp & _); try reflexivity.
  exists rows, p. split; [exact Hrows|]. split; [exact Hp|].
  vm_compute in Hrows. injection Hrows as <-.
  vm_compute in Hp. injection Hp as <-.
  split; reflexivity.
Defined.

End ChartFacts.

(** ** The report generator *)

Module GammaFacts.

Import Py PyFacts RoundFacts AnalyzeGame GammaPrompt Spec.
Local Open Scope Q_scope.
Local Open Scope py_scope.

Section Interpreted.
Context {I : Interpreter}.

(** *** Building the generator *)

Lemma init_reports (float_of_str : string -> option Q) (self : GameAnalyzer) :
  exists g,
    GammaPrompt.__init__ float_of_str self = Some g /\
    analyzer g = self /\
    calculate_efficiency_metrics self = Some (efficiency g) /\
    analyze_turnovers self = Some (turnovers g) /\
    analyze_rebounding self = Some (rebounding g) /\
    optimize_shot_selection float_of_str self = Some (shot_selection g).
Proof.
  destruct (GameExtras.efficiency_fields self) as (e & He & _).
  destruct (GameFacts.analyze_turnovers_total self) as (t & tl & Ht & _).
  destruct (GameFacts.analyze_rebounding_total self) as (r & rl & Hr & _).
  destruct (GameFacts.optimize_shot_selection_total float_of_str self)
    as (s & sl & Hs & _).
  unfold GammaPrompt.__init__. rewrite He, Ht, Hr, Hs. cbn [bind ret].
  eexists. split; [reflexivity|]. cbn. repeat split; assumption.
Qed.

(** *** What the reports hand to the generator *)

Lemma turnover_facts (self : GameAnalyzer) (t : TO.report) :
  analyze_turnovers self = Some t ->
  exists rate,
    TO.our_to_rate t = round rate 2 /\
    (20 < rate -> In TO.Critical_rate (TO.recommendations t)) /\
    (15 < rate -> In TO.Critical_rate (TO.recommendations t) \/
                  In TO.Warning_rate (TO.recommendations t)) /\
    (length (TO.recommendations t) <= 3)%nat.
Proof.
  intros H.
  destruct (GameExtras.analyze_turnovers_recommendations self)
    as (t' & ranked & Ht' & _ & Hrate & Hrecs).
  rewrite H in Ht'. injection Ht' as <-.
  eexists. split; [exact Hrate|]. rewrite Hrecs. clear Hrecs Hrate H.
  set (rate := guarded_scaled _ _ _).
  set (tail := ((if ltb _ 1 then _ else _) ++ _)%list).
  assert (Htail : (length tail <= 2)%nat).
  { subst tail. rewrite length_app.
    pose proof (GameExtras.flag_length
                  (ltb (AST_TO_Ratio (our_team_stats self)) 1)
                  TO.Low_ast_to_ratio).
    destruct ranked as [|top ranked']; [simpl; lia|].
    pose proof (GameExtras.flag_length (TO.to_per_36 top >? 5)
                  (TO.High_player_rate (TO.player top) (TO.number top))).
    lia. }
  repeat split.
  - intros H20. apply gtb_gt in H20. rewrite H20. now left.
  - intros H15. destruct (rate >? 20) eqn:E20; [left; now left|].
    apply gtb_gt in H15. rewrite H15. right. now left.
  - rewrite length_app.
    destruct (rate >? 20); [simpl; lia|].
    destruct (rate >? 15); simpl; lia.
Qed.

Lemma rebounding_facts (self : GameAnalyzer) (r : REB.report) :
  analyze_rebounding self = Some r ->
  exists diff,
    REB.rebound_margin r = int diff /\
    (diff < -5 -> In REB.Losing_battle (REB.recommendations r)) /\
    (length (REB.recommendations r) <= 4)%nat.
Proof.
  intros H.
  destruct (GameExtras.analyze_rebounding_fields self)
    as (r' & Hr' & Hmargin & _ & _ & Hrecs).
  rewrite H in Hr'. injection Hr' as <-.
  eexists. split; [exact Hmargin|]. rewrite Hrecs. split.
  - intros Hd. apply ltb_lt in Hd. rewrite Hd.
    rewrite !in_app_iff. right. right. left. now left.
  - rewrite !length_app.
    pose proof (GameExtras.flag_length
                  (ltb (Offensive_Rebounding_pct (our_team_stats self)) 25)
                  REB.Low_offensive_rebounding).
    pose proof (GameExtras.flag_length
                  (Offensive_Rebounding_pct (opponent_stats self) >? 35)
                  (REB.Opponent_strong
                     (Offensive_Rebounding_pct (opponent_stats self)))).
    pose proof (GameExtras.flag_length
                  (ltb (Rebounds (our_team_stats self)
                        - Rebounds (opponent_stats self)) (-5))
                  REB.Losing_battle).
    pose proof (GameExtras.flag_length
                  (ltb (Offensive_Rebounds (our_team_stats self)
                        - Offensive_Rebounds (opponent_stats self)) (-3))
                  REB.Giving_up_offensive_rebounds).
    lia.
Qed.

Lemma shot_facts (float_of_str : string -> option Q) (self : GameAnalyzer)
    (s : SHOT.report) :
  optimize_shot_selection float_of_str self = Some s ->
  (length (SHOT.recommendations s) <= 2)%nat.
Proof.
  intros H.
  destruct (GameExtras.optimize_shot_selection_fields float_of_str self)
    as (s' & Hs' & _ & _ & _ & Hrecs).
  rewrite H in Hs'. injection Hs' as <-. rewrite Hrecs, length_app.
  match goal with
  | |- (length (if ?a then _ else _) + length (if ?b then _ else _) <= 2)%nat =>
      destruct a, b; simpl; lia
  end.
Qed.

(** *** The action items *)

Lemma action_items_all (g : GammaPromptGenerator) :
  (length (TO.recommendations (turnovers g)) <= 3)%nat ->
  (length (REB.recommendations (rebounding g)) <= 4)%nat ->
  (length (SHOT.recommendations (shot_selection g)) <= 2)%nat ->
  _format_action_items g
  = ((if ltb (ppp (our_team (efficiency g))) (opp_ppp (opponent (efficiency g)))
      then [(HIGH_PRIORITY,
             Improve_efficiency (ppp (our_team (efficiency g)))
               (opp_ppp (opponent (efficiency g))))]
      else [])
     ++ (if TO.our_to_rate (turnovers g) >? 15
         then [(HIGH_PRIORITY, Reduce_turnovers (TO.our_to_rate (turnovers g)))]
         else [])
     ++ map (fun rec => (TURNOVERS, Turnover_advice rec))
            (TO.recommendations (turnovers g))
     ++ map (fun rec => (REBOUNDING, Rebounding_advice rec))
            (REB.recommendations (rebounding g))
     ++ map (fun rec => (SHOT_SELECTION, Shot_advice rec))
            (SHOT.recommendations (shot_selection g)))%list /\
  (length (_format_action_items g) <= 11)%nat.
Proof.
  intros Ht Hr Hs. unfold _format_action_items. cbv zeta.
  destruct (ltb (ppp (our_team (efficiency g)))
              (opp_ppp (opponent (efficiency g))));
    destruct (TO.our_to_rate (turnovers g) >? 15);
    rewrite <- ?app_assoc; cbn [app];
    (rewrite firstn_all2;
     [split; [reflexivity|] |];
     cbn [length]; rewrite ?length_app, ?length_map; lia).
Qed.

(** X22. The action items are never cut.  For every analyzer the
    generator is built without an exception, and its action items are, in
    order, the efficiency item (own points per possession under the
    opponent's), the turnover item (rounded turnover rate above 15), then
    every turnover, rebounding and shot-selection recommendation of the
    three reports: at most eleven items, so the limit of fifteen never
    drops one. *)
Theorem action_items_complete (float_of_str : string -> option Q)
    (self : GameAnalyzer) :
  exists g,
    GammaPrompt.__init__ float_of_str self = Some g /\
    _format_action_items g
    = ((if ltb (ppp (our_team (efficiency g)))
               (opp_ppp (opponent (efficiency g)))
        then [(HIGH_PRIORITY,
               Improve_efficiency (ppp (our_team (efficiency g)))
                 (opp_ppp (opponent (efficiency g))))]
        else [])
       ++ (if TO.our_to_rate (turnovers g) >? 15
           then [(HIGH_PRIORITY,
                  Reduce_turnovers (TO.our_to_rate (turnovers g)))]
           else [])
       ++ map (fun rec => (TURNOVERS, Turnover_advice rec))
              (TO.recommendations (turnovers g))
       ++ map (fun rec => (REBOUNDING, Rebounding_advice rec))
              (REB.recommendations (rebounding g))
       ++ map (fun rec => (SHOT_SELECTION, Shot_advice rec))
              (SHOT.recommendations (shot_selection g)))%list /\
    (length (_format_action_items g) <= 11)%nat.
Proof.
  destruct (init_reports float_of_str self)
    as (g & Hg & _ & _ & Ht & Hr & Hs).
  exists g. split; [exact Hg|].
  destruct (turnover_facts _ _ Ht) as (rate & _ & _ & _ & Hlt).
  destruct (rebounding_facts _ _ Hr) as (diff & _ & _ & Hlr).
  pose proof (shot_facts _ _ _ Hs) as Hls.
  now apply action_items_all.
Qed.

Lemma in_action_items (g : GammaPromptGenerator) (pa : priority * action) :
  (length (TO.recommendations (turnovers g)) <= 3)%nat ->
  (length (REB.recommendations (rebounding g)) <= 4)%nat ->
  (length (SHOT.recommendations (shot_selection g)) <= 2)%nat ->
  In pa (_format_action_items g) <->
  (ltb (ppp (our_team (efficiency g))) (opp_ppp (opponent (efficiency g)))
   = true /\
   pa = (HIGH_PRIORITY,
         Improve_efficiency (ppp (our_team (efficiency g)))
           (opp_ppp (opponent (efficiency g))))) \/
  ((TO.our_to_rate (turnovers g) >? 15) = true /\
   pa = (HIGH_PRIORITY, Reduce_turnovers (TO.our_to_rate (turnovers g)))) \/
  (exists rec, In rec (TO.recommendations (turnovers g)) /\
               pa = (TURNOVERS, Turnover_advice rec)) \/
  (exists rec, In rec (REB.recommendations (rebounding g)) /\
               pa = (REBOUNDING, Rebounding_advice rec)) \/
  (exists rec, In rec (SHOT.recommendations (shot_selection g)) /\
               pa = (SHOT_SELECTION, Shot_advice rec)).
Proof.
  intros Ht Hr Hs.
  rewrite (proj1 (action_items_all g Ht Hr Hs)).
  rewrite !in_app_iff, !GameExtras.in_flag, !in_map_iff.
  repeat apply or_iff_compat_l.
  split.
  - intros [(rec & <- & H) | [(rec & <- & H) | (rec & <- & H)]]; eauto.
  - intros [(rec & H & ->) | [(rec & H & ->) | (rec & H & ->)]]; eauto.
Qed.

(** X23. An urgent turnover item is always backed by the turnover report.
    If the action items ask to reduce turnovers (rounded rate above 15),
    the report's critical or warning recommendation is among them too; and
    if the key weakness is the high turnover rate (rounded rate above 20),
    the action items hold both the urgent item with that rate and the
    critical recommendation. *)
Theorem turnover_items_backed (float_of_str : string -> option Q)
    (self : GameAnalyzer) :
  exists g,
    GammaPrompt.__init__ float_of_str self = Some g /\
    (forall rate,
        In (HIGH_PRIORITY, Reduce_turnovers rate) (_format_action_items g) ->
        rate = TO.our_to_rate (turnovers g) /\
        (In (TURNOVERS, Turnover_advice TO.Critical_rate)
            (_format_action_items g) \/
         In (TURNOVERS, Turnover_advice TO.Warning_rate)
            (_format_action_items g))) /\
    (forall rate,
        _identify_key_weakness g = High_turnover_rate rate ->
        In (HIGH_PRIORITY, Reduce_turnovers rate) (_format_action_items g) /\
        In (TURNOVERS, Turnover_advice TO.Critical_rate)
           (_format_action_items g)).
Proof.
  destruct (init_reports float_of_str self)
    as (g & Hg & _ & _ & Ht & Hr & Hs).
  exists g. split; [exact Hg|].
  destruct (turnover_facts _ _ Ht) as (raw & Hrate & H20 & H15 & Hlt).
  destruct (rebounding_facts _ _ Hr) as (diff & _ & _ & Hlr).
  pose proof (shot_facts _ _ _ Hs) as Hls.
  pose proof (fun pa => in_action_items g pa Hlt Hlr Hls) as Hin.
  split.
  - intros rate H. apply Hin in H.
    destruct H as [[_ [=]] | [[Hgt [= ->]] | [(rec & _ & [=]) |
                  [(rec & _ & [=]) | (rec & _ & [=])]]]].
    split; [reflexivity|].
    apply gtb_gt in Hgt. rewrite Hrate in Hgt.
    apply (round_gt_inv raw 2 15) in Hgt.
    destruct (H15 Hgt) as [Hc | Hw]; [left | right];
      apply Hin; right; right; left; eauto.
  - intros rate H. unfold _identify_key_weakness in H. cbv zeta in H.
    destruct (REB.rebound_margin (rebounding g) <? -5)%Z; [discriminate|].
    destruct (TO.our_to_rate (turnovers g) >? 20) eqn:E20.
    2:{ destruct (ltb _ _); discriminate. }
    injection H as <-. apply gtb_gt in E20. split.
    + apply Hin. right. left. split; [|reflexivity].
      apply gtb_gt. lra.
    + rewrite Hrate in E20. apply (round_gt_inv raw 2 20) in E20.
      apply Hin. right. right. left. eauto.
Qed.

(** X24. A rebounding deficit is always backed by the rebounding report.
    If the key weakness is the rebounding deficit (margin under -5), the
    action items hold the report's recommendation on losing the rebounding
    battle, the win/loss factors say that the rebounding battle was lost,
    with the same margin, and rebounding is not named as the key
    strength. *)
Theorem rebounding_deficit_backed (float_of_str : string -> option Q)
    (self : GameAnalyzer) :
  exists g,
    GammaPrompt.__init__ float_of_str self = Some g /\
    forall margin,
      _identify_key_weakness g = Rebounding_deficit margin ->
      In (REBOUNDING, Rebounding_advice REB.Losing_battle)
         (_format_action_items g) /\
      In (Lost_rebounding margin) (_generate_win_loss_factors g) /\
      _identify_key_strength g <> Strong_rebounding.
Proof.
  destruct (init_reports float_of_str self)
    as (g & Hg & _ & _ & Ht & Hr & Hs).
  exists g. split; [exact Hg|].
  destruct (turnover_facts _ _ Ht) as (raw & _ & _ & _ & Hlt).
  destruct (rebounding_facts _ _ Hr) as (diff & Hmargin & Hlose & Hlr).
  pose proof (shot_facts _ _ _ Hs) as Hls.
  intros margin H. unfold _identify_key_weakness in H. cbv zeta in H.
  destruct (REB.rebound_margin (rebounding g) <? -5)%Z eqn:E.
  2:{ destruct (_ >? 20); [discriminate|]. destruct (ltb _ _); discriminate. }
  injection H as <-. apply Z.ltb_lt in E.
  assert (Hpos : (REB.rebound_margin (rebounding g) >? 0)%Z = false).
  { rewrite Z.gtb_ltb. apply Z.ltb_ge. lia. }
  repeat split.
  - apply (in_action_items g _ Hlt Hlr Hls). right. right. right. left.
    exists REB.Losing_battle. split; [|reflexivity]. apply Hlose.
    pose proof (lt_int_succ diff) as Hd. rewrite <- Hmargin in Hd.
    eapply Qlt_le_trans; [exact Hd|].
    change (-5) with (inject_Z (-5)). rewrite <- Zle_Qle. lia.
  - unfold _generate_win_loss_factors. cbv zeta. rewrite Hpos.
    rewrite !in_app_iff. left. right. now left.
  - unfold _identify_key_strength. cbv zeta. rewrite Hpos.
    destruct (_ >? _); [discriminate|]. destruct (ltb _ _); discriminate.
Qed.

(** X25. The summary never contradicts the win/loss factors.  For any
    generator: the key strength named is one the factors mark as won
    (shooting with the same difference, turnover control, rebounding with
    the same margin), and when no strength is found the factors mark
    shooting, turnovers and rebounding as lost; a key weakness of lower
    offensive efficiency comes with the factor of lower points per
    possession and with the urgent efficiency item first among the action
    items. *)
Theorem summary_matches_factors (g : GammaPromptGenerator) :
  let factors := _generate_win_loss_factors g in
  let margin := REB.rebound_margin (rebounding g) in
  length factors = 4%nat /\
  (forall our opp,
      _identify_key_strength g = Shooting_efficiency our opp ->
      In (Better_shooting (our - opp)) factors) /\
  (_identify_key_strength g = Turnover_control ->
   In (Better_turnover_control
         (TO.opp_to_rate (turnovers g) - TO.our_to_rate (turnovers g)))
      factors) /\
  (_identify_key_strength g = Strong_rebounding ->
   In (Won_rebounding margin) factors) /\
  (_identify_key_strength g = Consistent_performance ->
   exists d1 d2, In (Lower_shooting d1) factors /\
                 In (Higher_turnover_rate d2) factors /\
                 In (Lost_rebounding margin) factors) /\
  (forall our opp,
      _identify_key_weakness g = Lower_efficiency our opp ->
      In (Lower_ppp (our - opp)) factors /\
      hd_error (_format_action_items g)
      = Some (HIGH_PRIORITY, Improve_efficiency our opp)).
Proof.
  intros factors margin. subst factors margin.
  unfold _generate_win_loss_factors, _identify_key_strength,
    _identify_key_weakness.
  cbv zeta. cbn [app].
  set (our := our_team (efficiency g)). set (opp := opponent (efficiency g)).
  set (our_rate := TO.our_to_rate (turnovers g)).
  set (opp_rate := TO.opp_to_rate (turnovers g)).
  set (m := REB.rebound_margin (rebounding g)).
  split; [reflexivity|].
  split.
  { intros a b H. destruct (efg our >? opp_efg opp).
    - injection H as <- <-. cbn [In]. auto 10.
    - destruct (ltb our_rate opp_rate); [discriminate|].
      destruct (m >? 0)%Z; discriminate. }
  split.
  { intros H. destruct (efg our >? opp_efg opp); [discriminate|].
    destruct (ltb our_rate opp_rate); [cbn [In]; auto 10|].
    destruct (m >? 0)%Z; discriminate. }
  split.
  { intros H. destruct (efg our >? opp_efg opp); [discriminate|].
    destruct (ltb our_rate opp_rate); [discriminate|].
    destruct (m >? 0)%Z; [cbn [In]; auto 10 | discriminate]. }
  split.
  { intros H. destruct (efg our >? opp_efg opp); [discriminate|].
    destruct (ltb our_rate opp_rate); [discriminate|].
    destruct (m >? 0)%Z; [discriminate|].
    do 2 eexists. cbn [In]. repeat split; eauto 10. }
  intros a b H.
  destruct (m <? -5)%Z; [discriminate|].
  destruct (our_rate >? 20); [discriminate|].
  destruct (ltb (ppp our) (opp_ppp opp)) eqn:Eppp; [|discriminate].
  injection H as <- <-.
  assert (Hgt : (ppp our >? opp_ppp opp) = false)
    by (apply gtb_le; apply ltb_lt in Eppp; lra).
  rewrite Hgt. split; [cbn [In]; auto|].
  unfold _format_action_items. cbv zeta. fold our opp our_rate.
  rewrite Eppp. destruct (our_rate >? 15); reflexivity.
Qed.

(** *** The player lists *)

Lemma enumerate1_spec {E} (l : list E) (n : nat) :
  map fst (combine (seq n (length l)) l) = seq n (length l) /\
  map snd (combine (seq n (length l)) l) = l /\
  length (combine (seq n (length l)) l) = length l.
Proof.
  revert n. induction l as [|x l IH]; intros n; [now repeat split|].
  destruct (IH (S n)) as (H1 & H2 & H3). cbn. now rewrite H1, H2, H3.
Qed.

Lemma format_lines {E} (top ranked : list E) :
  top = firstn 5 ranked ->
  match match top with
        | [] => No_players
        | _ => Numbered (enumerate1 (firstn 5 top))
        end with
  | No_players => ranked = []
  | Numbered lines =>
      map fst lines = seq 1 (length lines) /\
      map snd lines = firstn 5 ranked /\
      (1 <= length lines <= 5)%nat
  end.
Proof.
  intros ->. destruct (firstn 5 ranked) as [|x top] eqn:Hf.
  - now destruct ranked.
  - assert (Hlen : (length (x :: top) <= 5)%nat)
      by (rewrite <- Hf; apply SortFacts.firstn_5_length).
    rewrite firstn_all2 by exact Hlen. unfold enumerate1.
    destruct (enumerate1_spec (x :: top) 1) as (H1 & H2 & H3).
    rewrite H3. repeat split; try assumption. simpl. lia.
Qed.

(** X26. The player lists of the report.  For every analyzer, each of the
    three lists (turnovers, rebounds, shooting) is the fallback sentence
    exactly when no player qualified for the ranking; otherwise it has one
    line per returned player, between one and five, numbered 1, 2, ... in
    the order of the ranking: the formatter's own cut at five never drops a
    player the report returned. *)
Theorem player_lists_numbered (float_of_str : string -> option Q)
    (self : GameAnalyzer) :
  exists g to_ranked reb_ranked shot_ranked,
    GammaPrompt.__init__ float_of_str self = Some g /\
    player_turnovers self = Some to_ranked /\
    player_rebounds self = Some reb_ranked /\
    player_shots float_of_str self = Some shot_ranked /\
    match _format_turnover_players g with
    | No_players => to_ranked = []
    | Numbered lines =>
        map fst lines = seq 1 (length lines) /\
        map snd lines = firstn 5 to_ranked /\
        (1 <= length lines <= 5)%nat
    end /\
    match _format_rebounding_players g with
    | No_players => reb_ranked = []
    | Numbered lines =>
        map fst lines = seq 1 (length lines) /\
        map snd lines = firstn 5 reb_ranked /\
        (1 <= length lines <= 5)%nat
    end /\
    match _format_shooting_players g with
    | No_players => shot_ranked = []
    | Numbered lines =>
        map fst lines = seq 1 (length lines) /\
        map snd lines = firstn 5 shot_ranked /\
        (1 <= length lines <= 5)%nat
    end.
Proof.
  destruct (init_reports float_of_str self)
    as (g & Hg & _ & _ & Ht & Hr & Hs).
  destruct (GameFacts.analyze_turnovers_total self)
    as (t & tl & Ht' & Htl & Htop & _).
  destruct (GameFacts.analyze_rebounding_total self)
    as (r & rl & Hr' & Hrl & Hrtop).
  destruct (GameFacts.optimize_shot_selection_total float_of_str self)
    as (s & sl & Hs' & Hsl & Hstop).
  rewrite Ht in Ht'. injection Ht' as <-.
  rewrite Hr in Hr'. injection Hr' as <-.
  rewrite Hs in Hs'. injection Hs' as <-.
  exists g, tl, rl, sl. repeat (split; [assumption|]).
  split; [|split].
  - exact (format_lines _ _ Htop).
  - exact (format_lines _ _ Hrtop).
  - exact (format_lines _ _ Hstop).
Qed.

End Interpreted.

End GammaFacts.

(** ** The shot-chart program *)

Module MainFacts.

Import Py PyFacts ProcessShots ZoneMatrix VisualizeShots Main Spec ShotFacts
  ChartFacts.
Local Open Scope Q_scope.
Local Open Scope py_scope.

Lemma absent_iff (c : string) (cols : list string) :
  negb (existsb (String.eqb c) cols) = true <-> ~ In c cols.
Proof.
  rewrite negb_true_iff, <- not_true_iff_false, existsb_exists.
  split; intros H.
  - intros Hc. apply H. exists c. split; [exact Hc | apply String.eqb_refl].
  - intros (x & Hx & E). apply String.eqb_eq in E. now subst x.
Qed.

(** X27. A shot file without one of the columns X, Y, ShotType, Result is
    rejected: [main] reports the missing columns, exactly the required
    ones that the header lacks, and computes nothing. *)
Theorem main_missing_columns (df : DataFrame) (col : string) :
  In col required_columns -> ~ In col (columns df) ->
  exists missing,
    main (Some df) = Missing_columns missing /\
    forall c, In c missing <-> In c required_columns /\ ~ In c (columns df).
Proof.
  intros Hreq Habs. unfold main. cbv zeta.
  set (missing := filter _ required_columns).
  assert (Hin : forall c, In c missing <->
                          In c required_columns /\ ~ In c (columns df)).
  { intros c. subst missing. now rewrite filter_In, absent_iff. }
  destruct missing as [|m missing'] eqn:E.
  - exfalso. apply (proj2 (Hin col)). now split.
  - eexists. split; [reflexivity | exact Hin].
Qed.

Lemma main_missing_columns_witness :
  exists missing,
    main (Some {| columns := ["Player"; "X"; "Result"]%string; data := [] |})
    = Missing_columns missing /\
    missing = ["Y"; "ShotType"]%string.
Proof.
  destruct (main_missing_columns
              {| columns := ["Player"; "X"; "Result"]%string; data := [] |}
              "Y"%string) as (missing & H & _).
  - simpl. tauto.
  - simpl. intros [H | [H | [H | []]]]; discriminate.
  - exists missing. split; [exact H|].
    vm_compute in H. now injection H as <-.
Defined.

(** X28. A shot file with the four required columns, numeric coordinates
    and at least one shot whose type is text goes through: [main] raises
    nothing, the zone table has the 25 rows of the 5 x 5 grid, and the four
    figures are drawn from it: the comparison with both panels, the
    combined chart, and the two single-panel charts; every panel has the
    colour range up to 3 and writes, zone by zone, what the table says.  A
    file with the columns but without any shot makes [main] raise. *)
Theorem main_visualizations (df : DataFrame) :
  incl required_columns (columns df) ->
  (data df = [] -> main (Some df) = Raised) /\
  (has_shot_type (data df) ->
  exists rows fig1 fig2 fig3 fig4,
    main (Some df) = Visualizations rows fig1 fig2 fig3 fig4 /\
    calculate_zone_stats (data df) 94 50 5 5 = Some rows /\
    map (fun z => (Row z, Col z)) rows = list_prod (range 5) (range 5) /\
    map panel_title fig1
    = ["Points Per Shot"; "Points Per Possession"]%string /\
    map panel_title fig3 = ["Points Per Shot"%string] /\
    map panel_title fig4 = ["Points Per Possession"%string] /\
    Forall (fun p =>
              vmax p = 3 /\
              annotations p = map (fun z => (Row z, Col z, cell_text z)) rows)
           (fig1 ++ fig3 ++ fig4) /\
    vmax fig2 = 3 /\
    annotations fig2
    = map (fun z => (Row z, Col z, combined_cell_text z)) rows).
Proof.
  intros Hincl.
  assert (Hm : filter (fun c => negb (existsb (String.eqb c) (columns df)))
                 required_columns = []).
  { destruct (filter _ required_columns) as [|c l] eqn:E; [reflexivity|].
    assert (Hc : In c (c :: l)) by now left.
    rewrite <- E, filter_In, absent_iff in Hc.
    destruct Hc as [Hreq Habs]. exfalso. apply Habs. now apply Hincl. }
  split.
  { intros Hempty. unfold main. cbv zeta. rewrite Hm, Hempty.
    reflexivity. }
  intros Htext.
  destruct (calculate_zone_stats_spec (data df) default_court_width
              default_court_length 5 5 Htext) as (rows & Hrows & HF);
    [apply nonzero_of_pos; reflexivity .. |].
  destruct (shot_chart_computed _ _ _ _ _ _ true true HF)
    as (fig1 & H1 & T1 & _ & P1); [lia | lia |].
  destruct (combined_chart_computed _ _ _ _ _ _ HF)
    as (fig2 & H2 & _ & V2 & _ & _ & A2); [lia | lia |].
  destruct (shot_chart_computed _ _ _ _ _ _ true false HF)
    as (fig3 & H3 & T3 & _ & P3); [lia | lia |].
  destruct (shot_chart_computed _ _ _ _ _ _ false true HF)
    as (fig4 & H4 & T4 & _ & P4); [lia | lia |].
  exists rows, fig1, fig2, fig3, fig4.
  split.
  { unfold main. cbv zeta. rewrite Hm, Hrows. cbn [bind].
    rewrite H1. cbn [bind]. rewrite H2. cbn [bind].
    rewrite H3. cbn [bind]. rewrite H4. reflexivity. }
  split; [exact Hrows|].
  split; [exact (zone_keys _ _ _ _ _ _ _ HF)|].
  split; [exact T1|]. split; [exact T3|]. split; [exact T4|].
  split; [|split; [exact V2 | exact A2]].
  rewrite !Forall_app. repeat split;
    (eapply Forall_impl; [|eassumption]); cbv beta; tauto.
Qed.

Lemma main_visualizations_witness :
  exists rows fig1 fig2 fig3 fig4,
    main (Some {| columns := ["Player"; "ShotType"; "Result"; "X"; "Y"]%string;
                  data := shots |})
    = Visualizations rows fig1 fig2 fig3 fig4 /\
    length rows = 25%nat /\ length fig1 = 2%nat.
Proof.
  destruct (main_visualizations
              {| columns := ["Player"; "ShotType"; "Result"; "X"; "Y"]%string;
                 data := shots |})
    as [_ Hfigs].
  - intros c Hc. simpl in Hc |- *. tauto.
  - destruct Hfigs as (rows & fig1 & fig2 & fig3 & fig4 & H & _);
      [reflexivity|].
    exists rows, fig1, fig2, fig3, fig4. split; [exact H|].
    vm_compute in H. injection H as <- <- _ _ _. split; reflexivity.
Defined.

End MainFacts.
